(** * Device-identifier resolution service: a shallow embedding

    The development follows [device_lookup_api.py]: the per-vendor format
    regexes, the fifteen [get_<vendor>_model_name] resolvers and the fifteen
    [/lookup/<vendor>] route handlers.  [dell_lookup_api.py] and the second
    copy of [device_lookup_api.py] repeat the same functions verbatim (only
    the [login_required] decorator differs), so one embedding covers the
    three files.

    Modelling choices.
    - A Python [str] is a [string]: a sequence of Unicode code points, each
      a number.  The classes of characters that depend on the Unicode
      database ([\d] and [\s] in a [str] pattern, [str.isdigit],
      [str.strip], [str.upper]) are the tables of Unicode 14.0, the version
      of Python 3.11.  So [\d] is any decimal digit of any script, whereas
      [[0-9]] is the ten ASCII digits.
    - A [dict] literal is a [gmap string string].
    - [requests.get] followed by [raise_for_status] and by the parsing of
      the body is a query to a [network] oracle; every query is logged, so
      that "no network call" is a statement about the log.
    - A parsed page ([BeautifulSoup]) is the document-order list of its
      elements, each with its tag name, classes, id and text.
    - A computation either returns a value or propagates an exception that
      no [except] clause on its way catches. *)

From Stdlib Require Import NArith List Bool Arith Lia.
From Stdlib.Strings Require Import Byte.
From stdpp Require Import base gmap.
Import ListNotations.

(** ** Characters and strings *)

(** A character is its code point. *)
Definition char : Type := N.

Bind Scope N_scope with char.

(** A Python [str]. *)
Inductive string : Type :=
| EmptyString
| String (c : char) (s : string).

Arguments String c%_N s.

(** String literals are written for ASCII text. *)
Fixpoint string_of_bytes (l : list byte) : option string :=
  match l with
  | [] => Some EmptyString
  | b :: l' =>
      if (Byte.to_N b <? 128)%N
      then option_map (String (Byte.to_N b)) (string_of_bytes l')
      else None
  end.

Fixpoint bytes_of_string (s : string) : option (list byte) :=
  match s with
  | EmptyString => Some []
  | String c s' =>
      match (if (c <? 128)%N then Byte.of_N c else None), bytes_of_string s' with
      | Some b, Some l => Some (b :: l)
      | _, _ => None
      end
  end.

Declare Scope string_scope.
Delimit Scope string_scope with string.
Bind Scope string_scope with string.
String Notation string string_of_bytes bytes_of_string : string_scope.

(** [a + b] on strings *)
Fixpoint append (a b : string) : string :=
  match a with
  | EmptyString => b
  | String c a' => String c (append a' b)
  end.

Arguments append : simpl never.
Infix "++" := append (right associativity, at level 60) : string_scope.

Open Scope string_scope.
Open Scope nat_scope.

(** Strings are the keys of the dictionaries. *)
Fixpoint codes (s : string) : list N :=
  match s with
  | EmptyString => []
  | String c s' => c :: codes s'
  end.

Fixpoint of_codes (l : list N) : string :=
  match l with
  | [] => EmptyString
  | c :: l' => String c (of_codes l')
  end.

Fixpoint of_codes_codes (s : string) : of_codes (codes s) = s :=
  match s with
  | EmptyString => eq_refl
  | String c s' => f_equal (String c) (of_codes_codes s')
  end.

#[global] Instance string_eq_dec : EqDecision string :=
  fun a b =>
    match decide (codes a = codes b) with
    | left H =>
        left (eq_trans (eq_sym (of_codes_codes a))
                (eq_trans (f_equal of_codes H) (of_codes_codes b)))
    | right H => right (fun E => H (f_equal codes E))
    end.

#[global] Instance string_countable : Countable string :=
  inj_countable' codes of_codes of_codes_codes.

(** ** The Unicode character database (version 14.0) *)

Module Unicode.

(** The code points on which [str.isspace] holds; [\s] in a [str] pattern
    and [str.strip()] use the same set. *)
Definition SPACE_RANGES : list (N * N) :=
  [ (9, 13); (28, 32); (133, 133); (160, 160); (5760, 5760); (8192, 8202); (8232, 8233);
    (8239, 8239); (8287, 8287); (12288, 12288) ]%N.

(** The code points of category Nd, on which [str.isdecimal] holds: what
    [\d] matches in a [str] pattern. *)
Definition DECIMAL_RANGES : list (N * N) :=
  [ (48, 57); (1632, 1641); (1776, 1785); (1984, 1993); (2406, 2415); (2534, 2543);
    (2662, 2671); (2790, 2799); (2918, 2927); (3046, 3055); (3174, 3183); (3302, 3311);
    (3430, 3439); (3558, 3567); (3664, 3673); (3792, 3801); (3872, 3881); (4160, 4169);
    (4240, 4249); (6112, 6121); (6160, 6169); (6470, 6479); (6608, 6617); (6784, 6793);
    (6800, 6809); (6992, 7001); (7088, 7097); (7232, 7241); (7248, 7257); (42528, 42537);
    (43216, 43225); (43264, 43273); (43472, 43481); (43504, 43513); (43600, 43609);
    (44016, 44025); (65296, 65305); (66720, 66729); (68912, 68921); (69734, 69743);
    (69872, 69881); (69942, 69951); (70096, 70105); (70384, 70393); (70736, 70745);
    (70864, 70873); (71248, 71257); (71360, 71369); (71472, 71481); (71904, 71913);
    (72016, 72025); (72784, 72793); (73040, 73049); (73120, 73129); (92768, 92777);
    (92864, 92873); (93008, 93017); (120782, 120831); (123200, 123209); (123632, 123641);
    (125264, 125273); (130032, 130041) ]%N.

(** The code points on which [str.isdigit] holds (numeric type Digit or
    Decimal). *)
Definition DIGIT_RANGES : list (N * N) :=
  [ (48, 57); (178, 179); (185, 185); (1632, 1641); (1776, 1785); (1984, 1993);
    (2406, 2415); (2534, 2543); (2662, 2671); (2790, 2799); (2918, 2927); (3046, 3055);
    (3174, 3183); (3302, 3311); (3430, 3439); (3558, 3567); (3664, 3673); (3792, 3801);
    (3872, 3881); (4160, 4169); (4240, 4249); (4969, 4977); (6112, 6121); (6160, 6169);
    (6470, 6479); (6608, 6618); (6784, 6793); (6800, 6809); (6992, 7001); (7088, 7097);
    (7232, 7241); (7248, 7257); (8304, 8304); (8308, 8313); (8320, 8329); (9312, 9320);
    (9332, 9340); (9352, 9360); (9450, 9450); (9461, 9469); (9471, 9471); (10102, 10110);
    (10112, 10120); (10122, 10130); (42528, 42537); (43216, 43225); (43264, 43273);
    (43472, 43481); (43504, 43513); (43600, 43609); (44016, 44025); (65296, 65305);
    (66720, 66729); (68160, 68163); (68912, 68921); (69216, 69224); (69714, 69722);
    (69734, 69743); (69872, 69881); (69942, 69951); (70096, 70105); (70384, 70393);
    (70736, 70745); (70864, 70873); (71248, 71257); (71360, 71369); (71472, 71481);
    (71904, 71913); (72016, 72025); (72784, 72793); (73040, 73049); (73120, 73129);
    (92768, 92777); (92864, 92873); (93008, 93017); (120782, 120831); (123200, 123209);
    (123632, 123641); (125264, 125273); (127232, 127242); (130032, 130041) ]%N.

(** [c.upper()] for every code point [c] that [str.upper] changes, as the
    code points of the result; a few become two or three characters. *)
Definition UPPER_TABLE : list (N * list N) :=
  [ (97, [65]); (98, [66]); (99, [67]); (100, [68]); (101, [69]); (102, [70]); (103, [71]);
    (104, [72]); (105, [73]); (106, [74]); (107, [75]); (108, [76]); (109, [77]);
    (110, [78]); (111, [79]); (112, [80]); (113, [81]); (114, [82]); (115, [83]);
    (116, [84]); (117, [85]); (118, [86]); (119, [87]); (120, [88]); (121, [89]);
    (122, [90]); (181, [924]); (223, [83; 83]); (224, [192]); (225, [193]); (226, [194]);
    (227, [195]); (228, [196]); (229, [197]); (230, [198]); (231, [199]); (232, [200]);
    (233, [201]); (234, [202]); (235, [203]); (236, [204]); (237, [205]); (238, [206]);
    (239, [207]); (240, [208]); (241, [209]); (242, [210]); (243, [211]); (244, [212]);
    (245, [213]); (246, [214]); (248, [216]); (249, [217]); (250, [218]); (251, [219]);
    (252, [220]); (253, [221]); (254, [222]); (255, [376]); (257, [256]); (259, [258]);
    (261, [260]); (263, [262]); (265, [264]); (267, [266]); (269, [268]); (271, [270]);
    (273, [272]); (275, [274]); (277, [276]); (279, [278]); (281, [280]); (283, [282]);
    (285, [284]); (287, [286]); (289, [288]); (291, [290]); (293, [292]); (295, [294]);
    (297, [296]); (299, [298]); (301, [300]); (303, [302]); (305, [73]); (307, [306]);
    (309, [308]); (311, [310]); (314, [313]); (316, [315]); (318, [317]); (320, [319]);
    (322, [321]); (324, [323]); (326, [325]); (328, [327]); (329, [700; 78]); (331, [330]);
    (333, [332]); (335, [334]); (337, [336]); (339, [338]); (341, [340]); (343, [342]);
    (345, [344]); (347, [346]); (349, [348]); (351, [350]); (353, [352]); (355, [354]);
    (357, [356]); (359, [358]); (361, [360]); (363, [362]); (365, [364]); (367, [366]);
    (369, [368]); (371, [370]); (373, [372]); (375, [374]); (378, [377]); (380, [379]);
    (382, [381]); (383, [83]); (384, [579]); (387, [386]); (389, [388]); (392, [391]);
    (396, [395]); (402, [401]); (405, [502]); (409, [408]); (410, [573]); (414, [544]);
    (417, [416]); (419, [418]); (421, [420]); (424, [423]); (429, [428]); (432, [431]);
    (436, [435]); (438, [437]); (441, [440]); (445, [444]); (447, [503]); (453, [452]);
    (454, [452]); (456, [455]); (457, [455]); (459, [458]); (460, [458]); (462, [461]);
    (464, [463]); (466, [465]); (468, [467]); (470, [469]); (472, [471]); (474, [473]);
    (476, [475]); (477, [398]); (479, [478]); (481, [480]); (483, [482]); (485, [484]);
    (487, [486]); (489, [488]); (491, [490]); (493, [492]); (495, [494]); (496, [74; 780]);
    (498, [497]); (499, [497]); (501, [500]); (505, [504]); (507, [506]); (509, [508]);
    (511, [510]); (513, [512]); (515, [514]); (517, [516]); (519, [518]); (521, [520]);
    (523, [522]); (525, [524]); (527, [526]); (529, [528]); (531, [530]); (533, [532]);
    (535, [534]); (537, [536]); (539, [538]); (541, [540]); (543, [542]); (547, [546]);
    (549, [548]); (551, [550]); (553, [552]); (555, [554]); (557, [556]); (559, [558]);
    (561, [560]); (563, [562]); (572, [571]); (575, [11390]); (576, [11391]); (578, [577]);
    (583, [582]); (585, [584]); (587, [586]); (589, [588]); (591, [590]); (592, [11375]);
    (593, [11373]); (594, [11376]); (595, [385]); (596, [390]); (598, [393]); (599, [394]);
    (601, [399]); (603, [400]); (604, [42923]); (608, [403]); (609, [42924]); (611, [404]);
    (613, [42893]); (614, [42922]); (616, [407]); (617, [406]); (618, [42926]);
    (619, [11362]); (620, [42925]); (623, [412]); (625, [11374]); (626, [413]); (629, [415]);
    (637, [11364]); (640, [422]); (642, [42949]); (643, [425]); (647, [42929]); (648, [430]);
    (649, [580]); (650, [433]); (651, [434]); (652, [581]); (658, [439]); (669, [42930]);
    (670, [42928]); (837, [921]); (881, [880]); (883, [882]); (887, [886]); (891, [1021]);
    (892, [1022]); (893, [1023]); (912, [921; 776; 769]); (940, [902]); (941, [904]);
    (942, [905]); (943, [906]); (944, [933; 776; 769]); (945, [913]); (946, [914]);
    (947, [915]); (948, [916]); (949, [917]); (950, [918]); (951, [919]); (952, [920]);
    (953, [921]); (954, [922]); (955, [923]); (956, [924]); (957, [925]); (958, [926]);
    (959, [927]); (960, [928]); (961, [929]); (962, [931]); (963, [931]); (964, [932]);
    (965, [933]); (966, [934]); (967, [935]); (968, [936]); (969, [937]); (970, [938]);
    (971, [939]); (972, [908]); (973, [910]); (974, [911]); (976, [914]); (977, [920]);
    (981, [934]); (982, [928]); (983, [975]); (985, [984]); (987, [986]); (989, [988]);
    (991, [990]); (993, [992]); (995, [994]); (997, [996]); (999, [998]); (1001, [1000]);
    (1003, [1002]); (1005, [1004]); (1007, [1006]); (1008, [922]); (1009, [929]);
    (1010, [1017]); (1011, [895]); (1013, [917]); (1016, [1015]); (1019, [1018]);
    (1072, [1040]); (1073, [1041]); (1074, [1042]); (1075, [1043]); (1076, [1044]);
    (1077, [1045]); (1078, [1046]); (1079, [1047]); (1080, [1048]); (1081, [1049]);
    (1082, [1050]); (1083, [1051]); (1084, [1052]); (1085, [1053]); (1086, [1054]);
    (1087, [1055]); (1088, [1056]); (1089, [1057]); (1090, [1058]); (1091, [1059]);
    (1092, [1060]); (1093, [1061]); (1094, [1062]); (1095, [1063]); (1096, [1064]);
    (1097, [1065]); (1098, [1066]); (1099, [1067]); (1100, [1068]); (1101, [1069]);
    (1102, [1070]); (1103, [1071]); (1104, [1024]); (1105, [1025]); (1106, [1026]);
    (1107, [1027]); (1108, [1028]); (1109, [1029]); (1110, [1030]); (1111, [1031]);
    (1112, [1032]); (1113, [1033]); (1114, [1034]); (1115, [1035]); (1116, [1036]);
    (1117, [1037]); (1118, [1038]); (1119, [1039]); (1121, [1120]); (1123, [1122]);
    (1125, [1124]); (1127, [1126]); (1129, [1128]); (1131, [1130]); (1133, [1132]);
    (1135, [1134]); (1137, [1136]); (1139, [1138]); (1141, [1140]); (1143, [1142]);
    (1145, [1144]); (1147, [1146]); (1149, [1148]); (1151, [1150]); (1153, [1152]);
    (1163, [1162]); (1165, [1164]); (1167, [1166]); (1169, [1168]); (1171, [1170]);
    (1173, [1172]); (1175, [1174]); (1177, [1176]); (1179, [1178]); (1181, [1180]);
    (1183, [1182]); (1185, [1184]); (1187, [1186]); (1189, [1188]); (1191, [1190]);
    (1193, [1192]); (1195, [1194]); (1197, [1196]); (1199, [1198]); (1201, [1200]);
    (1203, [1202]); (1205, [1204]); (1207, [1206]); (1209, [1208]); (1211, [1210]);
    (1213, [1212]); (1215, [1214]); (1218, [1217]); (1220, [1219]); (1222, [1221]);
    (1224, [1223]); (1226, [1225]); (1228, [1227]); (1230, [1229]); (1231, [1216]);
    (1233, [1232]); (1235, [1234]); (1237, [1236]); (1239, [1238]); (1241, [1240]);
    (1243, [1242]); (1245, [1244]); (1247, [1246]); (1249, [1248]); (1251, [1250]);
    (1253, [1252]); (1255, [1254]); (1257, [1256]); (1259, [1258]); (1261, [1260]);
    (1263, [1262]); (1265, [1264]); (1267, [1266]); (1269, [1268]); (1271, [1270]);
    (1273, [1272]); (1275, [1274]); (1277, [1276]); (1279, [1278]); (1281, [1280]);
    (1283, [1282]); (1285, [1284]); (1287, [1286]); (1289, [1288]); (1291, [1290]);
    (1293, [1292]); (1295, [1294]); (1297, [1296]); (1299, [1298]); (1301, [1300]);
    (1303, [1302]); (1305, [1304]); (1307, [1306]); (1309, [1308]); (1311, [1310]);
    (1313, [1312]); (1315, [1314]); (1317, [1316]); (1319, [1318]); (1321, [1320]);
    (1323, [1322]); (1325, [1324]); (1327, [1326]); (1377, [1329]); (1378, [1330]);
    (1379, [1331]); (1380, [1332]); (1381, [1333]); (1382, [1334]); (1383, [1335]);
    (1384, [1336]); (1385, [1337]); (1386, [1338]); (1387, [1339]); (1388, [1340]);
    (1389, [1341]); (1390, [1342]); (1391, [1343]); (1392, [1344]); (1393, [1345]);
    (1394, [1346]); (1395, [1347]); (1396, [1348]); (1397, [1349]); (1398, [1350]);
    (1399, [1351]); (1400, [1352]); (1401, [1353]); (1402, [1354]); (1403, [1355]);
    (1404, [1356]); (1405, [1357]); (1406, [1358]); (1407, [1359]); (1408, [1360]);
    (1409, [1361]); (1410, [1362]); (1411, [1363]); (1412, [1364]); (1413, [1365]);
    (1414, [1366]); (1415, [1333; 1362]); (4304, [7312]); (4305, [7313]); (4306, [7314]);
    (4307, [7315]); (4308, [7316]); (4309, [7317]); (4310, [7318]); (4311, [7319]);
    (4312, [7320]); (4313, [7321]); (4314, [7322]); (4315, [7323]); (4316, [7324]);
    (4317, [7325]); (4318, [7326]); (4319, [7327]); (4320, [7328]); (4321, [7329]);
    (4322, [7330]); (4323, [7331]); (4324, [7332]); (4325, [7333]); (4326, [7334]);
    (4327, [7335]); (4328, [7336]); (4329, [7337]); (4330, [7338]); (4331, [7339]);
    (4332, [7340]); (4333, [7341]); (4334, [7342]); (4335, [7343]); (4336, [7344]);
    (4337, [7345]); (4338, [7346]); (4339, [7347]); (4340, [7348]); (4341, [7349]);
    (4342, [7350]); (4343, [7351]); (4344, [7352]); (4345, [7353]); (4346, [7354]);
    (4349, [7357]); (4350, [7358]); (4351, [7359]); (5112, [5104]); (5113, [5105]);
    (5114, [5106]); (5115, [5107]); (5116, [5108]); (5117, [5109]); (7296, [1042]);
    (7297, [1044]); (7298, [1054]); (7299, [1057]); (7300, [1058]); (7301, [1058]);
    (7302, [1066]); (7303, [1122]); (7304, [42570]); (7545, [42877]); (7549, [11363]);
    (7566, [42950]); (7681, [7680]); (7683, [7682]); (7685, [7684]); (7687, [7686]);
    (7689, [7688]); (7691, [7690]); (7693, [7692]); (7695, [7694]); (7697, [7696]);
    (7699, [7698]); (7701, [7700]); (7703, [7702]); (7705, [7704]); (7707, [7706]);
    (7709, [7708]); (7711, [7710]); (7713, [7712]); (7715, [7714]); (7717, [7716]);
    (7719, [7718]); (7721, [7720]); (7723, [7722]); (7725, [7724]); (7727, [7726]);
    (7729, [7728]); (7731, [7730]); (7733, [7732]); (7735, [7734]); (7737, [7736]);
    (7739, [7738]); (7741, [7740]); (7743, [7742]); (7745, [7744]); (7747, [7746]);
    (7749, [7748]); (7751, [7750]); (7753, [7752]); (7755, [7754]); (7757, [7756]);
    (7759, [7758]); (7761, [7760]); (7763, [7762]); (7765, [7764]); (7767, [7766]);
    (7769, [7768]); (7771, [7770]); (7773, [7772]); (7775, [7774]); (7777, [7776]);
    (7779, [7778]); (7781, [7780]); (7783, [7782]); (7785, [7784]); (7787, [7786]);
    (7789, [7788]); (7791, [7790]); (7793, [7792]); (7795, [7794]); (7797, [7796]);
    (7799, [7798]); (7801, [7800]); (7803, [7802]); (7805, [7804]); (7807, [7806]);
    (7809, [7808]); (7811, [7810]); (7813, [7812]); (7815, [7814]); (7817, [7816]);
    (7819, [7818]); (7821, [7820]); (7823, [7822]); (7825, [7824]); (7827, [7826]);
    (7829, [7828]); (7830, [72; 817]); (7831, [84; 776]); (7832, [87; 778]);
    (7833, [89; 778]); (7834, [65; 702]); (7835, [7776]); (7841, [7840]); (7843, [7842]);
    (7845, [7844]); (7847, [7846]); (7849, [7848]); (7851, [7850]); (7853, [7852]);
    (7855, [7854]); (7857, [7856]); (7859, [7858]); (7861, [7860]); (7863, [7862]);
    (7865, [7864]); (7867, [7866]); (7869, [7868]); (7871, [7870]); (7873, [7872]);
    (7875, [7874]); (7877, [7876]); (7879, [7878]); (7881, [7880]); (7883, [7882]);
    (7885, [7884]); (7887, [7886]); (7889, [7888]); (7891, [7890]); (7893, [7892]);
    (7895, [7894]); (7897, [7896]); (7899, [7898]); (7901, [7900]); (7903, [7902]);
    (7905, [7904]); (7907, [7906]); (7909, [7908]); (7911, [7910]); (7913, [7912]);
    (7915, [7914]); (7917, [7916]); (7919, [7918]); (7921, [7920]); (7923, [7922]);
    (7925, [7924]); (7927, [7926]); (7929, [7928]); (7931, [7930]); (7933, [7932]);
    (7935, [7934]); (7936, [7944]); (7937, [7945]); (7938, [7946]); (7939, [7947]);
    (7940, [7948]); (7941, [7949]); (7942, [7950]); (7943, [7951]); (7952, [7960]);
    (7953, [7961]); (7954, [7962]); (7955, [7963]); (7956, [7964]); (7957, [7965]);
    (7968, [7976]); (7969, [7977]); (7970, [7978]); (7971, [7979]); (7972, [7980]);
    (7973, [7981]); (7974, [7982]); (7975, [7983]); (7984, [7992]); (7985, [7993]);
    (7986, [7994]); (7987, [7995]); (7988, [7996]); (7989, [7997]); (7990, [7998]);
    (7991, [7999]); (8000, [8008]); (8001, [8009]); (8002, [8010]); (8003, [8011]);
    (8004, [8012]); (8005, [8013]); (8016, [933; 787]); (8017, [8025]);
    (8018, [933; 787; 768]); (8019, [8027]); (8020, [933; 787; 769]); (8021, [8029]);
    (8022, [933; 787; 834]); (8023, [8031]); (8032, [8040]); (8033, [8041]); (8034, [8042]);
    (8035, [8043]); (8036, [8044]); (8037, [8045]); (8038, [8046]); (8039, [8047]);
    (8048, [8122]); (8049, [8123]); (8050, [8136]); (8051, [8137]); (8052, [8138]);
    (8053, [8139]); (8054, [8154]); (8055, [8155]); (8056, [8184]); (8057, [8185]);
    (8058, [8170]); (8059, [8171]); (8060, [8186]); (8061, [8187]); (8064, [7944; 921]);
    (8065, [7945; 921]); (8066, [7946; 921]); (8067, [7947; 921]); (8068, [7948; 921]);
    (8069, [7949; 921]); (8070, [7950; 921]); (8071, [7951; 921]); (8072, [7944; 921]);
    (8073, [7945; 921]); (8074, [7946; 921]); (8075, [7947; 921]); (8076, [7948; 921]);
    (8077, [7949; 921]); (8078, [7950; 921]); (8079, [7951; 921]); (8080, [7976; 921]);
    (8081, [7977; 921]); (8082, [7978; 921]); (8083, [7979; 921]); (8084, [7980; 921]);
    (8085, [7981; 921]); (8086, [7982; 921]); (8087, [7983; 921]); (8088, [7976; 921]);
    (8089, [7977; 921]); (8090, [7978; 921]); (8091, [7979; 921]); (8092, [7980; 921]);
    (8093, [7981; 921]); (8094, [7982; 921]); (8095, [7983; 921]); (8096, [8040; 921]);
    (8097, [8041; 921]); (8098, [8042; 921]); (8099, [8043; 921]); (8100, [8044; 921]);
    (8101, [8045; 921]); (8102, [8046; 921]); (8103, [8047; 921]); (8104, [8040; 921]);
    (8105, [8041; 921]); (8106, [8042; 921]); (8107, [8043; 921]); (8108, [8044; 921]);
    (8109, [8045; 921]); (8110, [8046; 921]); (8111, [8047; 921]); (8112, [8120]);
    (8113, [8121]); (8114, [8122; 921]); (8115, [913; 921]); (8116, [902; 921]);
    (8118, [913; 834]); (8119, [913; 834; 921]); (8124, [913; 921]); (8126, [921]);
    (8130, [8138; 921]); (8131, [919; 921]); (8132, [905; 921]); (8134, [919; 834]);
    (8135, [919; 834; 921]); (8140, [919; 921]); (8144, [8152]); (8145, [8153]);
    (8146, [921; 776; 768]); (8147, [921; 776; 769]); (8150, [921; 834]);
    (8151, [921; 776; 834]); (8160, [8168]); (8161, [8169]); (8162, [933; 776; 768]);
    (8163, [933; 776; 769]); (8164, [929; 787]); (8165, [8172]); (8166, [933; 834]);
    (8167, [933; 776; 834]); (8178, [8186; 921]); (8179, [937; 921]); (8180, [911; 921]);
    (8182, [937; 834]); (8183, [937; 834; 921]); (8188, [937; 921]); (8526, [8498]);
    (8560, [8544]); (8561, [8545]); (8562, [8546]); (8563, [8547]); (8564, [8548]);
    (8565, [8549]); (8566, [8550]); (8567, [8551]); (8568, [8552]); (8569, [8553]);
    (8570, [8554]); (8571, [8555]); (8572, [8556]); (8573, [8557]); (8574, [8558]);
    (8575, [8559]); (8580, [8579]); (9424, [9398]); (9425, [9399]); (9426, [9400]);
    (9427, [9401]); (9428, [9402]); (9429, [9403]); (9430, [9404]); (9431, [9405]);
    (9432, [9406]); (9433, [9407]); (9434, [9408]); (9435, [9409]); (9436, [9410]);
    (9437, [9411]); (9438, [9412]); (9439, [9413]); (9440, [9414]); (9441, [9415]);
    (9442, [9416]); (9443, [9417]); (9444, [9418]); (9445, [9419]); (9446, [9420]);
    (9447, [9421]); (9448, [9422]); (9449, [9423]); (11312, [11264]); (11313, [11265]);
    (11314, [11266]); (11315, [11267]); (11316, [11268]); (11317, [11269]); (11318, [11270]);
    (11319, [11271]); (11320, [11272]); (11321, [11273]); (11322, [11274]); (11323, [11275]);
    (11324, [11276]); (11325, [11277]); (11326, [11278]); (11327, [11279]); (11328, [11280]);
    (11329, [11281]); (11330, [11282]); (11331, [11283]); (11332, [11284]); (11333, [11285]);
    (11334, [11286]); (11335, [11287]); (11336, [11288]); (11337, [11289]); (11338, [11290]);
    (11339, [11291]); (11340, [11292]); (11341, [11293]); (11342, [11294]); (11343, [11295]);
    (11344, [11296]); (11345, [11297]); (11346, [11298]); (11347, [11299]); (11348, [11300]);
    (11349, [11301]); (11350, [11302]); (11351, [11303]); (11352, [11304]); (11353, [11305]);
    (11354, [11306]); (11355, [11307]); (11356, [11308]); (11357, [11309]); (11358, [11310]);
    (11359, [11311]); (11361, [11360]); (11365, [570]); (11366, [574]); (11368, [11367]);
    (11370, [11369]); (11372, [11371]); (11379, [11378]); (11382, [11381]); (11393, [11392]);
    (11395, [11394]); (11397, [11396]); (11399, [11398]); (11401, [11400]); (11403, [11402]);
    (11405, [11404]); (11407, [11406]); (11409, [11408]); (11411, [11410]); (11413, [11412]);
    (11415, [11414]); (11417, [11416]); (11419, [11418]); (11421, [11420]); (11423, [11422]);
    (11425, [11424]); (11427, [11426]); (11429, [11428]); (11431, [11430]); (11433, [11432]);
    (11435, [11434]); (11437, [11436]); (11439, [11438]); (11441, [11440]); (11443, [11442]);
    (11445, [11444]); (11447, [11446]); (11449, [11448]); (11451, [11450]); (11453, [11452]);
    (11455, [11454]); (11457, [11456]); (11459, [11458]); (11461, [11460]); (11463, [11462]);
    (11465, [11464]); (11467, [11466]); (11469, [11468]); (11471, [11470]); (11473, [11472]);
    (11475, [11474]); (11477, [11476]); (11479, [11478]); (11481, [11480]); (11483, [11482]);
    (11485, [11484]); (11487, [11486]); (11489, [11488]); (11491, [11490]); (11500, [11499]);
    (11502, [11501]); (11507, [11506]); (11520, [4256]); (11521, [4257]); (11522, [4258]);
    (11523, [4259]); (11524, [4260]); (11525, [4261]); (11526, [4262]); (11527, [4263]);
    (11528, [4264]); (11529, [4265]); (11530, [4266]); (11531, [4267]); (11532, [4268]);
    (11533, [4269]); (11534, [4270]); (11535, [4271]); (11536, [4272]); (11537, [4273]);
    (11538, [4274]); (11539, [4275]); (11540, [4276]); (11541, [4277]); (11542, [4278]);
    (11543, [4279]); (11544, [4280]); (11545, [4281]); (11546, [4282]); (11547, [4283]);
    (11548, [4284]); (11549, [4285]); (11550, [4286]); (11551, [4287]); (11552, [4288]);
    (11553, [4289]); (11554, [4290]); (11555, [4291]); (11556, [4292]); (11557, [4293]);
    (11559, [4295]); (11565, [4301]); (42561, [42560]); (42563, [42562]); (42565, [42564]);
    (42567, [42566]); (42569, [42568]); (42571, [42570]); (42573, [42572]); (42575, [42574]);
    (42577, [42576]); (42579, [42578]); (42581, [42580]); (42583, [42582]); (42585, [42584]);
    (42587, [42586]); (42589, [42588]); (42591, [42590]); (42593, [42592]); (42595, [42594]);
    (42597, [42596]); (42599, [42598]); (42601, [42600]); (42603, [42602]); (42605, [42604]);
    (42625, [42624]); (42627, [42626]); (42629, [42628]); (42631, [42630]); (42633, [42632]);
    (42635, [42634]); (42637, [42636]); (42639, [42638]); (42641, [42640]); (42643, [42642]);
    (42645, [42644]); (42647, [42646]); (42649, [42648]); (42651, [42650]); (42787, [42786]);
    (42789, [42788]); (42791, [42790]); (42793, [42792]); (42795, [42794]); (42797, [42796]);
    (42799, [42798]); (42803, [42802]); (42805, [42804]); (42807, [42806]); (42809, [42808]);
    (42811, [42810]); (42813, [42812]); (42815, [42814]); (42817, [42816]); (42819, [42818]);
    (42821, [42820]); (42823, [42822]); (42825, [42824]); (42827, [42826]); (42829, [42828]);
    (42831, [42830]); (42833, [42832]); (42835, [42834]); (42837, [42836]); (42839, [42838]);
    (42841, [42840]); (42843, [42842]); (42845, [42844]); (42847, [42846]); (42849, [42848]);
    (42851, [42850]); (42853, [42852]); (42855, [42854]); (42857, [42856]); (42859, [42858]);
    (42861, [42860]); (42863, [42862]); (42874, [42873]); (42876, [42875]); (42879, [42878]);
    (42881, [42880]); (42883, [42882]); (42885, [42884]); (42887, [42886]); (42892, [42891]);
    (42897, [42896]); (42899, [42898]); (42900, [42948]); (42903, [42902]); (42905, [42904]);
    (42907, [42906]); (42909, [42908]); (42911, [42910]); (42913, [42912]); (42915, [42914]);
    (42917, [42916]); (42919, [42918]); (42921, [42920]); (42933, [42932]); (42935, [42934]);
    (42937, [42936]); (42939, [42938]); (42941, [42940]); (42943, [42942]); (42945, [42944]);
    (42947, [42946]); (42952, [42951]); (42954, [42953]); (42961, [42960]); (42967, [42966]);
    (42969, [42968]); (42998, [42997]); (43859, [42931]); (43888, [5024]); (43889, [5025]);
    (43890, [5026]); (43891, [5027]); (43892, [5028]); (43893, [5029]); (43894, [5030]);
    (43895, [5031]); (43896, [5032]); (43897, [5033]); (43898, [5034]); (43899, [5035]);
    (43900, [5036]); (43901, [5037]); (43902, [5038]); (43903, [5039]); (43904, [5040]);
    (43905, [5041]); (43906, [5042]); (43907, [5043]); (43908, [5044]); (43909, [5045]);
    (43910, [5046]); (43911, [5047]); (43912, [5048]); (43913, [5049]); (43914, [5050]);
    (43915, [5051]); (43916, [5052]); (43917, [5053]); (43918, [5054]); (43919, [5055]);
    (43920, [5056]); (43921, [5057]); (43922, [5058]); (43923, [5059]); (43924, [5060]);
    (43925, [5061]); (43926, [5062]); (43927, [5063]); (43928, [5064]); (43929, [5065]);
    (43930, [5066]); (43931, [5067]); (43932, [5068]); (43933, [5069]); (43934, [5070]);
    (43935, [5071]); (43936, [5072]); (43937, [5073]); (43938, [5074]); (43939, [5075]);
    (43940, [5076]); (43941, [5077]); (43942, [5078]); (43943, [5079]); (43944, [5080]);
    (43945, [5081]); (43946, [5082]); (43947, [5083]); (43948, [5084]); (43949, [5085]);
    (43950, [5086]); (43951, [5087]); (43952, [5088]); (43953, [5089]); (43954, [5090]);
    (43955, [5091]); (43956, [5092]); (43957, [5093]); (43958, [5094]); (43959, [5095]);
    (43960, [5096]); (43961, [5097]); (43962, [5098]); (43963, [5099]); (43964, [5100]);
    (43965, [5101]); (43966, [5102]); (43967, [5103]); (64256, [70; 70]); (64257, [70; 73]);
    (64258, [70; 76]); (64259, [70; 70; 73]); (64260, [70; 70; 76]); (64261, [83; 84]);
    (64262, [83; 84]); (64275, [1348; 1350]); (64276, [1348; 1333]); (64277, [1348; 1339]);
    (64278, [1358; 1350]); (64279, [1348; 1341]); (65345, [65313]); (65346, [65314]);
    (65347, [65315]); (65348, [65316]); (65349, [65317]); (65350, [65318]); (65351, [65319]);
    (65352, [65320]); (65353, [65321]); (65354, [65322]); (65355, [65323]); (65356, [65324]);
    (65357, [65325]); (65358, [65326]); (65359, [65327]); (65360, [65328]); (65361, [65329]);
    (65362, [65330]); (65363, [65331]); (65364, [65332]); (65365, [65333]); (65366, [65334]);
    (65367, [65335]); (65368, [65336]); (65369, [65337]); (65370, [65338]); (66600, [66560]);
    (66601, [66561]); (66602, [66562]); (66603, [66563]); (66604, [66564]); (66605, [66565]);
    (66606, [66566]); (66607, [66567]); (66608, [66568]); (66609, [66569]); (66610, [66570]);
    (66611, [66571]); (66612, [66572]); (66613, [66573]); (66614, [66574]); (66615, [66575]);
    (66616, [66576]); (66617, [66577]); (66618, [66578]); (66619, [66579]); (66620, [66580]);
    (66621, [66581]); (66622, [66582]); (66623, [66583]); (66624, [66584]); (66625, [66585]);
    (66626, [66586]); (66627, [66587]); (66628, [66588]); (66629, [66589]); (66630, [66590]);
    (66631, [66591]); (66632, [66592]); (66633, [66593]); (66634, [66594]); (66635, [66595]);
    (66636, [66596]); (66637, [66597]); (66638, [66598]); (66639, [66599]); (66776, [66736]);
    (66777, [66737]); (66778, [66738]); (66779, [66739]); (66780, [66740]); (66781, [66741]);
    (66782, [66742]); (66783, [66743]); (66784, [66744]); (66785, [66745]); (66786, [66746]);
    (66787, [66747]); (66788, [66748]); (66789, [66749]); (66790, [66750]); (66791, [66751]);
    (66792, [66752]); (66793, [66753]); (66794, [66754]); (66795, [66755]); (66796, [66756]);
    (66797, [66757]); (66798, [66758]); (66799, [66759]); (66800, [66760]); (66801, [66761]);
    (66802, [66762]); (66803, [66763]); (66804, [66764]); (66805, [66765]); (66806, [66766]);
    (66807, [66767]); (66808, [66768]); (66809, [66769]); (66810, [66770]); (66811, [66771]);
    (66967, [66928]); (66968, [66929]); (66969, [66930]); (66970, [66931]); (66971, [66932]);
    (66972, [66933]); (66973, [66934]); (66974, [66935]); (66975, [66936]); (66976, [66937]);
    (66977, [66938]); (66979, [66940]); (66980, [66941]); (66981, [66942]); (66982, [66943]);
    (66983, [66944]); (66984, [66945]); (66985, [66946]); (66986, [66947]); (66987, [66948]);
    (66988, [66949]); (66989, [66950]); (66990, [66951]); (66991, [66952]); (66992, [66953]);
    (66993, [66954]); (66995, [66956]); (66996, [66957]); (66997, [66958]); (66998, [66959]);
    (66999, [66960]); (67000, [66961]); (67001, [66962]); (67003, [66964]); (67004, [66965]);
    (68800, [68736]); (68801, [68737]); (68802, [68738]); (68803, [68739]); (68804, [68740]);
    (68805, [68741]); (68806, [68742]); (68807, [68743]); (68808, [68744]); (68809, [68745]);
    (68810, [68746]); (68811, [68747]); (68812, [68748]); (68813, [68749]); (68814, [68750]);
    (68815, [68751]); (68816, [68752]); (68817, [68753]); (68818, [68754]); (68819, [68755]);
    (68820, [68756]); (68821, [68757]); (68822, [68758]); (68823, [68759]); (68824, [68760]);
    (68825, [68761]); (68826, [68762]); (68827, [68763]); (68828, [68764]); (68829, [68765]);
    (68830, [68766]); (68831, [68767]); (68832, [68768]); (68833, [68769]); (68834, [68770]);
    (68835, [68771]); (68836, [68772]); (68837, [68773]); (68838, [68774]); (68839, [68775]);
    (68840, [68776]); (68841, [68777]); (68842, [68778]); (68843, [68779]); (68844, [68780]);
    (68845, [68781]); (68846, [68782]); (68847, [68783]); (68848, [68784]); (68849, [68785]);
    (68850, [68786]); (71872, [71840]); (71873, [71841]); (71874, [71842]); (71875, [71843]);
    (71876, [71844]); (71877, [71845]); (71878, [71846]); (71879, [71847]); (71880, [71848]);
    (71881, [71849]); (71882, [71850]); (71883, [71851]); (71884, [71852]); (71885, [71853]);
    (71886, [71854]); (71887, [71855]); (71888, [71856]); (71889, [71857]); (71890, [71858]);
    (71891, [71859]); (71892, [71860]); (71893, [71861]); (71894, [71862]); (71895, [71863]);
    (71896, [71864]); (71897, [71865]); (71898, [71866]); (71899, [71867]); (71900, [71868]);
    (71901, [71869]); (71902, [71870]); (71903, [71871]); (93792, [93760]); (93793, [93761]);
    (93794, [93762]); (93795, [93763]); (93796, [93764]); (93797, [93765]); (93798, [93766]);
    (93799, [93767]); (93800, [93768]); (93801, [93769]); (93802, [93770]); (93803, [93771]);
    (93804, [93772]); (93805, [93773]); (93806, [93774]); (93807, [93775]); (93808, [93776]);
    (93809, [93777]); (93810, [93778]); (93811, [93779]); (93812, [93780]); (93813, [93781]);
    (93814, [93782]); (93815, [93783]); (93816, [93784]); (93817, [93785]); (93818, [93786]);
    (93819, [93787]); (93820, [93788]); (93821, [93789]); (93822, [93790]); (93823, [93791]);
    (125218, [125184]); (125219, [125185]); (125220, [125186]); (125221, [125187]);
    (125222, [125188]); (125223, [125189]); (125224, [125190]); (125225, [125191]);
    (125226, [125192]); (125227, [125193]); (125228, [125194]); (125229, [125195]);
    (125230, [125196]); (125231, [125197]); (125232, [125198]); (125233, [125199]);
    (125234, [125200]); (125235, [125201]); (125236, [125202]); (125237, [125203]);
    (125238, [125204]); (125239, [125205]); (125240, [125206]); (125241, [125207]);
    (125242, [125208]); (125243, [125209]); (125244, [125210]); (125245, [125211]);
    (125246, [125212]); (125247, [125213]); (125248, [125214]); (125249, [125215]);
    (125250, [125216]); (125251, [125217]) ]%N.

End Unicode.

Module Str.

(** [len(s)] *)
Fixpoint length (s : string) : nat :=
  match s with
  | EmptyString => 0
  | String _ s' => S (length s')
  end.

(** [a == b] *)
Fixpoint eqb (a b : string) : bool :=
  match a, b with
  | EmptyString, EmptyString => true
  | String c a', String d b' => (c =? d)%N && eqb a' b'
  | _, _ => false
  end.

Definition in_range (lo hi : N) (c : char) : bool :=
  ((lo <=? c) && (c <=? hi))%N.

(** Membership in a table of ranges of the Unicode database. *)
Definition in_ranges (table : list (N * N)) (c : char) : bool :=
  existsb (fun r => in_range (fst r) (snd r) c) table.

(** [0-9] *)
Definition is_digit (c : char) : bool := in_range 48 57 c.
(** [A-Z] *)
Definition is_upper (c : char) : bool := in_range 65 90 c.
(** [a-z] *)
Definition is_lower (c : char) : bool := in_range 97 122 c.
(** [a-zA-Z0-9] *)
Definition is_alnum (c : char) : bool := is_lower c || is_upper c || is_digit c.
(** [A-Z0-9] *)
Definition is_upper_alnum (c : char) : bool := is_upper c || is_digit c.
(** [\d] in a [str] pattern: a decimal digit of any script. *)
Definition is_decimal (c : char) : bool := in_ranges Unicode.DECIMAL_RANGES c.
(** [\s], and the characters removed by [str.strip()]. *)
Definition is_space (c : char) : bool := in_ranges Unicode.SPACE_RANGES c.
(** [.] matches everything except a line feed. *)
Definition is_dot (c : char) : bool := negb (c =? 10)%N.
(** The characters on which [str.isdigit] holds. *)
Definition is_pydigit (c : char) : bool := in_ranges Unicode.DIGIT_RANGES c.

(** [d[key]] in a table of the Unicode database. *)
Fixpoint assoc (c : char) (table : list (N * list N)) : option (list N) :=
  match table with
  | [] => None
  | (k, x) :: table' => if (c =? k)%N then Some x else assoc c table'
  end.

(** [c.upper()], a string because some characters become two or three. *)
Definition upper_char (c : char) : string :=
  match assoc c Unicode.UPPER_TABLE with
  | Some u => of_codes u
  | None => String c EmptyString
  end.

(** [s.upper()] *)
Fixpoint upper (s : string) : string :=
  match s with
  | EmptyString => EmptyString
  | String c s' => upper_char c ++ upper s'
  end.

Fixpoint all (p : char -> bool) (s : string) : bool :=
  match s with
  | EmptyString => true
  | String c s' => p c && all p s'
  end.

(** [s[:n]] *)
Fixpoint slice_to (n : nat) (s : string) : string :=
  match n, s with
  | O, _ => EmptyString
  | S _, EmptyString => EmptyString
  | S n', String c s' => String c (slice_to n' s')
  end.

(** [s[n:]] *)
Fixpoint slice_from (n : nat) (s : string) : string :=
  match n, s with
  | O, _ => s
  | S _, EmptyString => EmptyString
  | S n', String _ s' => slice_from n' s'
  end.

(** Truth value of a string: [if s:] *)
Definition nonempty (s : string) : bool :=
  match s with EmptyString => false | String _ _ => true end.

(** [s.isdigit()] *)
Definition isdigit (s : string) : bool := nonempty s && all is_pydigit s.

Fixpoint lstrip (s : string) : string :=
  match s with
  | EmptyString => EmptyString
  | String c s' => if is_space c then lstrip s' else s
  end.

Fixpoint rstrip (s : string) : string :=
  match s with
  | EmptyString => EmptyString
  | String c s' =>
      match rstrip s' with
      | EmptyString => if is_space c then EmptyString else String c EmptyString
      | t => String c t
      end
  end.

(** [s.strip()] *)
Definition strip (s : string) : string := rstrip (lstrip s).

(** [s.startswith(p)], returning what follows the prefix. *)
Fixpoint strip_prefix (eqc : char -> char -> bool) (p s : string) : option string :=
  match p, s with
  | EmptyString, _ => Some s
  | String _ _, EmptyString => None
  | String a p', String b s' => if eqc a b then strip_prefix eqc p' s' else None
  end.

(** [p in s] *)
Fixpoint contains (p s : string) : bool :=
  match strip_prefix N.eqb p s with
  | Some _ => true
  | None => match s with
            | EmptyString => false
            | String _ s' => contains p s'
            end
  end.

End Str.

Arguments Str.is_space : simpl never.
Arguments Str.is_decimal : simpl never.
Arguments Str.is_pydigit : simpl never.
Arguments Str.upper_char : simpl never.

(** ** Regular expressions

    The fragment of Python's [re] that the source uses: anchors, literals,
    character classes, bounded and unbounded repetition of a class (greedy or
    lazy), sequence, alternation and one capture group, matched by
    backtracking in the order [re] tries the alternatives. *)

Module Re.

Inductive regex : Type :=
| Bol                                   (* ^ *)
| Eol                                   (* $ *)
| Lit (ignorecase : bool) (l : string)  (* literal text *)
| Rep (greedy : bool) (p : char -> bool) (lo : nat) (hi : option nat)
                                        (* p{lo,hi}  p+  p+? *)
| Seq (r1 r2 : regex)
| Alt (r1 r2 : regex)
| Group (r : regex).                    (* ( ... ), group 1 *)

Definition orelse {A} (a b : option A) : option A :=
  match a with Some _ => a | None => b end.

(** [$] without MULTILINE: the end of the string, or just before a line feed
    that ends the string. *)
Definition at_eol (s : string) : bool :=
  match s with
  | EmptyString => true
  | String c EmptyString => (c =? 10)%N
  | _ => false
  end.

(** The characters that the character [a] of a pattern matches under
    [re.IGNORECASE], for an ASCII [a] (the literals of the source are ASCII
    text): the letter in both cases, and for i, k and s also the characters
    that [re] counts as their case variants (dotted capital I and dotless i,
    the Kelvin sign, long s). *)
Definition case_variants (a : char) : list char :=
  let l := if Str.is_upper a then (a + 32)%N else a in
  if Str.is_lower l then
    l :: (l - 32)%N
      :: (if (l =? 105)%N then [304; 305]%N
          else if (l =? 107)%N then [8490]%N
          else if (l =? 115)%N then [383]%N
          else [])
  else [a].

(** Does the character [a] of the pattern match the character [b]? *)
Definition eq_char (ignorecase : bool) (a b : char) : bool :=
  if ignorecase then existsb (N.eqb b) (case_variants a)
  else (a =? b)%N.

(** The text between the start [s] of a group and the rest [s'] left after it. *)
Definition consumed (s s' : string) : string :=
  Str.slice_to (Str.length s - Str.length s') s.

Section Exec.
Context {R : Type}.

(** The state handed to the continuation: are we still at position 0, what
    is left of the subject, and the capture of group 1 so far. *)
Definition cont : Type := bool -> string -> option string -> option R.

Fixpoint rep_exec (greedy : bool) (p : char -> bool) (lo : nat) (hi : option nat)
    (bos : bool) (s : string) (cap : option string) (k : cont) {struct s} : option R :=
  let stop := if lo =? 0 then k bos s cap else None in
  let more :=
    match hi, s with
    | Some 0, _ => None
    | _, EmptyString => None
    | _, String c s' =>
        if p c then rep_exec greedy p (pred lo) (option_map pred hi) false s' cap k
        else None
    end in
  if greedy then orelse more stop else orelse stop more.

Fixpoint exec (r : regex) (bos : bool) (s : string) (cap : option string)
    (k : cont) {struct r} : option R :=
  match r with
  | Bol => if bos then k bos s cap else None
  | Eol => if at_eol s then k bos s cap else None
  | Lit ci l =>
      match Str.strip_prefix (eq_char ci) l s with
      | Some s' => k (bos && negb (Str.nonempty l)) s' cap
      | None => None
      end
  | Rep g p lo hi => rep_exec g p lo hi bos s cap k
  | Seq r1 r2 => exec r1 bos s cap (fun b s' c => exec r2 b s' c k)
  | Alt r1 r2 => orelse (exec r1 bos s cap k) (exec r2 bos s cap k)
  | Group r' => exec r' bos s cap (fun b s' _ => k b s' (Some (consumed s s')))
  end.
End Exec.

(** A match object: the capture of group 1 (when the group took part) and
    the text after the match. *)
Record match_obj : Type := { group1 : option string; rest : string }.

Definition match_at (r : regex) (bos : bool) (s : string) : option match_obj :=
  exec r bos s None (fun _ s' c => Some {| group1 := c; rest := s' |}).

(** [pattern.match(s)] *)
Definition re_match (r : regex) (s : string) : option match_obj := match_at r true s.

(** [re.search(pattern, s)] *)
Fixpoint search_from (r : regex) (bos : bool) (s : string) : option match_obj :=
  orelse (match_at r bos s)
         (match s with
          | EmptyString => None
          | String _ s' => search_from r false s'
          end).

Definition search (r : regex) (s : string) : option match_obj := search_from r true s.

(** [re.sub(pattern, '', s)] for a [pattern] that starts with [^] and matches
    no empty text: only a match at position 0 can be removed. *)
Definition sub_anchored_empty (r : regex) (s : string) : string :=
  match re_match r s with
  | Some m => rest m
  | None => s
  end.

(** [bool(pattern.match(s))] *)
Definition matches (r : regex) (s : string) : bool :=
  match re_match r s with Some _ => true | None => false end.

(** [p{n}], [p{lo,hi}], [p+], [p+?] *)
Definition exactly (p : char -> bool) (n : nat) : regex := Rep true p n (Some n).
Definition between (p : char -> bool) (lo hi : nat) : regex := Rep true p lo (Some hi).
Definition plus (p : char -> bool) : regex := Rep true p 1 None.
Definition plus_lazy (p : char -> bool) : regex := Rep false p 1 None.

(** [^ body $] *)
Definition anchored (body : regex) : regex := Seq Bol (Seq body Eol).

End Re.
(** ** The format regexes (module level constants of the source) *)

(* "^[a-zA-Z0-9]{7}$" *)
Definition SERVICE_TAG_REGEX : Re.regex := Re.anchored (Re.exactly Str.is_alnum 7).
(* "^[a-zA-Z0-9]{10,12}$" *)
Definition HP_SERIAL_REGEX : Re.regex := Re.anchored (Re.between Str.is_alnum 10 12).
(* "^[a-zA-Z0-9]{10,12}$" *)
Definition VIEWSONIC_SERIAL_REGEX : Re.regex := Re.anchored (Re.between Str.is_alnum 10 12).
(* "^[a-zA-Z0-9]{12}$" *)
Definition JUNIPER_SERIAL_REGEX : Re.regex := Re.anchored (Re.exactly Str.is_alnum 12).
(* "^[a-zA-Z0-9]{12}$|^[a-zA-Z0-9]{16}$" *)
Definition CYBERPOWER_SERIAL_REGEX : Re.regex :=
  Re.Alt (Re.anchored (Re.exactly Str.is_alnum 12)) (Re.anchored (Re.exactly Str.is_alnum 16)).
(* "^[a-zA-Z0-9]{15}$" *)
Definition BROTHER_SERIAL_REGEX : Re.regex := Re.anchored (Re.exactly Str.is_alnum 15).
(* "^[a-zA-Z0-9]{12}$|^[a-zA-Z0-9]{17}$" *)
Definition APPLE_SERIAL_REGEX : Re.regex :=
  Re.Alt (Re.anchored (Re.exactly Str.is_alnum 12)) (Re.anchored (Re.exactly Str.is_alnum 17)).
(* "^[a-zA-Z0-9]{22}$|^\d{11,12}$" *)
Definition ACER_SERIAL_REGEX : Re.regex :=
  Re.Alt (Re.anchored (Re.exactly Str.is_alnum 22))
         (Re.anchored (Re.between Str.is_decimal 11 12)).
(* "^[a-zA-Z0-9]{8,12}$" *)
Definition LENOVO_SERIAL_REGEX : Re.regex := Re.anchored (Re.between Str.is_alnum 8 12).
(* "^[A-Z]{3}\d{8}$" *)
Definition CISCO_SERIAL_REGEX : Re.regex :=
  Re.anchored (Re.Seq (Re.exactly Str.is_upper 3) (Re.exactly Str.is_decimal 8)).
(* "^[A-Z0-9]{12}$" *)
Definition APC_SERIAL_REGEX : Re.regex := Re.anchored (Re.exactly Str.is_upper_alnum 12).
(* "^[0-9]{12}$|^[0-9]{16}$|^[A-Z0-9]{12}$" *)
Definition MICROSOFT_SERIAL_REGEX : Re.regex :=
  Re.Alt (Re.anchored (Re.exactly Str.is_digit 12))
    (Re.Alt (Re.anchored (Re.exactly Str.is_digit 16))
            (Re.anchored (Re.exactly Str.is_upper_alnum 12))).
(* "^[A-Z0-9]{11}$|^[A-Z0-9]{15}$" *)
Definition SAMSUNG_SERIAL_REGEX : Re.regex :=
  Re.Alt (Re.anchored (Re.exactly Str.is_upper_alnum 11))
         (Re.anchored (Re.exactly Str.is_upper_alnum 15)).
(* "^[A-Z0-9]{14}$" *)
Definition VIZIO_SERIAL_REGEX : Re.regex := Re.anchored (Re.exactly Str.is_upper_alnum 14).
(* "^[A-Z0-9]{12,14}$" *)
Definition TCL_SERIAL_REGEX : Re.regex := Re.anchored (Re.between Str.is_upper_alnum 12 14).

(** ** Pages, the network and the effect of a request *)

(** One element of a parsed page: [soup.find] walks them in document order. *)
Record element : Type := mkElement {
  tag : string;
  classes : list string;
  elem_id : option string;
  text : string            (* element.text *)
}.

Definition page : Type := list element.

Definition has_class (c : string) (e : element) : bool :=
  existsb (Str.eqb c) (classes e).

Definition has_id (i : string) (e : element) : bool :=
  match elem_id e with Some j => Str.eqb i j | None => false end.

(** [soup.find(name, class_=c)] *)
Definition find_class (name c : string) (soup : page) : option element :=
  List.find (fun e => Str.eqb name (tag e) && has_class c e) soup.

(** [soup.find(name, id=i)] *)
Definition find_id (name i : string) (soup : page) : option element :=
  List.find (fun e => Str.eqb name (tag e) && has_id i e) soup.

(** [soup.find(name)] *)
Definition find_tag (name : string) (soup : page) : option element :=
  List.find (fun e => Str.eqb name (tag e)) soup.

(** The exception classes of [requests.exceptions] the handlers tell apart.
    [ConnectTimeout] inherits from both [ConnectionError] and [Timeout]. *)
Inductive exn_class : Type :=
| HTTPError | ConnectionError | ConnectTimeout | ReadTimeout | OtherRequestException.

Record request_exception : Type := mkExn {
  exn_cls : exn_class;
  status_code : nat;       (* response.status_code, read for an HTTPError *)
  exn_str : string         (* str(e) *)
}.

Definition is_HTTPError (e : request_exception) : bool :=
  match exn_cls e with HTTPError => true | _ => false end.
Definition is_ConnectionError (e : request_exception) : bool :=
  match exn_cls e with ConnectionError | ConnectTimeout => true | _ => false end.
Definition is_Timeout (e : request_exception) : bool :=
  match exn_cls e with ConnectTimeout | ReadTimeout => true | _ => false end.

Record request : Type := mkRequest {
  url : string;
  user_agent : string;
  timeout : nat
}.

(** An exception that is no [RequestException], such as the
    [ParserRejectedMarkup] of [bs4]: its class and its text.  No [except]
    clause of the program names a class that catches it. *)
Record exception : Type := mkException {
  exc_class : string;
  exc_str : string
}.

(** What [requests.get(...)], [response.raise_for_status()] and
    [BeautifulSoup(response.content, 'html.parser')] come to: the parsed
    body, a [RequestException] raised by the request, or any other
    exception raised by the request or by the parser. *)
Inductive fetched : Type :=
| Response (soup : page)
| Raised (e : request_exception)
| Uncaught (e : exception).

Definition network : Type := request -> fetched.

(** How a call ends: it returns, or an exception propagates out of it. *)
Inductive completion (A : Type) : Type :=
| Returned (a : A)
| Propagated (e : exception).

Arguments Returned {A} a.
Arguments Propagated {A} e.

Definition completion_map {A B} (f : A -> B) (c : completion A) : completion B :=
  match c with
  | Returned a => Returned (f a)
  | Propagated e => Propagated e
  end.


(** A computation that may query the network; the log lists its queries. *)
Definition IO (A : Type) : Type := network -> completion A * list request.

Definition ret {A} (a : A) : IO A := fun _ => (Returned a, []).

(** [raise e], or an exception passing through *)
Definition raise {A} (e : exception) : IO A := fun _ => (Propagated e, []).

Definition bind {A B} (m : IO A) (f : A -> IO B) : IO B :=
  fun net =>
    match m net with
    | (Returned a, l1) =>
        let '(b, l2) := f a net in
        (b, (l1 ++ l2)%list)
    | (Propagated e, l1) => (Propagated e, l1)
    end.

Notation "x <- m ;; k" := (bind m (fun x => k))
  (at level 100, m at next level, right associativity).

Definition value {A} (m : IO A) (net : network) : completion A := fst (m net).
Definition calls {A} (m : IO A) (net : network) : list request := snd (m net).

Definition USER_AGENT : string :=
  "Mozilla/5.0 (Windows NT 10.0; Win64; x64) AppleWebKit/537.36 (KHTML, like Gecko) Chrome/91.0.4472.124 Safari/537.36".

(** [requests.get(url, headers=headers, timeout=10)] with [raise_for_status]
    and the parsing of the body.  The three cases of the answer are told
    apart by the caller, whose [try] statement decides what is caught. *)
Definition requests_get (u : string) : IO fetched :=
  fun net =>
    let rq := {| url := u; user_agent := USER_AGENT; timeout := 10 |} in
    (Returned (net rq), [rq]).

(** ** Resolvers *)

(** What a resolver returns: [(model_name or None, message)]. *)
Definition result : Type := option string * string.

(** [key in d] for a dict literal. *)
Definition dict_mem (key : string) (d : gmap string string) : bool :=
  match d !! key with Some _ => true | None => false end.

Definition inferred_from_prefix (p : string) : string :=
  "Model inferred from serial number prefix '" ++ p ++ "'. Please verify.".

Definition INFERRED_FROM_STRUCTURE : string :=
  "Model inferred from serial number structure. Please verify.".

Definition apple_prefix_to_model : gmap string string :=
  list_to_map [
    ("C02", "MacBook Pro (Inferred)");
    ("C03", "MacBook Air (Inferred)");
    ("C1M", "iMac (Inferred)");
    ("DCP", "Mac Mini (Inferred)");
    ("F4H", "iPad Pro (Inferred)");
    ("F5K", "iPad Air (Inferred)");
    ("F9F", "iPhone (Inferred)");
    ("F9G", "iPhone (Inferred)");
    ("G0C", "Apple Watch (Inferred)");
    ("FTY", "iPod Touch (Inferred)") ].

Definition get_apple_model_name (serial_number : string) : result :=
  if negb (Re.matches APPLE_SERIAL_REGEX serial_number) then
    (None, "Invalid Apple Serial Number format (must be 12 or 17 alphanumeric characters).")
  else
    let prefix := Str.upper (Str.slice_to 3 serial_number) in
    match apple_prefix_to_model !! prefix with
    | Some model => (Some model, inferred_from_prefix prefix)
    | None =>
        (* the branch for 17-character serials only computes an unused slice *)
        (None, "Could not infer Apple model from serial number prefix.")
    end.

Definition get_lenovo_model_name (serial_number : string) : IO result :=
  if negb (Re.matches LENOVO_SERIAL_REGEX serial_number) then
    ret (None, "Invalid Lenovo Serial Number format (must be 8-12 alphanumeric characters).")
  else
    let u := "https://pcsupport.lenovo.com/us/en/warranty-lookup?key=" ++ serial_number in
    r <- requests_get u ;;
    match r with
    | Response soup =>
        let model_element :=
          Re.orelse (find_class "span" "product-name" soup)
                    (find_class "h2" "product-name" soup) in
        let scraped :=
          match model_element with
          | Some e =>
              let model_name := Str.strip (text e) in
              if Str.nonempty model_name
              then Some (Some model_name, "Model found via web scraping.")
              else None
          | None => None
          end in
        ret match scraped with
            | Some res => res
            | None => (None, "Model name element not found on Lenovo support page.")
            end
    | Raised e =>
        ret (None, "Request failed (Web scraping failed): " ++ exn_str e)
    | Uncaught e => raise e     (* only RequestException is caught *)
    end.

Definition cisco_prefix_to_model : gmap string string :=
  list_to_map [
    ("FOX", "Cisco Product (Foxconn - Common for Switches/Routers)");
    ("FOC", "Cisco Product (China - Common for Switches/Routers)");
    ("JAE", "Cisco Product (Japan - Older/Specialized Gear)");
    ("JAB", "Cisco Product (Japan - Older/Specialized Gear)");
    ("KWC", "Cisco Product (Common for Access Points/Smaller Devices)") ].

Definition get_cisco_model_name (serial_number : string) : result :=
  if negb (Re.matches CISCO_SERIAL_REGEX serial_number) then
    (None, "Invalid Cisco Serial Number format (must be 11 characters: LLLYYWWXXXX).")
  else
    let prefix := Str.upper (Str.slice_to 3 serial_number) in
    match cisco_prefix_to_model !! prefix with
    | Some model =>
        (Some model,
         "Model inferred from serial number location code '" ++ prefix ++ "'. Please verify.")
    | None => (Some "Cisco Network Device (Inferred)", INFERRED_FROM_STRUCTURE)
    end.

Definition get_tcl_model_name (serial_number : string) : result :=
  if negb (Re.matches TCL_SERIAL_REGEX serial_number) then
    (None, "Invalid TCL Serial Number format (must be 12-14 alphanumeric characters).")
  else (Some "TCL TV/Display (Inferred)", INFERRED_FROM_STRUCTURE).

Definition vizio_model_map : gmap string string :=
  list_to_map [
    ("LTMA", "Vizio M-Series TV (Inferred)");
    ("LTAS", "Vizio E-Series TV (Inferred)");
    ("LTJZ", "Vizio V-Series TV (Inferred)");
    ("LTJA", "Vizio D-Series TV (Inferred)") ].

Definition get_vizio_model_name (serial_number : string) : result :=
  if negb (Re.matches VIZIO_SERIAL_REGEX serial_number) then
    (None, "Invalid Vizio Serial Number format (must be 14 alphanumeric characters).")
  else
    let prefix := Str.slice_to 4 serial_number in
    let model := vizio_model_map !! prefix in
    match model with
    | Some m =>
        if Str.nonempty m then (Some m, inferred_from_prefix prefix)
        else (Some "Vizio Display/TV (Inferred)", INFERRED_FROM_STRUCTURE)
    | None => (Some "Vizio Display/TV (Inferred)", INFERRED_FROM_STRUCTURE)
    end.

Definition get_samsung_model_name (serial_number : string) : result :=
  if negb (Re.matches SAMSUNG_SERIAL_REGEX serial_number) then
    (None, "Invalid Samsung Serial Number format (must be 11 or 15 alphanumeric characters).")
  else (Some "Samsung Device (Inferred)", INFERRED_FROM_STRUCTURE).

Definition get_microsoft_model_name (serial_number : string) : result :=
  if negb (Re.matches MICROSOFT_SERIAL_REGEX serial_number) then
    (None, "Invalid Microsoft Serial Number format (must be 12 or 16 digits/letters).")
  else
    (* the url is assigned and never requested *)
    (Some "Microsoft Surface Device (Inferred)", INFERRED_FROM_STRUCTURE).

Definition apc_prefix_to_model : gmap string string :=
  list_to_map [
    ("AS", "APC Smart-UPS (Rack/Tower)");
    ("AP", "APC Power Distribution Unit (PDU)");
    ("BB", "APC Back-UPS (Basic Battery Backup)");
    ("BK", "APC Back-UPS (Basic Battery Backup)");
    ("SM", "APC Smart-UPS (Older Models)");
    ("SU", "APC Smart-UPS (Older Models)");
    ("SY", "APC Symmetra (Modular UPS)") ].

Definition get_apc_model_name (serial_number : string) : result :=
  if negb (Re.matches APC_SERIAL_REGEX serial_number) then
    (None, "Invalid APC Serial Number format (must be 12 alphanumeric characters).")
  else
    let prefix := Str.upper (Str.slice_to 2 serial_number) in
    match apc_prefix_to_model !! prefix with
    | Some model => (Some model, inferred_from_prefix prefix)
    | None => (Some "APC UPS/Power Device (Inferred)", INFERRED_FROM_STRUCTURE)
    end.

(** f"Acer Product (Serial: {serial_number[:5]}...)" *)
Definition acer_serial_label (serial_number : string) : string :=
  "Acer Product (Serial: " ++ Str.slice_to 5 serial_number ++ "...)".

Definition get_acer_model_name (serial_number : string) : IO result :=
  if negb (Re.matches ACER_SERIAL_REGEX serial_number) then
    ret (None, "Invalid Acer Serial Number/SNID format (must be 22 alphanumeric or 11/12 digit SNID).")
  else
    let u := "https://www.acer.com/us-en/support/product-support/serial-number-lookup?sn="
             ++ serial_number in
    r <- requests_get u ;;
    match r with
    | Response soup =>
        let model_element :=
          Re.orelse (find_class "h1" "product-name" soup)
                    (find_class "h2" "product-name" soup) in
        let scraped :=
          match model_element with
          | Some e =>
              let model_name := Str.strip (text e) in
              if Str.nonempty model_name
              then Some (Some model_name, "Model found via web scraping.")
              else None
          | None => None
          end in
        ret match scraped with
            | Some res => res
            | None =>
                if Str.length serial_number =? 22 then
                  (Some (acer_serial_label serial_number),
                   "Model inferred from serial number prefix. Please verify.")
                else (None, "Model name element not found on Acer support page.")
            end
    | Raised e =>
        ret (if Str.length serial_number =? 22 then
               (Some (acer_serial_label serial_number),
                "Model inferred from serial number prefix (Web scraping failed). Please verify.")
             else if (11 <=? Str.length serial_number) && Str.isdigit serial_number then
               (Some ("Acer Product (SNID: " ++ serial_number ++ ")"),
                "Model inferred from SNID (Web scraping failed). Please verify.")
             else (None, "Request failed: " ++ exn_str e))
    | Uncaught e => raise e     (* only RequestException is caught *)
    end.

Definition brother_prefix_to_model : gmap string string :=
  list_to_map [
    ("U6", "Brother HL-L Series Laser Printer");
    ("E6", "Brother MFC-L Series All-in-One");
    ("K6", "Brother DCP-L Series All-in-One");
    ("D6", "Brother MFC-J Series Inkjet");
    ("J6", "Brother DCP-J Series Inkjet") ].

Definition get_brother_model_name (serial_number : string) : result :=
  if negb (Re.matches BROTHER_SERIAL_REGEX serial_number) then
    (None, "Invalid Brother Serial Number format (must be 15 alphanumeric characters).")
  else
    let prefix := Str.upper (Str.slice_to 2 serial_number) in
    match brother_prefix_to_model !! prefix with
    | Some model => (Some model, inferred_from_prefix prefix)
    | None => (None, "Could not infer Brother model from serial number prefix.")
    end.

Definition cyberpower_prefix_to_model : gmap string string :=
  list_to_map [
    ("CP", "CyberPower CP Series UPS");
    ("PR", "CyberPower PR Series UPS");
    ("OR", "CyberPower OR Series UPS");
    ("BP", "CyberPower Battery Pack");
    ("CP1", "CyberPower CP1500PFCLCD");
    ("CP2", "CyberPower CP1000PFCLCD") ].

Definition get_cyberpower_model_name (serial_number : string) : result :=
  if negb (Re.matches CYBERPOWER_SERIAL_REGEX serial_number) then
    (None, "Invalid CyberPower Serial Number format (must be 12 or 16 alphanumeric characters).")
  else
    let prefix3 := Str.upper (Str.slice_to 3 serial_number) in
    let prefix2 := Str.upper (Str.slice_to 2 serial_number) in
    match cyberpower_prefix_to_model !! prefix3 with
    | Some model => (Some model, inferred_from_prefix prefix3)
    | None =>
        match cyberpower_prefix_to_model !! prefix2 with
        | Some model => (Some model, inferred_from_prefix prefix2)
        | None => (None, "Could not infer CyberPower model from serial number prefix.")
        end
    end.

Definition juniper_prefix_to_model : gmap string string :=
  list_to_map [
    ("AA", "EX4100-24P");
    ("AB", "EX4100-48P");
    ("AC", "EX4100-24T");
    ("AD", "EX4100-48T");
    ("BA", "EX4300-24P");
    ("BB", "EX4300-48P");
    ("CA", "EX2300-24P");
    ("CB", "EX2300-48P") ].

Definition get_juniper_model_name (serial_number : string) : result :=
  if negb (Re.matches JUNIPER_SERIAL_REGEX serial_number) then
    (None, "Invalid Juniper Serial Number format (must be 12 alphanumeric characters).")
  else
    let prefix := Str.upper (Str.slice_to 2 serial_number) in
    match juniper_prefix_to_model !! prefix with
    | Some model => (Some model, inferred_from_prefix prefix)
    | None => (None, "Could not infer Juniper model from serial number prefix.")
    end.

(** The [except] clauses shared by the ViewSonic, HP and Dell resolvers, tried
    in the order they are written; only the 404 message differs. *)
Definition except_clauses (not_found : string) (e : request_exception) : result :=
  if is_HTTPError e then
    if status_code e =? 404 then (None, not_found)
    else (None, "HTTP Error: " ++ exn_str e)
  else if is_ConnectionError e then (None, "Error Connecting: " ++ exn_str e)
  else if is_Timeout e then (None, "Timeout Error: " ++ exn_str e)
  else (None, "An unexpected error occurred: " ++ exn_str e).

Definition SERIAL_NOT_FOUND_404 : string :=
  "Serial Number found, but product page not found (404). It might be too old or invalid.".

Definition NOT_ON_PAGE : string := "Could not find the product model name on the page.".

(** The page-title fallback shared by the ViewSonic, HP and Dell resolvers:
    [title_tag = soup.find('title')], the test [marker in title_tag.text],
    [re.search], and the stripped group 1 when it is not empty. *)
Definition title_fallback (marker : string) (rx : Re.regex) (soup : page) : option result :=
  match find_tag "title" soup with
  | Some title_tag =>
      if Str.contains marker (text title_tag) then
        match Re.search rx (text title_tag) with
        | Some m =>
            match Re.group1 m with
            | Some g =>
                let model_name := Str.strip g in
                if Str.nonempty model_name
                then Some (Some model_name, "Model name scraped from page title (fallback).")
                else None
            | None => None
            end
        | None => None
        end
      else None
  | None => None
  end.

(* r'ViewSonic\s+([A-Z0-9]+)\s+Product' *)
Definition VIEWSONIC_TITLE_RE : Re.regex :=
  Re.Seq (Re.Lit false "ViewSonic")
    (Re.Seq (Re.plus Str.is_space)
      (Re.Seq (Re.Group (Re.plus Str.is_upper_alnum))
        (Re.Seq (Re.plus Str.is_space) (Re.Lit false "Product")))).

Definition viewsonic_parse (soup : page) : result :=
  let product_name_element :=
    match find_class "h1" "product-name" soup with
    | Some e => Some e
    | None => find_class "span" "model-name" soup
    end in
  match product_name_element with
  | Some e =>
      let model_name := Str.strip (text e) in
      (Some model_name, "Model name scraped successfully.")
  | None =>
      let from_title := title_fallback "ViewSonic" VIEWSONIC_TITLE_RE soup in
      match from_title with
      | Some res => res
      | None => (None, NOT_ON_PAGE)
      end
  end.

Definition get_viewsonic_model_name (serial_number : string) : IO result :=
  if negb (Re.matches VIEWSONIC_SERIAL_REGEX serial_number) then
    ret (None, "Invalid ViewSonic Serial Number format.")
  else
    let u := "https://www.viewsonic.com/us/viewsonic-warranty-lookup?serial_number="
             ++ serial_number in
    r <- requests_get u ;;
    match r with
    | Raised e => ret (except_clauses SERIAL_NOT_FOUND_404 e)
    | Uncaught e => raise e     (* no clause catches it *)
    | Response soup => ret (viewsonic_parse soup)
    end.

(* r'^HP\s+' with re.IGNORECASE *)
Definition HP_PREFIX_RE : Re.regex :=
  Re.Seq Re.Bol (Re.Seq (Re.Lit true "HP") (Re.plus Str.is_space)).

(* r'(.+?)\s+\|\s+HP Product Information' *)
Definition HP_TITLE_RE : Re.regex :=
  Re.Seq (Re.Group (Re.plus_lazy Str.is_dot))
    (Re.Seq (Re.plus Str.is_space)
      (Re.Seq (Re.Lit false "|")
        (Re.Seq (Re.plus Str.is_space) (Re.Lit false "HP Product Information")))).

Definition hp_parse (soup : page) : result :=
  let product_name_element :=
    match find_class "h1" "product-title" soup with
    | Some e => Some e
    | None => find_class "span" "product-name" soup
    end in
  match product_name_element with
  | Some e =>
      let model_name := Str.strip (text e) in
      let model_name := Str.strip (Re.sub_anchored_empty HP_PREFIX_RE model_name) in
      (Some model_name, "Model name scraped successfully.")
  | None =>
      let from_title := title_fallback "HP Product Information" HP_TITLE_RE soup in
      match from_title with
      | Some res => res
      | None => (None, NOT_ON_PAGE)
      end
  end.

Definition get_hp_model_name (serial_number : string) : IO result :=
  if negb (Re.matches HP_SERIAL_REGEX serial_number) then
    ret (None, "Invalid HP Serial Number format.")
  else
    let u := "https://support.hp.com/us-en/product/lookup/" ++ serial_number in
    r <- requests_get u ;;
    match r with
    | Raised e => ret (except_clauses SERIAL_NOT_FOUND_404 e)
    | Uncaught e => raise e     (* no clause catches it *)
    | Response soup => ret (hp_parse soup)
    end.

(* r'^Support for\s+' with re.IGNORECASE *)
Definition DELL_PREFIX_RE : Re.regex :=
  Re.Seq Re.Bol (Re.Seq (Re.Lit true "Support for") (Re.plus Str.is_space)).

(* r'Support for (.+?) \| Dell US' *)
Definition DELL_TITLE_RE : Re.regex :=
  Re.Seq (Re.Lit false "Support for ")
    (Re.Seq (Re.Group (Re.plus_lazy Str.is_dot)) (Re.Lit false " | Dell US")).

Definition dell_parse (soup : page) : result :=
  let product_name_element := find_class "h1" "product-name" soup in
  let product_name_element :=
    match product_name_element with
    | Some e => Some e
    | None => find_id "span" "modelName" soup
    end in
  match product_name_element with
  | None =>
      let from_title := title_fallback "Support for" DELL_TITLE_RE soup in
      match from_title with
      | Some res => res
      | None => (None, NOT_ON_PAGE)
      end
  | Some e =>
      let model_name := Str.strip (text e) in
      let model_name := Str.strip (Re.sub_anchored_empty DELL_PREFIX_RE model_name) in
      (Some model_name, "Model name scraped successfully.")
  end.

Definition get_dell_model_name (service_tag : string) : IO result :=
  if negb (Re.matches SERVICE_TAG_REGEX service_tag) then
    ret (None, "Invalid Dell Service Tag format.")
  else
    let u := "https://www.dell.com/support/home/en-us/product-support/servicetag/"
             ++ service_tag ++ "/overview" in
    r <- requests_get u ;;
    match r with
    | Raised e =>
        ret (except_clauses
               "Service Tag found, but product page not found (404). It might be too old or invalid."
               e)
    | Uncaught e => raise e     (* no clause catches it *)
    | Response soup => ret (dell_parse soup)
    end.

(** ** Route handlers *)

Inductive json_value : Type :=
| JBool (b : bool)
| JStr (s : string).

(** [jsonify({...})]: the keys in the order they are written. *)
Definition json : Type := list (string * json_value).

(** A Flask return value: the body and the status code. *)
Definition http_response : Type := (json * nat)%type.

(** The tail of every handler: [if model_name: ... else: ...]. *)
Definition respond (id_key ident : string) (r : result) : http_response :=
  let '(name, message) := r in
  let not_found :=
    ([("success", JBool false); (id_key, JStr ident); ("error", JStr message)], 404) in
  match name with
  | Some n =>
      if Str.nonempty n then
        ([("success", JBool true); (id_key, JStr ident);
          ("model_name", JStr n); ("message", JStr message)], 200)
      else not_found
  | None => not_found
  end.

(** The fifteen handlers are one text up to the JSON key, the two messages,
    the regex and the resolver called. *)
Definition lookup (id_key missing invalid : string) (rx : Re.regex)
    (resolver : string -> IO result) (tag_arg : string) : IO http_response :=
  let ident := Str.upper tag_arg in       (* request.args.get('tag', '').upper() *)
  if negb (Str.nonempty ident) then ret ([("error", JStr missing)], 400)
  else if negb (Re.matches rx ident) then ret ([("error", JStr invalid)], 400)
  else r <- resolver ident ;; ret (respond id_key ident r).

Definition pure_resolver (f : string -> result) : string -> IO result :=
  fun s => ret (f s).

Definition MISSING_SERIAL : string := "Missing serial number parameter.".

Definition lookup_dell_service_tag : string -> IO http_response :=
  lookup "service_tag" "Missing service tag parameter."
    "Invalid Dell Service Tag format (must be 7 alphanumeric characters)."
    SERVICE_TAG_REGEX get_dell_model_name.

Definition lookup_tcl_serial_number : string -> IO http_response :=
  lookup "serial_number" MISSING_SERIAL "Invalid TCL Serial Number format."
    TCL_SERIAL_REGEX (pure_resolver get_tcl_model_name).

Definition lookup_vizio_serial_number : string -> IO http_response :=
  lookup "serial_number" MISSING_SERIAL "Invalid Vizio Serial Number format."
    VIZIO_SERIAL_REGEX (pure_resolver get_vizio_model_name).

Definition lookup_samsung_serial_number : string -> IO http_response :=
  lookup "serial_number" MISSING_SERIAL "Invalid Samsung Serial Number format."
    SAMSUNG_SERIAL_REGEX (pure_resolver get_samsung_model_name).

Definition lookup_microsoft_serial_number : string -> IO http_response :=
  lookup "serial_number" MISSING_SERIAL "Invalid Microsoft Serial Number format."
    MICROSOFT_SERIAL_REGEX (pure_resolver get_microsoft_model_name).

Definition lookup_apc_serial_number : string -> IO http_response :=
  lookup "serial_number" MISSING_SERIAL "Invalid APC Serial Number format."
    APC_SERIAL_REGEX (pure_resolver get_apc_model_name).

Definition lookup_cisco_serial_number : string -> IO http_response :=
  lookup "serial_number" MISSING_SERIAL "Invalid Cisco Serial Number format."
    CISCO_SERIAL_REGEX (pure_resolver get_cisco_model_name).

Definition lookup_lenovo_serial_number : string -> IO http_response :=
  lookup "serial_number" MISSING_SERIAL "Invalid Lenovo Serial Number format."
    LENOVO_SERIAL_REGEX get_lenovo_model_name.

Definition lookup_acer_serial_number : string -> IO http_response :=
  lookup "serial_number" MISSING_SERIAL "Invalid Acer Serial Number/SNID format."
    ACER_SERIAL_REGEX get_acer_model_name.

Definition lookup_apple_serial_number : string -> IO http_response :=
  lookup "serial_number" MISSING_SERIAL
    "Invalid Apple Serial Number format (must be 12 or 17 alphanumeric characters)."
    APPLE_SERIAL_REGEX (pure_resolver get_apple_model_name).

Definition lookup_brother_serial_number : string -> IO http_response :=
  lookup "serial_number" MISSING_SERIAL
    "Invalid Brother Serial Number format (must be 15 alphanumeric characters)."
    BROTHER_SERIAL_REGEX (pure_resolver get_brother_model_name).

Definition lookup_cyberpower_serial_number : string -> IO http_response :=
  lookup "serial_number" MISSING_SERIAL
    "Invalid CyberPower Serial Number format (must be 12 or 16 alphanumeric characters)."
    CYBERPOWER_SERIAL_REGEX (pure_resolver get_cyberpower_model_name).

Definition lookup_juniper_serial_number : string -> IO http_response :=
  lookup "serial_number" MISSING_SERIAL
    "Invalid Juniper Serial Number format (must be 12 alphanumeric characters)."
    JUNIPER_SERIAL_REGEX (pure_resolver get_juniper_model_name).

Definition lookup_viewsonic_serial_number : string -> IO http_response :=
  lookup "serial_number" MISSING_SERIAL
    "Invalid ViewSonic Serial Number format (must be 10-12 alphanumeric characters)."
    VIEWSONIC_SERIAL_REGEX get_viewsonic_model_name.

Definition lookup_hp_serial_number : string -> IO http_response :=
  lookup "serial_number" MISSING_SERIAL
    "Invalid HP Serial Number format (must be 10-12 alphanumeric characters)."
    HP_SERIAL_REGEX get_hp_model_name.

(** ** The dispatcher: Flask's table of [/lookup/<vendor>] routes *)

Inductive vendor : Type :=
| Dell | HP | Lenovo | Apple | Cisco | Juniper | APC | CyberPower | Brother
| Acer | Samsung | Microsoft | Vizio | TCL | ViewSonic.

Definition all_vendors : list vendor :=
  [Dell; HP; Lenovo; Apple; Cisco; Juniper; APC; CyberPower; Brother;
   Acer; Samsung; Microsoft; Vizio; TCL; ViewSonic].

Definition resolve (v : vendor) : string -> IO http_response :=
  match v with
  | Dell => lookup_dell_service_tag
  | HP => lookup_hp_serial_number
  | Lenovo => lookup_lenovo_serial_number
  | Apple => lookup_apple_serial_number
  | Cisco => lookup_cisco_serial_number
  | Juniper => lookup_juniper_serial_number
  | APC => lookup_apc_serial_number
  | CyberPower => lookup_cyberpower_serial_number
  | Brother => lookup_brother_serial_number
  | Acer => lookup_acer_serial_number
  | Samsung => lookup_samsung_serial_number
  | Microsoft => lookup_microsoft_serial_number
  | Vizio => lookup_vizio_serial_number
  | TCL => lookup_tcl_serial_number
  | ViewSonic => lookup_viewsonic_serial_number
  end.

(** The regex a vendor's handler and resolver both name. *)
Definition vendor_regex (v : vendor) : Re.regex :=
  match v with
  | Dell => SERVICE_TAG_REGEX
  | HP => HP_SERIAL_REGEX
  | Lenovo => LENOVO_SERIAL_REGEX
  | Apple => APPLE_SERIAL_REGEX
  | Cisco => CISCO_SERIAL_REGEX
  | Juniper => JUNIPER_SERIAL_REGEX
  | APC => APC_SERIAL_REGEX
  | CyberPower => CYBERPOWER_SERIAL_REGEX
  | Brother => BROTHER_SERIAL_REGEX
  | Acer => ACER_SERIAL_REGEX
  | Samsung => SAMSUNG_SERIAL_REGEX
  | Microsoft => MICROSOFT_SERIAL_REGEX
  | Vizio => VIZIO_SERIAL_REGEX
  | TCL => TCL_SERIAL_REGEX
  | ViewSonic => VIEWSONIC_SERIAL_REGEX
  end.

(** [X_REGEX.match(identifier)] as a truth value. *)
Definition validate (v : vendor) (identifier : string) : bool :=
  Re.matches (vendor_regex v) identifier.

(** The resolver a vendor's handler calls. *)
Definition resolver (v : vendor) : string -> IO result :=
  match v with
  | Dell => get_dell_model_name
  | HP => get_hp_model_name
  | Lenovo => get_lenovo_model_name
  | Apple => pure_resolver get_apple_model_name
  | Cisco => pure_resolver get_cisco_model_name
  | Juniper => pure_resolver get_juniper_model_name
  | APC => pure_resolver get_apc_model_name
  | CyberPower => pure_resolver get_cyberpower_model_name
  | Brother => pure_resolver get_brother_model_name
  | Acer => get_acer_model_name
  | Samsung => pure_resolver get_samsung_model_name
  | Microsoft => pure_resolver get_microsoft_model_name
  | Vizio => pure_resolver get_vizio_model_name
  | TCL => pure_resolver get_tcl_model_name
  | ViewSonic => get_viewsonic_model_name
  end.

(** The message of the invalid-format branch at the top of each resolver. *)
Definition resolver_invalid_message (v : vendor) : string :=
  match v with
  | Dell => "Invalid Dell Service Tag format."
  | HP => "Invalid HP Serial Number format."
  | Lenovo => "Invalid Lenovo Serial Number format (must be 8-12 alphanumeric characters)."
  | Apple => "Invalid Apple Serial Number format (must be 12 or 17 alphanumeric characters)."
  | Cisco => "Invalid Cisco Serial Number format (must be 11 characters: LLLYYWWXXXX)."
  | Juniper => "Invalid Juniper Serial Number format (must be 12 alphanumeric characters)."
  | APC => "Invalid APC Serial Number format (must be 12 alphanumeric characters)."
  | CyberPower =>
      "Invalid CyberPower Serial Number format (must be 12 or 16 alphanumeric characters)."
  | Brother => "Invalid Brother Serial Number format (must be 15 alphanumeric characters)."
  | Acer =>
      "Invalid Acer Serial Number/SNID format (must be 22 alphanumeric or 11/12 digit SNID)."
  | Samsung =>
      "Invalid Samsung Serial Number format (must be 11 or 15 alphanumeric characters)."
  | Microsoft => "Invalid Microsoft Serial Number format (must be 12 or 16 digits/letters)."
  | Vizio => "Invalid Vizio Serial Number format (must be 14 alphanumeric characters)."
  | TCL => "Invalid TCL Serial Number format (must be 12-14 alphanumeric characters)."
  | ViewSonic => "Invalid ViewSonic Serial Number format."
  end.

(** The constants of a vendor's handler. *)
Definition id_key (v : vendor) : string :=
  match v with Dell => "service_tag" | _ => "serial_number" end.

Definition missing_message (v : vendor) : string :=
  match v with Dell => "Missing service tag parameter." | _ => MISSING_SERIAL end.

Definition route_invalid_message (v : vendor) : string :=
  match v with
  | Dell => "Invalid Dell Service Tag format (must be 7 alphanumeric characters)."
  | HP => "Invalid HP Serial Number format (must be 10-12 alphanumeric characters)."
  | Lenovo => "Invalid Lenovo Serial Number format."
  | Apple => "Invalid Apple Serial Number format (must be 12 or 17 alphanumeric characters)."
  | Cisco => "Invalid Cisco Serial Number format."
  | Juniper => "Invalid Juniper Serial Number format (must be 12 alphanumeric characters)."
  | APC => "Invalid APC Serial Number format."
  | CyberPower =>
      "Invalid CyberPower Serial Number format (must be 12 or 16 alphanumeric characters)."
  | Brother => "Invalid Brother Serial Number format (must be 15 alphanumeric characters)."
  | Acer => "Invalid Acer Serial Number/SNID format."
  | Samsung => "Invalid Samsung Serial Number format."
  | Microsoft => "Invalid Microsoft Serial Number format."
  | Vizio => "Invalid Vizio Serial Number format."
  | TCL => "Invalid TCL Serial Number format."
  | ViewSonic => "Invalid ViewSonic Serial Number format (must be 10-12 alphanumeric characters)."
  end.

(** ** The outcome a caller reads off a response *)

Record ResolutionOutcome : Type := mkOutcome {
  model_name : option string;
  diagnostic : string;
  matched : bool
}.

Fixpoint json_get (key : string) (body : json) : option json_value :=
  match body with
  | [] => None
  | (k, x) :: body' => if Str.eqb key k then Some x else json_get key body'
  end.

Definition json_str (key : string) (body : json) : option string :=
  match json_get key body with Some (JStr s) => Some s | _ => None end.

(** [model_name] is the body's [model_name], [diagnostic] its [message] or
    else its [error], [matched] its [success]. *)
Definition outcome_of (resp : http_response) : ResolutionOutcome :=
  let body := fst resp in
  {| model_name := json_str "model_name" body;
     diagnostic :=
       match json_str "message" body with
       | Some m => m
       | None => match json_str "error" body with Some e => e | None => "" end
       end;
     matched :=
       match json_get "success" body with Some (JBool true) => true | _ => false end |}.

(** One resolution attempt against a given network: the outcome read off
    the response, when the handler returns one. *)
Definition outcome (v : vendor) (raw_identifier : string) (net : network)
    : completion ResolutionOutcome :=
  completion_map outcome_of (value (resolve v raw_identifier) net).

(** ** The documented format rules

    The table of the specification, read literally: "alphanumeric" is an
    ASCII letter or digit, "uppercase-alphanumeric" an ASCII capital or
    digit, "digit" one of 0-9. *)

Module Doc.

(** between [lo] and [hi] characters, all of them in the class [p] *)
Definition of_length (lo hi : nat) (p : char -> bool) (s : string) : bool :=
  (lo <=? Str.length s) && (Str.length s <=? hi) && Str.all p s.

Definition format_rule (v : vendor) (s : string) : bool :=
  match v with
  | Dell => of_length 7 7 Str.is_alnum s
  | HP | ViewSonic => of_length 10 12 Str.is_alnum s
  | Juniper => of_length 12 12 Str.is_alnum s
  | CyberPower => of_length 12 12 Str.is_alnum s || of_length 16 16 Str.is_alnum s
  | Brother => of_length 15 15 Str.is_alnum s
  | Apple => of_length 12 12 Str.is_alnum s || of_length 17 17 Str.is_alnum s
  | Acer => of_length 22 22 Str.is_alnum s || of_length 11 12 Str.is_digit s
  | Lenovo => of_length 8 12 Str.is_alnum s
  | Cisco =>
      (Str.length s =? 11)
      && Str.all Str.is_upper (Str.slice_to 3 s)
      && Str.all Str.is_digit (Str.slice_from 3 s)
  | APC => of_length 12 12 Str.is_upper_alnum s
  | Microsoft =>
      of_length 12 12 Str.is_digit s || of_length 16 16 Str.is_digit s
      || of_length 12 12 Str.is_upper_alnum s
  | Samsung => of_length 11 11 Str.is_upper_alnum s || of_length 15 15 Str.is_upper_alnum s
  | Vizio => of_length 14 14 Str.is_upper_alnum s
  | TCL => of_length 12 14 Str.is_upper_alnum s
  end.

(** An identifier the caller has trimmed: [s.strip() == s]. *)
Definition trimmed (s : string) : Prop := Str.strip s = s.

End Doc.

(** ** The format rules as the regexes have them

    The same rules with "digit" read as [\d] reads it, where the regex
    says [\d]: the eight digits of Cisco and the SNID of Acer may be decimal
    digits of any script.  The other regexes spell their digits [[0-9]]. *)
Definition regex_rule (v : vendor) (s : string) : bool :=
  match v with
  | Acer => Doc.of_length 22 22 Str.is_alnum s || Doc.of_length 11 12 Str.is_decimal s
  | Cisco =>
      (Str.length s =? 11)
      && Str.all Str.is_upper (Str.slice_to 3 s)
      && Str.all Str.is_decimal (Str.slice_from 3 s)
  | _ => Doc.format_rule v s
  end.

(** The Arabic-Indic digits zero to nine, U+0660 to U+0669. *)
Definition ARABIC_INDIC_DIGITS : string :=
  of_codes [1632; 1633; 1634; 1635; 1636; 1637; 1638; 1639; 1640; 1641]%N.

(** The characters of a well-formed identifier: ASCII letters and digits,
    and the decimal digits of the other scripts. *)
Definition identifier_char (c : char) : bool := Str.is_alnum c || Str.is_decimal c.

(** A decimal digit in the string is one of [0-9]. *)
Definition ascii_digits_only (s : string) : bool :=
  Str.all (fun c => Str.is_digit c || negb (Str.is_decimal c)) s.

(** ** Notions used in the statements *)

(** Does the string end with a character of the class [p]? *)
Fixpoint last_is (p : char -> bool) (s : string) : bool :=
  match s with
  | EmptyString => false
  | String c EmptyString => p c
  | String _ s' => last_is p s'
  end.

(** The outcome a handler makes of a resolver's pair. *)
Definition outcome_of_result (r : result) : ResolutionOutcome :=
  match fst r with
  | Some n =>
      if Str.nonempty n
      then {| model_name := Some n; diagnostic := snd r; matched := true |}
      else {| model_name := None; diagnostic := snd r; matched := false |}
  | None => {| model_name := None; diagnostic := snd r; matched := false |}
  end.

(** The message starts with a character other than a capital I: it is not
    empty and it is none of the invalid-format messages. *)
Definition head_not_I (m : string) : bool :=
  match m with
  | EmptyString => false
  | String c _ => negb (c =? 73)%N
  end.

Definition COULD_NOT_INFER (vendor_name : string) : string :=
  "Could not infer " ++ vendor_name ++ " model from serial number prefix.".

(** The stages of one scrape resolver in the order its code tries them: two
    selectors, the clean-up of the element's text, the message of a selector
    hit, and the page-title stage where the resolver has one. *)
Record stages : Type := mkStages {
  primary : page -> option element;
  secondary : page -> option element;
  clean : string -> string;
  found_message : string;
  title_stage : option (page -> option result)
  }.

Definition scrape_stages (v : vendor) : option stages :=
  match v with
  | Dell =>
      Some {| primary := find_class "h1" "product-name";
              secondary := find_id "span" "modelName";
              clean := fun t => Str.strip (Re.sub_anchored_empty DELL_PREFIX_RE (Str.strip t));
              found_message := "Model name scraped successfully.";
              title_stage := Some (title_fallback "Support for" DELL_TITLE_RE) |}
  | HP =>
      Some {| primary := find_class "h1" "product-title";
              secondary := find_class "span" "product-name";
              clean := fun t => Str.strip (Re.sub_anchored_empty HP_PREFIX_RE (Str.strip t));
              found_message := "Model name scraped successfully.";
              title_stage := Some (title_fallback "HP Product Information" HP_TITLE_RE) |}
  | ViewSonic =>
      Some {| primary := find_class "h1" "product-name";
              secondary := find_class "span" "model-name";
              clean := Str.strip;
              found_message := "Model name scraped successfully.";
              title_stage := Some (title_fallback "ViewSonic" VIEWSONIC_TITLE_RE) |}
  | Lenovo =>
      Some {| primary := find_class "span" "product-name";
              secondary := find_class "h2" "product-name";
              clean := Str.strip;
              found_message := "Model found via web scraping.";
              title_stage := None |}
  | Acer =>
      Some {| primary := find_class "h1" "product-name";
              secondary := find_class "h2" "product-name";
              clean := Str.strip;
              found_message := "Model found via web scraping.";
              title_stage := None |}
  | _ => None
  end.

(** What Lenovo and Acer answer when neither selector finds an element. *)
Definition no_element_result (v : vendor) (s : string) : result :=
  match v with
  | Acer =>
      if Str.length s =? 22 then
        (Some (acer_serial_label s), "Model inferred from serial number prefix. Please verify.")
      else (None, "Model name element not found on Acer support page.")
  | Lenovo => (None, "Model name element not found on Lenovo support page.")
  | _ => (None, NOT_ON_PAGE)
  end.

(** A fetched Acer page from which no model name is read: neither selector
    finds an element, or the element found has blank text. *)
Definition acer_parse_empty (soup : page) : bool :=
  match Re.orelse (find_class "h1" "product-name" soup)
                  (find_class "h2" "product-name" soup) with
  | Some e => negb (Str.nonempty (Str.strip (text e)))
  | None => true
  end.

Definition ACER_INFERRED : string :=
  "Model inferred from serial number prefix. Please verify.".

Definition ACER_INFERRED_AFTER_FAILURE : string :=
  "Model inferred from serial number prefix (Web scraping failed). Please verify.".



(** ** Further notions: line feeds, request URLs, exception kinds *)

(** The line feed that [$] lets follow a match. *)
Definition LF : string := String 10 EmptyString.

(** [s] without its last character, when that is a line feed. *)
Fixpoint chop_line_feed (s : string) : option string :=
  match s with
  | EmptyString => None
  | String c EmptyString => if (c =? 10)%N then Some EmptyString else None
  | String c s' => option_map (String c) (chop_line_feed s')
  end.

(** A rule, or the rule followed by one line feed. *)
Definition with_final_line_feed (rule : string -> bool) (s : string) : bool :=
  rule s || match chop_line_feed s with Some b => rule b | None => false end.

(** The URL each scrape resolver builds from the identifier. *)
Definition lookup_url (v : vendor) (s : string) : option string :=
  match v with
  | Dell =>
      Some ("https://www.dell.com/support/home/en-us/product-support/servicetag/"
            ++ s ++ "/overview")
  | HP => Some ("https://support.hp.com/us-en/product/lookup/" ++ s)
  | Lenovo => Some ("https://pcsupport.lenovo.com/us/en/warranty-lookup?key=" ++ s)
  | Acer =>
      Some ("https://www.acer.com/us-en/support/product-support/serial-number-lookup?sn="
            ++ s)
  | ViewSonic =>
      Some ("https://www.viewsonic.com/us/viewsonic-warranty-lookup?serial_number=" ++ s)
  | _ => None
  end.

(** The kinds of failed request that the Dell, HP and ViewSonic resolvers
    report with different messages. *)
Inductive failure_kind : Type :=
| NotFound404 | OtherHttpError | ConnectionFailure | TimedOut | Unexpected.

Definition kind_of (e : request_exception) : failure_kind :=
  match exn_cls e with
  | HTTPError => if status_code e =? 404 then NotFound404 else OtherHttpError
  | ConnectionError | ConnectTimeout => ConnectionFailure
  | ReadTimeout => TimedOut
  | OtherRequestException => Unexpected
  end.

(** The first character of a message. *)
Definition head_char (m : string) : option char :=
  match m with
  | EmptyString => None
  | String c _ => Some c
  end.

(** A character that [.] matches and that is no vertical bar. *)
Definition plain_char (c : char) : bool := Str.is_dot c && negb (c =? 124)%N.

(** ** Single sign-on: the session gate of [device_lookup_api.py]

    A Flask [session] is a dictionary of strings.  What Google's OAuth
    library does is an input of the model: the authorization URL and state
    handed to [login], and for [callback] the error raised by
    [flow.fetch_token] (if any) and the [user_info] dictionary. *)

Abbreviation session := (gmap string string).

Inductive flask_response : Type :=
| Json (r : http_response)                (* return jsonify(...), status *)
| Redirect (endpoint : string)            (* return redirect(url_for(endpoint)) *)
| RedirectUrl (location : string)         (* return redirect(location) *)
| Text (body : string) (status : nat)     (* return body, status *)
| Html (body : string)                    (* return body, 200, {'Content-Type': 'text/html'} *)
| KeyError (key : string).                (* d[key] on a missing key, uncaught *)

(** [s.endswith(suffix)] *)
Definition endswith (s suffix : string) : bool :=
  (Str.length suffix <=? Str.length s)
  && Str.eqb (Str.slice_from (Str.length s - Str.length suffix) s) suffix.

(** The decorator: [if 'user_email' not in session: return redirect(url_for('login'))]. *)
Definition login_required (f : session -> IO flask_response) (sess : session)
    : IO flask_response :=
  match sess !! "user_email" with
  | None => ret (Redirect "login")
  | Some _ => f sess
  end.

(** [/login]: remembers the state and sends the user to Google. *)
Definition login (authorization_url state : string) (sess : session)
    : flask_response * session :=
  (RedirectUrl authorization_url, <["oauth_state" := state]> sess).

(** [/google/callback] *)
Definition callback (args : gmap string string) (fetch_token_error : option string)
    (user_info : gmap string string) (sess : session) : flask_response * session :=
  match args !! "error" with
  | Some err => (Text ("Login failed: " ++ err) 400, sess)
  | None =>
      match fetch_token_error with
      | Some e => (Text ("Token fetch failed: " ++ e) 500, sess)
      | None =>
          if negb (endswith (default "" (user_info !! "email")) "@vvisd.org") then
            (Text "Access Denied: You must log in with a @vvisd.org account." 403, sess)
          else
            match user_info !! "email" with      (* user_info['email'] *)
            | None => (KeyError "email", sess)
            | Some email =>
                let sess1 := <["user_email" := email]> sess in
                let sess2 := <["user_name" := default "User" (user_info !! "name")]> sess1 in
                (Redirect "serve_app", sess2)
            end
      end
  end.

(** [/logout] *)
Definition logout (sess : session) : flask_response * session :=
  (Text "You have been logged out. <a href='/login'>Log in again</a>" 200, ∅).

(** [s.replace(old, new)] for a non-empty [old]: the occurrences are replaced
    from the left and do not overlap; [skip] counts the characters of an
    occurrence still to be passed over. *)
Fixpoint replace_from (skip : nat) (old new s : string) : string :=
  match s with
  | EmptyString => EmptyString
  | String c s' =>
      match skip with
      | S k => replace_from k old new s'
      | O =>
          match Str.strip_prefix N.eqb old s with
          | Some _ => new ++ replace_from (Str.length old - 1) old new s'
          | None => String c (replace_from 0 old new s')
          end
      end
  end.

Definition replace (old new s : string) : string := replace_from 0 old new s.

(** [s.rstrip('/')] *)
Fixpoint rstrip_slash (s : string) : string :=
  match s with
  | EmptyString => EmptyString
  | String c s' =>
      match rstrip_slash s' with
      | EmptyString => if (c =? 47)%N then EmptyString else String c EmptyString
      | t => String c t
      end
  end.

(** [/] and [/app]: the page, for a logged-in user.  [index_html] is the
    content of the file ([None] when [open] raises [FileNotFoundError]),
    [api_base_url_env] the environment variable [API_BASE_URL], [url_root]
    the request's [url_root]. *)
Definition serve_app_body (index_html api_base_url_env : option string) (url_root : string)
    (sess : session) : flask_response :=
  match index_html with
  | None => Text "Error: index.html not found on the server." 500
  | Some html_content =>
      let html_content :=
        replace "Van Vleck ISD - Technology Inventory"
          ("Van Vleck ISD - Inventory (" ++ default "Guest" (sess !! "user_name") ++ ")")
          html_content in
      let api_base_url := default (rstrip_slash url_root) api_base_url_env in
      let html_content :=
        replace "state.dellApiUrl = 'https://YOUR_DEPLOYED_API_URL';"
          ("state.dellApiUrl = '" ++ api_base_url ++ "';")
          html_content in
      Html html_content
  end.

Definition serve_app (index_html api_base_url_env : option string) (url_root : string)
    : session -> IO flask_response :=
  login_required (fun sess => ret (serve_app_body index_html api_base_url_env url_root sess)).

(** A [/lookup/<vendor>] route of [device_lookup_api.py], behind the gate. *)
Definition secured_lookup (v : vendor) (tag_arg : string) : session -> IO flask_response :=
  login_required (fun _ => r <- resolve v tag_arg ;; ret (Json r)).

(** What a client can do to its session, one request at a time. *)
Inductive visit : Type :=
| VisitLogin (authorization_url state : string)
| VisitCallback (args : gmap string string) (fetch_token_error : option string)
    (user_info : gmap string string)
| VisitLogout
| VisitOther.     (* a lookup, the page or the status: the session is only read *)

Definition session_after (sess : session) (x : visit) : session :=
  match x with
  | VisitLogin u st => snd (login u st sess)
  | VisitCallback args err info => snd (callback args err info sess)
  | VisitLogout => snd (logout sess)
  | VisitOther => sess
  end.

Definition session_after_all (sess : session) (xs : list visit) : session :=
  fold_left session_after xs sess.

(** The session names no user, or one of the district. *)
Definition district_session (sess : session) : Prop :=
  forall email, sess !! "user_email" = Some email -> endswith email "@vvisd.org" = true.

(** A callback that logs a user in. *)
Definition is_callback (x : visit) : bool :=
  match x with VisitCallback _ _ _ => true | _ => false end.

(** A captured name as the HP title regex delimits it: no line feed, no
    vertical bar, and a last character that is not white space. *)
Definition bar_free_ending_in_text (m : string) : bool :=
  Str.all plain_char m && last_is (fun c => negb (Str.is_space c)) m.

(** What the HP title regex still has to match after the white space that
    follows the name: the bar, white space, the literal. *)
Definition hp_tail_cont (cap : option string) : @Re.cont Re.match_obj :=
  fun b s' c =>
    Re.exec (Re.Seq (Re.Lit false "|")
               (Re.Seq (Re.plus Str.is_space) (Re.Lit false "HP Product Information")))
      b s' c (fun _ s'' c' => Some {| Re.group1 := c'; Re.rest := s'' |}).

(** * Proofs *)

Ltac break_match :=
  repeat match goal with
         | |- context [match ?x with _ => _ end] =>
             lazymatch x with
             | context [match _ with _ => _ end] => fail
             | _ => destruct x
             end
         end.

(** ** The embedding on the examples of the specification *)

Example dell_accepts : Re.matches SERVICE_TAG_REGEX "A1B2C3D" = true.
Proof. reflexivity. Qed.
Example dell_rejects_short : Re.matches SERVICE_TAG_REGEX "ABC12" = false.
Proof. reflexivity. Qed.
Example cisco_accepts : Re.matches CISCO_SERIAL_REGEX "FOX12345678" = true.
Proof. reflexivity. Qed.
Example acer_snid : Re.matches ACER_SERIAL_REGEX "12345678901" = true.
Proof. reflexivity. Qed.

(** [\d] beyond ASCII: an Arabic-Indic digit is a decimal digit and no
    [[0-9]]; superscript two is a digit for [str.isdigit] and no decimal
    digit; the em space is white space; sharp s becomes SS. *)
Example unicode_classes :
  Str.is_decimal 1632 = true /\ Str.is_digit 1632 = false
  /\ Str.is_pydigit 178 = true /\ Str.is_decimal 178 = false
  /\ Str.is_space 8195 = true
  /\ Str.upper_char 223 = "SS".
Proof. repeat split; reflexivity. Qed.

Example dell_title_fallback :
  dell_parse [mkElement "title" [] None "Support for ThinkPad X1 | Dell US"]
  = (Some "ThinkPad X1", "Model name scraped from page title (fallback).").
Proof. vm_compute. reflexivity. Qed.

Example hp_title_fallback :
  hp_parse [mkElement "title" [] None "EliteBook 840 G8 | HP Product Information"]
  = (Some "EliteBook 840 G8", "Model name scraped from page title (fallback).").
Proof. vm_compute. reflexivity. Qed.

Example hp_heading_prefix_removed :
  hp_parse [mkElement "h1" ["product-title"] None "  hp  EliteBook 840 "]
  = (Some "EliteBook 840", "Model name scraped successfully.").
Proof. vm_compute. reflexivity. Qed.

Example viewsonic_title_fallback :
  viewsonic_parse [mkElement "title" [] None "ViewSonic IFP6550 Product Support"]
  = (Some "IFP6550", "Model name scraped from page title (fallback).").
Proof. vm_compute. reflexivity. Qed.

Example resolve_cisco_fox :
  outcome Cisco "FOX12345678" (fun _ => Response [])
  = Returned {| model_name := Some "Cisco Product (Foxconn - Common for Switches/Routers)";
                diagnostic := "Model inferred from serial number location code 'FOX'. Please verify.";
                matched := true |}.
Proof. vm_compute. reflexivity. Qed.

Example resolve_cyberpower_cp1 :
  outcome CyberPower "cp1500xxxxxx" (fun _ => Response [])
  = Returned {| model_name := Some "CyberPower CP1500PFCLCD";
                diagnostic := inferred_from_prefix "CP1";
                matched := true |}.
Proof. vm_compute. reflexivity. Qed.

(** ** Strings *)

Section StringFacts.

Lemma app_cons (c : char) (a b : string) : String c a ++ b = String c (a ++ b).
Proof. reflexivity. Qed.

Lemma app_empty_l (a : string) : "" ++ a = a.
Proof. reflexivity. Qed.

Lemma length_app (a b : string) :
  Str.length (a ++ b) = Str.length a + Str.length b.
Proof.
  induction a as [|c a IH]; [reflexivity |].
  rewrite app_cons. simpl. now rewrite IH.
Qed.

Lemma app_empty_r (a : string) : a ++ "" = a.
Proof. induction a as [|c a IH]; [reflexivity | now rewrite app_cons, IH]. Qed.

Lemma app_assoc_str (a b c : string) : (a ++ b) ++ c = a ++ (b ++ c).
Proof. induction a as [|x a IH]; [reflexivity | now rewrite !app_cons, IH]. Qed.

Lemma app_eq_empty (a b : string) : a ++ b = "" -> a = "" /\ b = "".
Proof.
  destruct a as [|c a]; [now rewrite app_empty_l | rewrite app_cons; discriminate].
Qed.

Lemma length_zero (a : string) : Str.length a = 0 -> a = "".
Proof. destruct a; simpl; [reflexivity | discriminate]. Qed.

Lemma all_app (p : char -> bool) (a b : string) :
  Str.all p (a ++ b) = Str.all p a && Str.all p b.
Proof.
  induction a as [|c a IH]; [reflexivity |].
  rewrite app_cons. simpl. now rewrite IH, andb_assoc.
Qed.

Lemma slice_to_app (a b : string) : Str.slice_to (Str.length a) (a ++ b) = a.
Proof.
  induction a as [|c a IH].
  - rewrite app_empty_l. destruct b; reflexivity.
  - rewrite app_cons. simpl. now rewrite IH.
Qed.

Lemma slice_from_app (a b : string) : Str.slice_from (Str.length a) (a ++ b) = b.
Proof. induction a as [|c a IH]; [reflexivity | rewrite app_cons; exact IH]. Qed.

Lemma slice_split (n : nat) (s : string) : s = Str.slice_to n s ++ Str.slice_from n s.
Proof.
  revert s.
  induction n as [|n IH]; intros [|c s]; simpl; try reflexivity.
  rewrite app_cons. now rewrite <- IH.
Qed.

Lemma slice_to_length (n : nat) (s : string) :
  n <= Str.length s -> Str.length (Str.slice_to n s) = n.
Proof.
  revert s.
  induction n as [|n IH]; intros [|c s]; simpl; intros H; try reflexivity; try lia.
  rewrite IH; [reflexivity | lia].
Qed.

Lemma eqb_eq (a b : string) : Str.eqb a b = true <-> a = b.
Proof.
  revert b. induction a as [|c a IH]; intros [|d b]; simpl; split;
    try discriminate; try reflexivity.
  - rewrite andb_true_iff, N.eqb_eq, IH. now intros [-> ->].
  - intros [= -> ->]. rewrite N.eqb_refl. now apply IH.
Qed.

Lemma nonempty_length (s : string) : Str.nonempty s = negb (Str.length s =? 0).
Proof. destruct s; reflexivity. Qed.

Lemma nonempty_true (s : string) : Str.nonempty s = true <-> s <> "".
Proof. destruct s; simpl; split; try discriminate; try contradiction; auto. Qed.

Lemma nonempty_false (s : string) : Str.nonempty s = false <-> s = "".
Proof. destruct s; simpl; split; try discriminate; auto. Qed.

Lemma last_is_app (p : char -> bool) (a : string) (c : char) :
  last_is p (a ++ String c "") = p c.
Proof.
  induction a as [|x a IH]; [reflexivity |].
  rewrite app_cons. simpl. rewrite IH. destruct a; reflexivity.
Qed.

Lemma rstrip_last (s : string) : last_is Str.is_space (Str.rstrip s) = false.
Proof.
  induction s as [|c s IH]; simpl; [reflexivity |].
  destruct (Str.rstrip s) as [|d t] eqn:E.
  - destruct (Str.is_space c) eqn:Ec; simpl; [reflexivity | exact Ec].
  - exact IH.
Qed.

Lemma trimmed_last (s : string) : Doc.trimmed s -> last_is Str.is_space s = false.
Proof. unfold Doc.trimmed, Str.strip. intros <-. apply rstrip_last. Qed.

End StringFacts.

(** ** Characters *)

Section CharacterFacts.

Lemma in_range_true (lo hi : N) (c : char) :
  Str.in_range lo hi c = true <-> (lo <= c <= hi)%N.
Proof. unfold Str.in_range. rewrite andb_true_iff, !N.leb_le. tauto. Qed.

Lemma in_ranges_true (table : list (N * N)) (c : char) :
  Str.in_ranges table c = true <-> exists r, In r table /\ (fst r <= c <= snd r)%N.
Proof.
  unfold Str.in_ranges. rewrite existsb_exists.
  split; intros (r & Hr & H); exists r; (split; [exact Hr | now apply in_range_true]).
Qed.

(** White space lies below the digits or above the letters. *)
Lemma space_bounds (c : char) : Str.is_space c = true -> (c <= 32 \/ 133 <= c)%N.
Proof.
  intros H. apply in_ranges_true in H as ([lo hi] & Hin & Hc).
  cbn [fst snd] in Hc. unfold Unicode.SPACE_RANGES in Hin. cbn [In] in Hin.
  repeat (destruct Hin as [Hin | Hin]; [injection Hin as <- <-; lia |]).
  contradiction.
Qed.

Lemma alnum_bounds (c : char) : Str.is_alnum c = true -> (48 <= c <= 122)%N.
Proof.
  unfold Str.is_alnum, Str.is_lower, Str.is_upper, Str.is_digit.
  rewrite !orb_true_iff, !in_range_true. lia.
Qed.

Lemma digit_is_alnum (c : char) : Str.is_digit c = true -> Str.is_alnum c = true.
Proof. unfold Str.is_alnum. intros ->. now rewrite orb_true_r. Qed.

Lemma upper_is_alnum (c : char) : Str.is_upper c = true -> Str.is_alnum c = true.
Proof. unfold Str.is_alnum. intros ->. now rewrite orb_true_r. Qed.

Lemma upper_alnum_is_alnum (c : char) :
  Str.is_upper_alnum c = true -> Str.is_alnum c = true.
Proof.
  unfold Str.is_upper_alnum. rewrite orb_true_iff.
  intros [H|H]; [now apply upper_is_alnum | now apply digit_is_alnum].
Qed.

Lemma alnum_not_space (c : char) : Str.is_alnum c = true -> Str.is_space c = false.
Proof.
  intros H. apply alnum_bounds in H.
  destruct (Str.is_space c) eqn:E; [|reflexivity].
  apply space_bounds in E. lia.
Qed.

Lemma upper_alnum_not_space (c : char) :
  Str.is_upper_alnum c = true -> negb (Str.is_space c) = true.
Proof.
  intros H. apply negb_true_iff. now apply alnum_not_space, upper_alnum_is_alnum.
Qed.

Lemma space_not_upper_alnum (c : char) :
  Str.is_space c = true -> Str.is_upper_alnum c = false.
Proof.
  intros H. destruct (Str.is_upper_alnum c) eqn:E; [|reflexivity].
  apply upper_alnum_not_space in E. rewrite H in E. discriminate.
Qed.

Lemma line_feed_is_space (c : char) : (c =? 10)%N = true -> Str.is_space c = true.
Proof. intros H. apply N.eqb_eq in H. subst c. reflexivity. Qed.

(** The ASCII digits are decimal digits, and decimal digits are digits for
    [str.isdigit]. *)
Lemma digit_is_decimal (c : char) : Str.is_digit c = true -> Str.is_decimal c = true.
Proof.
  intros H. apply in_ranges_true. exists (48, 57)%N.
  split; [left; reflexivity | now apply in_range_true].
Qed.

Lemma decimal_ranges_are_digit_ranges :
  forallb (fun r => existsb (fun r' => (fst r' <=? fst r)%N && (snd r <=? snd r')%N)
                      Unicode.DIGIT_RANGES)
    Unicode.DECIMAL_RANGES = true.
Proof. vm_compute. reflexivity. Qed.

Lemma decimal_is_pydigit (c : char) : Str.is_decimal c = true -> Str.is_pydigit c = true.
Proof.
  intros H. apply in_ranges_true in H as (r & Hin & Hc).
  pose proof decimal_ranges_are_digit_ranges as Hall.
  rewrite forallb_forall in Hall. specialize (Hall r Hin).
  apply existsb_exists in Hall as (r' & Hin' & Hr').
  apply andb_true_iff in Hr' as [Hlo Hhi]. apply N.leb_le in Hlo, Hhi.
  apply in_ranges_true. exists r'. split; [exact Hin' | lia].
Qed.

(** A decimal digit is an ASCII digit or lies above the ASCII letters. *)
Lemma decimal_cases (c : char) :
  Str.is_decimal c = true -> Str.is_digit c = true \/ (1632 <= c)%N.
Proof.
  intros H. apply in_ranges_true in H as ([lo hi] & Hin & Hc).
  cbn [fst snd] in Hc. unfold Unicode.DECIMAL_RANGES in Hin. cbn [In] in Hin.
  destruct Hin as [Hin | Hin];
    [injection Hin as <- <-; left; now apply in_range_true |].
  right.
  repeat (destruct Hin as [Hin | Hin]; [injection Hin as <- <-; lia |]).
  contradiction.
Qed.

Lemma assoc_In (c : char) (table : list (N * list N)) (u : list N) :
  Str.assoc c table = Some u -> In (c, u) table.
Proof.
  induction table as [|[k x] table IH]; [discriminate |].
  cbn [Str.assoc]. destruct (N.eqb_spec c k) as [->|Hk].
  - intros [= ->]. now left.
  - intros H. right. now apply IH.
Qed.

(** Upper-casing a character that is already the upper case of one changes
    nothing: every entry of the table is made of characters without entry. *)
Lemma upper_table_is_upper :
  forallb (fun kv => Str.eqb (Str.upper (of_codes (snd kv))) (of_codes (snd kv)))
    Unicode.UPPER_TABLE = true.
Proof. vm_compute. reflexivity. Qed.

Lemma upper_char_idem (c : char) : Str.upper (Str.upper_char c) = Str.upper_char c.
Proof.
  unfold Str.upper_char at 2. unfold Str.upper_char at 1.
  destruct (Str.assoc c Unicode.UPPER_TABLE) as [u|] eqn:E.
  - apply assoc_In in E. pose proof upper_table_is_upper as Hall.
    rewrite forallb_forall in Hall. specialize (Hall _ E). now apply eqb_eq in Hall.
  - cbn [Str.upper]. unfold Str.upper_char. rewrite E. reflexivity.
Qed.

(** No character becomes more than one character starting with C or P. *)
Lemma upper_table_heads :
  forallb (fun kv => match snd kv with
                     | [] => false
                     | [_] => true
                     | h :: _ => negb (h =? 67)%N && negb (h =? 80)%N
                     end)
    Unicode.UPPER_TABLE = true.
Proof. vm_compute. reflexivity. Qed.

Lemma upper_char_cases (c : char) :
  (exists d, Str.upper_char c = String d "")
  \/ (exists h t, Str.upper_char c = String h t /\ h <> 67%N /\ h <> 80%N).
Proof.
  unfold Str.upper_char.
  destruct (Str.assoc c Unicode.UPPER_TABLE) as [u|] eqn:E; [|left; eauto].
  apply assoc_In in E. pose proof upper_table_heads as Hall.
  rewrite forallb_forall in Hall. specialize (Hall _ E). cbn [snd] in Hall.
  destruct u as [|h [|h' u]]; [discriminate | left; cbn; eauto |].
  right. apply andb_true_iff in Hall as [H1 H2].
  apply negb_true_iff, N.eqb_neq in H1, H2. cbn. eauto.
Qed.

(** The characters that match H or S whatever their case are no white
    space. *)
Lemma ci_H_not_space (c : char) :
  Re.eq_char true 72 c = true -> Str.is_space c = false.
Proof.
  unfold Re.eq_char.
  assert (E : Re.case_variants 72 = [104; 72]%N) by reflexivity.
  rewrite E. cbn [existsb]. rewrite !orb_true_iff, !N.eqb_eq.
  intros [->|[->|H]]; try discriminate; reflexivity.
Qed.

Lemma ci_S_not_space (c : char) :
  Re.eq_char true 83 c = true -> Str.is_space c = false.
Proof.
  unfold Re.eq_char.
  assert (E : Re.case_variants 83 = [115; 83; 383]%N) by reflexivity.
  rewrite E. cbn [existsb]. rewrite !orb_true_iff, !N.eqb_eq.
  intros [->|[->|[->|H]]]; try discriminate; reflexivity.
Qed.

End CharacterFacts.

(** ** The matcher *)

Section MatcherFacts.

Lemma is_Some_orelse {A} (a b : option A) :
  is_Some (Re.orelse a b) <-> is_Some a \/ is_Some b.
Proof.
  destruct a as [x|]; simpl.
  - split; [intros _; left; eauto | intros _; eauto].
  - split; [intros H; now right | intros [[x Hx]|H]; [discriminate | exact H]].
Qed.

Lemma orelse_comm_is_Some {A} (g : bool) (a b : option A) :
  is_Some (if g then Re.orelse a b else Re.orelse b a) <-> is_Some a \/ is_Some b.
Proof. destruct g; rewrite is_Some_orelse; tauto. Qed.

(** A repetition succeeds exactly when some admissible prefix of the
    class lets the continuation succeed. *)
Lemma rep_exec_is_Some {R} (g : bool) (p : char -> bool) (s : string) :
  forall (lo : nat) (hi : option nat) (bos : bool) (cap : option string)
         (k : @Re.cont R),
    is_Some (Re.rep_exec g p lo hi bos s cap k) <->
    exists pre rest,
      s = pre ++ rest /\ lo <= Str.length pre
      /\ (forall h, hi = Some h -> Str.length pre <= h)
      /\ Str.all p pre = true
      /\ is_Some (k (bos && negb (Str.nonempty pre)) rest cap).
Proof.
  induction s as [|c s IH]; intros lo hi bos cap k.
  - assert (E : Re.rep_exec g p lo hi bos "" cap k
                = if lo =? 0 then k bos "" cap else None).
    { simpl. destruct hi as [[|h]|], g; simpl;
        destruct (if lo =? 0 then k bos "" cap else None); reflexivity. }
    rewrite E. split.
    + destruct (Nat.eqb_spec lo 0) as [->|Hlo]; intros H.
      * exists "", "". simpl. rewrite andb_true_r.
        repeat split; [lia | intros; lia | exact H].
      * destruct H; discriminate.
    + intros (pre & rest & Hs & Hlo & _ & _ & Hk).
      symmetry in Hs. apply app_eq_empty in Hs as [-> ->].
      simpl in Hlo, Hk. rewrite andb_true_r in Hk.
      assert (lo = 0) as -> by lia. exact Hk.
  - simpl. rewrite orelse_comm_is_Some. split.
    + intros [Hmore | Hstop].
      * destruct (p c) eqn:Hc.
        -- assert (Hrec : is_Some (Re.rep_exec g p (pred lo) (option_map pred hi)
                                      false s cap k) /\ hi <> Some 0).
           { destruct hi as [[|h]|]; try (destruct Hmore; discriminate);
               split; try exact Hmore; discriminate. }
           destruct Hrec as [Hrec Hhi].
           apply IH in Hrec as (pre & rest & Hs & Hlo & Hh & Hall & Hk).
           exists (String c pre), rest. rewrite app_cons. simpl.
           rewrite Hc, Hall, andb_false_r.
           repeat split; [now rewrite Hs | lia | | exact Hk].
           intros h ->. destruct h as [|h]; [congruence |].
           specialize (Hh h eq_refl). lia.
        -- destruct hi as [[|h]|]; destruct Hmore; discriminate.
      * destruct (Nat.eqb_spec lo 0) as [->|Hlo]; [|destruct Hstop; discriminate].
        exists "", (String c s). simpl. rewrite andb_true_r.
        repeat split; [lia | intros; lia | exact Hstop].
    + intros (pre & rest & Hs & Hlo & Hh & Hall & Hk).
      destruct pre as [|d pre].
      * right. rewrite app_empty_l in Hs. subst rest. simpl in *.
        rewrite andb_true_r in Hk.
        assert (lo = 0) as -> by lia. exact Hk.
      * left. rewrite app_cons in Hs. injection Hs as <- ->. simpl in *.
        apply andb_true_iff in Hall as [Hc Hall]. rewrite Hc.
        assert (Hrec : is_Some (Re.rep_exec g p (pred lo) (option_map pred hi)
                                   false (pre ++ rest) cap k)).
        { apply IH. exists pre, rest.
          rewrite andb_false_r in Hk.
          repeat split; [lia | | exact Hall | exact Hk].
          intros h Hp. destruct hi as [h'|]; [|discriminate].
          injection Hp as <-. specialize (Hh h' eq_refl). lia. }
        destruct hi as [[|h]|]; try exact Hrec.
        specialize (Hh 0 eq_refl). lia.
Qed.

Lemma matches_true (r : Re.regex) (s : string) :
  Re.matches r s = true <-> is_Some (Re.match_at r true s).
Proof.
  unfold Re.matches, Re.re_match.
  destruct (Re.match_at r true s); split; intros H; eauto; try discriminate.
  destruct H; discriminate.
Qed.

Lemma matches_alt (a b : Re.regex) (s : string) :
  Re.matches (Re.Alt a b) s = Re.matches a s || Re.matches b s.
Proof.
  unfold Re.matches, Re.re_match, Re.match_at. simpl.
  destruct (Re.exec a true s None _); reflexivity.
Qed.

(** In a string that does not end with white space, [$] is the end. *)
Lemma at_eol_end (pre rest : string) :
  last_is Str.is_space (pre ++ rest) = false -> Re.at_eol rest = true -> rest = "".
Proof.
  intros Hlast Heol. destruct rest as [|c [|d rest]]; try reflexivity; try discriminate.
  simpl in Heol. apply line_feed_is_space in Heol.
  rewrite last_is_app in Hlast. congruence.
Qed.

Lemma of_length_true (lo hi : nat) (p : char -> bool) (s : string) :
  Doc.of_length lo hi p s = true <->
  lo <= Str.length s /\ Str.length s <= hi /\ Str.all p s = true.
Proof.
  unfold Doc.of_length. rewrite !andb_true_iff, !Nat.leb_le. tauto.
Qed.

(** [^p{lo,hi}$] on a string without trailing white space. *)
Lemma matches_anchored_rep (g : bool) (p : char -> bool) (lo hi : nat) (s : string) :
  last_is Str.is_space s = false ->
  Re.matches (Re.anchored (Re.Rep g p lo (Some hi))) s = Doc.of_length lo hi p s.
Proof.
  intros Hlast. apply eq_true_iff_eq.
  rewrite matches_true, of_length_true.
  unfold Re.anchored, Re.match_at. simpl Re.exec.
  rewrite rep_exec_is_Some. split.
  - intros (pre & rest & Hs & Hlo & Hhi & Hall & Hk).
    destruct (Re.at_eol rest) eqn:Heol; [|destruct Hk; discriminate].
    subst s. apply (at_eol_end pre) in Heol; [|exact Hlast]. subst rest.
    rewrite app_empty_r. specialize (Hhi hi eq_refl). auto.
  - intros (Hlo & Hhi & Hall). exists s, "". rewrite app_empty_r.
    repeat split; try assumption.
    + now intros h [= <-].
    + simpl. eauto.
Qed.

(** [^[A-Z]{3}\d{8}$] on a string without trailing white space. *)
Lemma matches_cisco (s : string) :
  last_is Str.is_space s = false ->
  Re.matches CISCO_SERIAL_REGEX s = regex_rule Cisco s.
Proof.
  intros Hlast. apply eq_true_iff_eq.
  rewrite matches_true. unfold regex_rule.
  rewrite !andb_true_iff, Nat.eqb_eq.
  unfold CISCO_SERIAL_REGEX, Re.anchored, Re.exactly, Re.match_at. simpl Re.exec.
  rewrite rep_exec_is_Some. split.
  - intros (pre & rest & Hs & Hlo & Hhi & Hall & Hk).
    apply rep_exec_is_Some in Hk as (pre2 & rest2 & Hs2 & Hlo2 & Hhi2 & Hall2 & Hk).
    destruct (Re.at_eol rest2) eqn:Heol; [|destruct Hk; discriminate].
    subst rest s. specialize (Hhi 3 eq_refl). specialize (Hhi2 8 eq_refl).
    rewrite <- app_assoc_str in Hlast.
    apply (at_eol_end (pre ++ pre2)) in Heol; [|exact Hlast].
    subst rest2. rewrite app_empty_r.
    assert (Hpre : Str.length pre = 3) by lia.
    rewrite length_app. rewrite <- Hpre at 2 3.
    rewrite slice_to_app, slice_from_app. repeat split; try assumption. lia.
  - intros [[Hlen Hup] Hdig].
    exists (Str.slice_to 3 s), (Str.slice_from 3 s).
    assert (H3 : Str.length (Str.slice_to 3 s) = 3) by (apply slice_to_length; lia).
    assert (H8 : Str.length (Str.slice_from 3 s) = 8).
    { pose proof (slice_split 3 s) as E. apply (f_equal Str.length) in E.
      rewrite length_app in E. lia. }
    repeat split; try assumption; try lia.
    + apply slice_split.
    + intros h [= <-]. lia.
    + apply rep_exec_is_Some. exists (Str.slice_from 3 s), "".
      rewrite app_empty_r. repeat split; try assumption; try lia.
      * intros h [= <-]. lia.
      * simpl. eauto.
Qed.

End MatcherFacts.

(** ** The validator *)

Section Validator.

Ltac unfold_regexes :=
  unfold validate, vendor_regex,
    SERVICE_TAG_REGEX, HP_SERIAL_REGEX, VIEWSONIC_SERIAL_REGEX, JUNIPER_SERIAL_REGEX,
    CYBERPOWER_SERIAL_REGEX, BROTHER_SERIAL_REGEX, APPLE_SERIAL_REGEX, ACER_SERIAL_REGEX,
    LENOVO_SERIAL_REGEX, APC_SERIAL_REGEX, MICROSOFT_SERIAL_REGEX, SAMSUNG_SERIAL_REGEX,
    VIZIO_SERIAL_REGEX, TCL_SERIAL_REGEX, Re.exactly, Re.between.

Lemma validate_trimmed (v : vendor) (s : string) :
  Doc.trimmed s -> validate v s = regex_rule v s.
Proof.
  intros Ht. apply trimmed_last in Ht.
  destruct v; try (unfold validate, vendor_regex; now apply matches_cisco);
    unfold_regexes; unfold regex_rule, Doc.format_rule;
    rewrite ?matches_alt, ?matches_anchored_rep by exact Ht;
    rewrite ?orb_assoc; reflexivity.
Qed.

Lemma all_slice_from (p : char -> bool) (n : nat) (s : string) :
  Str.all p s = true -> Str.all p (Str.slice_from n s) = true.
Proof.
  revert s. induction n as [|n IH]; intros [|c s]; simpl; try reflexivity; auto.
  rewrite andb_true_iff. intros [_ H]. now apply IH.
Qed.

Lemma all_agree (r p q : char -> bool) (s : string) :
  (forall c, r c = true -> p c = q c) ->
  Str.all r s = true -> Str.all p s = Str.all q s.
Proof.
  intros Hpq. induction s as [|c s IH]; [reflexivity |].
  cbn [Str.all]. rewrite andb_true_iff. intros [Hc Hs].
  now rewrite (Hpq c Hc), (IH Hs).
Qed.

Lemma decimal_is_digit_on_ascii (c : char) :
  Str.is_digit c || negb (Str.is_decimal c) = true -> Str.is_decimal c = Str.is_digit c.
Proof.
  destruct (Str.is_digit c) eqn:Hd; [intros _; now apply digit_is_decimal |].
  cbn [orb]. now intros H%negb_true_iff.
Qed.

(** On identifiers whose decimal digits are ASCII the two rules agree. *)
Lemma regex_rule_ascii (v : vendor) (s : string) :
  ascii_digits_only s = true -> regex_rule v s = Doc.format_rule v s.
Proof.
  unfold ascii_digits_only. intros Hs.
  destruct v; try reflexivity; unfold regex_rule, Doc.format_rule, Doc.of_length.
  - rewrite (all_agree _ Str.is_decimal Str.is_digit _ decimal_is_digit_on_ascii
               (all_slice_from _ 3 s Hs)).
    reflexivity.
  - now rewrite (all_agree _ Str.is_decimal Str.is_digit _ decimal_is_digit_on_ascii Hs).
Qed.

(** C5: the documented rule is not the rule of the code.  [\d] accepts the
    decimal digits of every script, so a trimmed, upper-cased Cisco
    identifier made of FOX and eight Arabic-Indic digits, and an Acer SNID
    of eleven Arabic-Indic digits, pass the format test, although the
    documented rule (digits 0-9) rejects them; the Cisco route answers the
    first with the Foxconn label.  The Microsoft regex, which spells its
    digits [[0-9]], rejects twelve such digits.  On every other trimmed
    identifier - any identifier of the thirteen vendors whose regex has no
    [\d], and any identifier whose decimal digits are ASCII - the format
    test is the documented rule. *)
Theorem digit_class_accepts_other_scripts :
  let digits := ARABIC_INDIC_DIGITS in
  let cisco := "FOX" ++ Str.slice_to 8 digits in
  let snid := digits ++ Str.slice_to 1 digits in
  (Doc.trimmed cisco /\ Str.upper cisco = cisco
   /\ validate Cisco cisco = true /\ Doc.format_rule Cisco cisco = false)
  /\ (Doc.trimmed snid /\ Str.upper snid = snid
      /\ validate Acer snid = true /\ Doc.format_rule Acer snid = false)
  /\ (forall net,
        outcome Cisco cisco net
        = Returned {| model_name :=
                        Some "Cisco Product (Foxconn - Common for Switches/Routers)";
                      diagnostic :=
                        "Model inferred from serial number location code 'FOX'. Please verify.";
                      matched := true |})
  /\ validate Microsoft (digits ++ Str.slice_to 2 digits) = false
  /\ (forall v s,
        Doc.trimmed s ->
        (v <> Cisco /\ v <> Acer) \/ ascii_digits_only s = true ->
        validate v s = Doc.format_rule v s).
Proof.
  cbv zeta. split; [|split; [|split; [|split]]].
  - repeat split; vm_compute; reflexivity.
  - repeat split; vm_compute; reflexivity.
  - intros net. vm_compute. reflexivity.
  - vm_compute. reflexivity.
  - intros v s Ht H. rewrite (validate_trimmed v s Ht).
    destruct H as [[Hc Ha] | H]; [|now apply regex_rule_ascii].
    destruct v; try reflexivity; contradiction.
Qed.

Lemma digit_class_accepts_other_scripts_witness :
  (Doc.trimmed "FOX12345678" /\ ascii_digits_only "FOX12345678" = true)
  /\ validate Cisco "FOX12345678" = Doc.format_rule Cisco "FOX12345678".
Proof.
  split; [split; reflexivity |].
  destruct digit_class_accepts_other_scripts as (_ & _ & _ & _ & H).
  apply H; [reflexivity | right; reflexivity].
Defined.

(** Without the trimming the two differ as well: [$] also matches before a
    final line feed, so a documented-length identifier followed by one is
    accepted. *)
Example validate_accepts_final_line_feed :
  let s := "A1B2C3D" ++ String 10 "" in
  validate Dell s = true /\ Doc.format_rule Dell s = false.
Proof. split; reflexivity. Qed.

Lemma validate_empty (v : vendor) : validate v "" = false.
Proof. destruct v; reflexivity. Qed.

Lemma validate_nonempty (v : vendor) (s : string) :
  validate v s = true -> Str.nonempty s = true.
Proof.
  destruct s; [rewrite validate_empty; discriminate | reflexivity].
Qed.

End Validator.

(** ** The dispatcher *)

Section Dispatcher.

Lemma resolve_eq (v : vendor) (raw : string) :
  resolve v raw
  = lookup (id_key v) (missing_message v) (route_invalid_message v)
      (vendor_regex v) (resolver v) raw.
Proof. destruct v; reflexivity. Qed.

Lemma value_lookup (k m i : string) (rx : Re.regex) (f : string -> IO result)
    (raw : string) (net : network) :
  value (lookup k m i rx f raw) net
  = if negb (Str.nonempty (Str.upper raw)) then Returned ([("error", JStr m)], 400)
    else if negb (Re.matches rx (Str.upper raw)) then Returned ([("error", JStr i)], 400)
    else completion_map (respond k (Str.upper raw)) (value (f (Str.upper raw)) net).
Proof.
  unfold lookup, value.
  destruct (negb (Str.nonempty (Str.upper raw))); [reflexivity |].
  destruct (negb (Re.matches rx (Str.upper raw))); [reflexivity |].
  unfold bind, ret. destruct (f (Str.upper raw) net) as [[r|x] l]; reflexivity.
Qed.

Lemma calls_lookup (k m i : string) (rx : Re.regex) (f : string -> IO result)
    (raw : string) (net : network) :
  calls (lookup k m i rx f raw) net
  = if negb (Str.nonempty (Str.upper raw)) then []
    else if negb (Re.matches rx (Str.upper raw)) then []
    else calls (f (Str.upper raw)) net.
Proof.
  unfold lookup, calls.
  destruct (negb (Str.nonempty (Str.upper raw))); [reflexivity |].
  destruct (negb (Re.matches rx (Str.upper raw))); [reflexivity |].
  unfold bind, ret. destruct (f (Str.upper raw) net) as [[r|x] l]; simpl;
    [apply app_nil_r | reflexivity].
Qed.

Lemma outcome_respond (v : vendor) (ident : string) (r : result) :
  outcome_of (respond (id_key v) ident r) = outcome_of_result r.
Proof.
  destruct r as [[n|] msg]; unfold respond, outcome_of_result, outcome_of; cbn.
  - destruct (Str.nonempty n); destruct v; reflexivity.
  - destruct v; reflexivity.
Qed.

(** A well-formed identifier goes to the resolver, and the outcome is the
    resolver's pair read by the handler. *)
Lemma outcome_valid (v : vendor) (raw : string) (net : network) :
  validate v (Str.upper raw) = true ->
  outcome v raw net
  = completion_map outcome_of_result (value (resolver v (Str.upper raw)) net).
Proof.
  intros Hv. unfold outcome. rewrite resolve_eq, value_lookup.
  rewrite (validate_nonempty v _ Hv). unfold validate in Hv. rewrite Hv. simpl.
  destruct (value (resolver v (Str.upper raw)) net) as [r|x]; [|reflexivity].
  cbn [completion_map]. now rewrite outcome_respond.
Qed.

(** What the resolver returns decides the outcome. *)
Lemma outcome_returned (v : vendor) (raw : string) (net : network) (r : result) :
  validate v (Str.upper raw) = true ->
  value (resolver v (Str.upper raw)) net = Returned r ->
  outcome v raw net = Returned (outcome_of_result r).
Proof. intros Hv Hr. now rewrite (outcome_valid _ _ _ Hv), Hr. Qed.

Lemma calls_valid (v : vendor) (raw : string) (net : network) :
  validate v (Str.upper raw) = true ->
  calls (resolve v raw) net = calls (resolver v (Str.upper raw)) net.
Proof.
  intros Hv. rewrite resolve_eq, calls_lookup.
  rewrite (validate_nonempty v _ Hv). unfold validate in Hv. now rewrite Hv.
Qed.

Lemma outcome_invalid (v : vendor) (raw : string) (net : network) :
  Str.nonempty (Str.upper raw) = true ->
  validate v (Str.upper raw) = false ->
  outcome v raw net
  = Returned {| model_name := None; diagnostic := route_invalid_message v; matched := false |}
  /\ calls (resolve v raw) net = [].
Proof.
  intros Hn Hv. unfold outcome. rewrite resolve_eq, value_lookup, calls_lookup.
  rewrite Hn. unfold validate in Hv. rewrite Hv. split; reflexivity.
Qed.

(** C8: for every vendor the empty identifier gives the missing-identifier
    response with status 400 and no network call; the emptiness test comes
    first, although the empty string would fail the format test as well. *)
Theorem empty_identifier_is_missing_input (v : vendor) (net : network) :
  value (resolve v "") net = Returned ([("error", JStr (missing_message v))], 400)
  /\ calls (resolve v "") net = []
  /\ outcome v "" net
     = Returned {| model_name := None; diagnostic := missing_message v; matched := false |}
  /\ validate v "" = false
  /\ missing_message v <> route_invalid_message v.
Proof.
  repeat split; try (destruct v; reflexivity); destruct v; discriminate.
Qed.

End Dispatcher.

(** ** Inference resolvers *)

Section Inference.

Ltac entries_nonempty H :=
  apply elem_of_list_to_map_2 in H;
  repeat (apply elem_of_cons in H as [H|H]; [injection H as -> ->; reflexivity |]);
  apply elem_of_nil in H; contradiction.

Lemma apple_entries_nonempty (k m : string) :
  apple_prefix_to_model !! k = Some m -> Str.nonempty m = true.
Proof. intros H. entries_nonempty H. Qed.

Lemma cisco_entries_nonempty (k m : string) :
  cisco_prefix_to_model !! k = Some m -> Str.nonempty m = true.
Proof. intros H. entries_nonempty H. Qed.

Lemma brother_entries_nonempty (k m : string) :
  brother_prefix_to_model !! k = Some m -> Str.nonempty m = true.
Proof. intros H. entries_nonempty H. Qed.

Lemma juniper_entries_nonempty (k m : string) :
  juniper_prefix_to_model !! k = Some m -> Str.nonempty m = true.
Proof. intros H. entries_nonempty H. Qed.

Lemma matched_result (m msg : string) :
  Str.nonempty m = true ->
  outcome_of_result (Some m, msg)
  = {| model_name := Some m; diagnostic := msg; matched := true |}.
Proof. intros H. unfold outcome_of_result. cbn [fst snd]. now rewrite H. Qed.

Lemma upper_slice_CP1 (s : string) :
  Str.upper (Str.slice_to 3 s) = "CP1" -> Str.upper (Str.slice_to 2 s) = "CP".
Proof.
  destruct s as [|a [|b s]]; cbn [Str.slice_to Str.upper].
  - discriminate.
  - destruct (upper_char_cases a) as [[x ->] | (h & t & -> & Hc & Hp)];
      rewrite !app_cons, ?app_empty_l; [discriminate |].
    intros [= E _]. contradiction.
  - destruct (upper_char_cases a) as [[x ->] | (h & t & -> & Hc & Hp)];
      rewrite !app_cons, ?app_empty_l; [|intros [= E _]; contradiction].
    destruct (upper_char_cases b) as [[y ->] | (h & t & -> & Hc & Hp)];
      rewrite !app_cons, ?app_empty_l; [|intros [= _ E _]; contradiction].
    intros [= -> -> _]. reflexivity.
Qed.

(** C9: a well-formed Samsung, Microsoft or TCL identifier always resolves
    to the vendor's one generic label with the structure-inference
    diagnostic, matched, and without a network call. *)
Theorem generic_label_vendors (v : vendor) (label s : string) (net : network) :
  In (v, label) [(Samsung, "Samsung Device (Inferred)");
                 (Microsoft, "Microsoft Surface Device (Inferred)");
                 (TCL, "TCL TV/Display (Inferred)")] ->
  validate v s = true ->
  resolver v s = ret (Some label, INFERRED_FROM_STRUCTURE)
  /\ forall raw, Str.upper raw = s ->
       outcome v raw net
       = Returned {| model_name := Some label;
                     diagnostic := INFERRED_FROM_STRUCTURE;
                     matched := true |}
       /\ calls (resolve v raw) net = [].
Proof.
  intros Hin Hv.
  assert (Hres : resolver v s = ret (Some label, INFERRED_FROM_STRUCTURE)).
  { unfold validate in Hv.
    destruct Hin as [H|[H|[H|[]]]]; injection H as <- <-; simpl in Hv |- *;
      unfold pure_resolver, get_samsung_model_name, get_microsoft_model_name,
        get_tcl_model_name; now rewrite Hv. }
  split; [exact Hres |].
  intros raw <-. split.
  - rewrite (outcome_valid _ _ _ Hv), Hres.
    destruct Hin as [H|[H|[H|[]]]]; injection H as <- <-; reflexivity.
  - now rewrite (calls_valid _ _ _ Hv), Hres.
Qed.

Lemma generic_label_vendors_witness :
  (In (Samsung, "Samsung Device (Inferred)")
      [(Samsung, "Samsung Device (Inferred)");
       (Microsoft, "Microsoft Surface Device (Inferred)");
       (TCL, "TCL TV/Display (Inferred)")]
   /\ validate Samsung "R58M12ABCDE" = true
   /\ Str.upper "r58m12abcde" = "R58M12ABCDE")
  /\ outcome Samsung "r58m12abcde" (fun _ => Raised (mkExn ReadTimeout 0 "timed out"))
     = Returned {| model_name := Some "Samsung Device (Inferred)";
                   diagnostic := INFERRED_FROM_STRUCTURE;
                   matched := true |}.
Proof.
  split; [split; [left; reflexivity | split; reflexivity] |].
  refine (proj1 (proj2 (generic_label_vendors Samsung "Samsung Device (Inferred)"
                          "R58M12ABCDE" _ _ _) "r58m12abcde" _)).
  - left. reflexivity.
  - reflexivity.
  - reflexivity.
Defined.

(** C4: the CyberPower resolver looks the 3-character prefix up first and
    the 2-character prefix only when that misses; an identifier that
    starts with CP1 gets the CP1 entry, not the CP entry. *)
Theorem cyberpower_longest_prefix_first (s : string) :
  validate CyberPower s = true ->
  let prefix3 := Str.upper (Str.slice_to 3 s) in
  let prefix2 := Str.upper (Str.slice_to 2 s) in
  (forall m, cyberpower_prefix_to_model !! prefix3 = Some m ->
     get_cyberpower_model_name s = (Some m, inferred_from_prefix prefix3))
  /\ (cyberpower_prefix_to_model !! prefix3 = None ->
      forall m, cyberpower_prefix_to_model !! prefix2 = Some m ->
        get_cyberpower_model_name s = (Some m, inferred_from_prefix prefix2))
  /\ (prefix3 = "CP1" ->
      get_cyberpower_model_name s
      = (Some "CyberPower CP1500PFCLCD", inferred_from_prefix "CP1")
      /\ cyberpower_prefix_to_model !! prefix2 = Some "CyberPower CP Series UPS"
      /\ forall raw net, Str.upper raw = s ->
           outcome CyberPower raw net
           = Returned {| model_name := Some "CyberPower CP1500PFCLCD";
                         diagnostic := inferred_from_prefix "CP1";
                         matched := true |}).
Proof.
  intros Hv prefix3 prefix2.
  assert (Hguard : Re.matches CYBERPOWER_SERIAL_REGEX s = true) by exact Hv.
  assert (H3 : forall m, cyberpower_prefix_to_model !! prefix3 = Some m ->
            get_cyberpower_model_name s = (Some m, inferred_from_prefix prefix3)).
  { intros m Hm. unfold get_cyberpower_model_name. rewrite Hguard. simpl negb.
    cbv iota. fold prefix3. now rewrite Hm. }
  split; [exact H3 | split].
  - intros Hmiss m Hm. unfold get_cyberpower_model_name. rewrite Hguard. simpl negb.
    cbv iota. fold prefix3 prefix2. now rewrite Hmiss, Hm.
  - intros Hcp1.
    assert (Hres : get_cyberpower_model_name s
                   = (Some "CyberPower CP1500PFCLCD", inferred_from_prefix "CP1")).
    { rewrite <- Hcp1. apply H3. rewrite Hcp1. reflexivity. }
    split; [exact Hres | split].
    + unfold prefix2. rewrite (upper_slice_CP1 s Hcp1). reflexivity.
    + intros raw net <-. rewrite (outcome_valid _ _ _ Hv).
      simpl resolver. unfold pure_resolver. rewrite Hres. reflexivity.
Qed.

Lemma cyberpower_longest_prefix_first_witness :
  (validate CyberPower "CP1500XXXXXX" = true
   /\ Str.upper (Str.slice_to 3 "CP1500XXXXXX") = "CP1"
   /\ Str.upper "cp1500xxxxxx" = "CP1500XXXXXX")
  /\ outcome CyberPower "cp1500xxxxxx" (fun _ => Response [])
     = Returned {| model_name := Some "CyberPower CP1500PFCLCD";
                   diagnostic := inferred_from_prefix "CP1";
                   matched := true |}.
Proof.
  split; [repeat split; reflexivity |].
  refine (proj2 (proj2 (proj2 (proj2
           (cyberpower_longest_prefix_first "CP1500XXXXXX" _)) _))
           "cp1500xxxxxx" _ _); reflexivity.
Defined.

(** C3: what an unknown prefix gives depends on the vendor.  Cisco and TCL
    answer with a generic label and a match; Apple, Brother and Juniper
    answer with no match and a could-not-infer diagnostic.  A Cisco
    identifier whose prefix is a key of the table gets the entry of that
    key: the specific label of FOX, FOC, JAE, JAB or KWC, with a diagnostic
    that quotes the prefix. *)
Theorem unknown_prefix_policy (raw : string) (net : network) :
  let s := Str.upper raw in
  (validate Cisco s = true ->
   cisco_prefix_to_model !! Str.upper (Str.slice_to 3 s) = None ->
   outcome Cisco raw net
   = Returned {| model_name := Some "Cisco Network Device (Inferred)";
                 diagnostic := INFERRED_FROM_STRUCTURE; matched := true |})
  /\ (validate TCL s = true ->
      outcome TCL raw net
      = Returned {| model_name := Some "TCL TV/Display (Inferred)";
                    diagnostic := INFERRED_FROM_STRUCTURE; matched := true |})
  /\ (validate Apple s = true ->
      apple_prefix_to_model !! Str.upper (Str.slice_to 3 s) = None ->
      outcome Apple raw net
      = Returned {| model_name := None; diagnostic := COULD_NOT_INFER "Apple";
                    matched := false |})
  /\ (validate Brother s = true ->
      brother_prefix_to_model !! Str.upper (Str.slice_to 2 s) = None ->
      outcome Brother raw net
      = Returned {| model_name := None; diagnostic := COULD_NOT_INFER "Brother";
                    matched := false |})
  /\ (validate Juniper s = true ->
      juniper_prefix_to_model !! Str.upper (Str.slice_to 2 s) = None ->
      outcome Juniper raw net
      = Returned {| model_name := None; diagnostic := COULD_NOT_INFER "Juniper";
                    matched := false |})
  /\ (validate Cisco s = true ->
      forall model,
        cisco_prefix_to_model !! Str.upper (Str.slice_to 3 s) = Some model ->
        outcome Cisco raw net
        = Returned {| model_name := Some model;
                      diagnostic :=
                        "Model inferred from serial number location code '"
                        ++ Str.upper (Str.slice_to 3 s) ++ "'. Please verify.";
                      matched := true |})
  /\ (validate Cisco s = true ->
      forall key label,
        In (key, label)
           [("FOX", "Cisco Product (Foxconn - Common for Switches/Routers)");
            ("FOC", "Cisco Product (China - Common for Switches/Routers)");
            ("JAE", "Cisco Product (Japan - Older/Specialized Gear)");
            ("JAB", "Cisco Product (Japan - Older/Specialized Gear)");
            ("KWC", "Cisco Product (Common for Access Points/Smaller Devices)")] ->
        Str.upper (Str.slice_to 3 s) = key ->
        outcome Cisco raw net
        = Returned {| model_name := Some label;
                      diagnostic :=
                        "Model inferred from serial number location code '"
                        ++ key ++ "'. Please verify.";
                      matched := true |}).
Proof.
  intros s.
  assert (Hknown : validate Cisco s = true ->
            forall model,
              cisco_prefix_to_model !! Str.upper (Str.slice_to 3 s) = Some model ->
              outcome Cisco raw net
              = Returned {| model_name := Some model;
                            diagnostic :=
                              "Model inferred from serial number location code '"
                              ++ Str.upper (Str.slice_to 3 s) ++ "'. Please verify.";
                            matched := true |}).
  { intros Hv model Hm. rewrite (outcome_valid _ _ _ Hv). fold s.
    unfold validate in Hv. simpl in Hv.
    simpl resolver. unfold pure_resolver, value, ret. simpl fst.
    unfold get_cisco_model_name. rewrite Hv. simpl negb. cbv iota. rewrite Hm.
    cbn [completion_map]. f_equal. apply matched_result.
    now apply (cisco_entries_nonempty _ _ Hm). }
  split; [|split; [|split; [|split; [|split; [|split]]]]];
    try exact Hknown; intros Hv.
  1-5: rewrite (outcome_valid _ _ _ Hv); fold s; unfold validate in Hv; simpl in Hv;
    simpl resolver; unfold pure_resolver, value, ret; simpl fst.
  - intros Hmiss. unfold get_cisco_model_name. rewrite Hv. simpl negb. cbv iota.
    now rewrite Hmiss.
  - unfold get_tcl_model_name. now rewrite Hv.
  - intros Hmiss. unfold get_apple_model_name. rewrite Hv. simpl negb. cbv iota.
    now rewrite Hmiss.
  - intros Hmiss. unfold get_brother_model_name. rewrite Hv. simpl negb. cbv iota.
    now rewrite Hmiss.
  - intros Hmiss. unfold get_juniper_model_name. rewrite Hv. simpl negb. cbv iota.
    now rewrite Hmiss.
  - intros key label Hin Hkey.
    assert (Hm : cisco_prefix_to_model !! Str.upper (Str.slice_to 3 s) = Some label).
    { rewrite Hkey.
      repeat (destruct Hin as [Hin | Hin]; [injection Hin as <- <-; reflexivity |]).
      contradiction. }
    rewrite (Hknown Hv label Hm). now rewrite Hkey.
Qed.

Lemma unknown_prefix_policy_witness :
  outcome Cisco "ZZZ12345678" (fun _ => Response [])
  = Returned {| model_name := Some "Cisco Network Device (Inferred)";
                diagnostic := INFERRED_FROM_STRUCTURE; matched := true |}
  /\ outcome TCL "ABCDEF123456" (fun _ => Response [])
     = Returned {| model_name := Some "TCL TV/Display (Inferred)";
                   diagnostic := INFERRED_FROM_STRUCTURE; matched := true |}
  /\ outcome Apple "ZZZ123456789" (fun _ => Response [])
     = Returned {| model_name := None; diagnostic := COULD_NOT_INFER "Apple"; matched := false |}
  /\ outcome Brother "ZZ0000000000000" (fun _ => Response [])
     = Returned {| model_name := None; diagnostic := COULD_NOT_INFER "Brother"; matched := false |}
  /\ outcome Juniper "ZZ0000000000" (fun _ => Response [])
     = Returned {| model_name := None; diagnostic := COULD_NOT_INFER "Juniper"; matched := false |}
  /\ outcome Cisco "foc12345678" (fun _ => Response [])
     = Returned {| model_name :=
                     Some "Cisco Product (China - Common for Switches/Routers)";
                   diagnostic :=
                     "Model inferred from serial number location code 'FOC'. Please verify.";
                   matched := true |}
  /\ outcome Cisco "FOX12345678" (fun _ => Response [])
     = Returned {| model_name :=
                     Some "Cisco Product (Foxconn - Common for Switches/Routers)";
                   diagnostic :=
                     "Model inferred from serial number location code 'FOX'. Please verify.";
                   matched := true |}.
Proof.
  split; [|split; [|split; [|split; [|split; [|split]]]]].
  - destruct (unknown_prefix_policy "ZZZ12345678" (fun _ => Response []))
      as (H & _).
    apply H; vm_compute; reflexivity.
  - destruct (unknown_prefix_policy "ABCDEF123456" (fun _ => Response []))
      as (_ & H & _).
    apply H; vm_compute; reflexivity.
  - destruct (unknown_prefix_policy "ZZZ123456789" (fun _ => Response []))
      as (_ & _ & H & _).
    apply H; vm_compute; reflexivity.
  - destruct (unknown_prefix_policy "ZZ0000000000000" (fun _ => Response []))
      as (_ & _ & _ & H & _).
    apply H; vm_compute; reflexivity.
  - destruct (unknown_prefix_policy "ZZ0000000000" (fun _ => Response []))
      as (_ & _ & _ & _ & H & _).
    apply H; vm_compute; reflexivity.
  - destruct (unknown_prefix_policy "foc12345678" (fun _ => Response []))
      as (_ & _ & _ & _ & _ & H & _).
    etransitivity; [apply H; vm_compute; reflexivity | vm_compute; reflexivity].
  - destruct (unknown_prefix_policy "FOX12345678" (fun _ => Response []))
      as (_ & _ & _ & _ & _ & _ & H).
    apply (H eq_refl "FOX" "Cisco Product (Foxconn - Common for Switches/Routers)");
      [left; reflexivity | vm_compute; reflexivity].
Defined.

End Inference.

(** ** What every resolver returns *)

Section Resolvers.

(** The value of a scrape resolver: the guard, then one request. *)
Lemma value_scrape (guard : bool) (invalid : result) (u : string)
    (k : fetched -> IO result) (net : network) :
  value (if guard then ret invalid else r <- requests_get u ;; k r) net
  = if guard then Returned invalid
    else value (k (net {| url := u; user_agent := USER_AGENT; timeout := 10 |})) net.
Proof.
  destruct guard; [reflexivity |].
  unfold value, bind, requests_get. cbn.
  destruct (k _ net). reflexivity.
Qed.

Lemma calls_scrape (guard : bool) (invalid : result) (u : string)
    (k : fetched -> IO result) (net : network) :
  (forall r, calls (k r) net = []) ->
  calls (if guard then ret invalid else r <- requests_get u ;; k r) net
  = if guard then []
    else [{| url := u; user_agent := USER_AGENT; timeout := 10 |}].
Proof.
  intros Hk. destruct guard; [reflexivity |].
  unfold calls, bind, requests_get. cbn.
  specialize (Hk (net {| url := u; user_agent := USER_AGENT; timeout := 10 |})).
  unfold calls in Hk. destruct (k _ net) as [c l]. cbn in *. now rewrite Hk.
Qed.

Lemma value_ret {A} (a : A) (net : network) : value (ret a) net = Returned a.
Proof. reflexivity. Qed.

Lemma value_raise {A} (x : exception) (net : network) :
  value (@raise A x) net = Propagated x.
Proof. reflexivity. Qed.

Lemma except_clauses_head (nf : string) (e : request_exception) :
  head_not_I nf = true -> head_not_I (snd (except_clauses nf e)) = true.
Proof. intros H. unfold except_clauses. break_match; try exact H; reflexivity. Qed.

Lemma except_clauses_none (nf : string) (e : request_exception) :
  fst (except_clauses nf e) = None.
Proof. unfold except_clauses. break_match; reflexivity. Qed.

Lemma title_fallback_Some (marker : string) (rx : Re.regex) (soup : page) (r : result) :
  title_fallback marker rx soup = Some r ->
  exists n, r = (Some n, "Model name scraped from page title (fallback).")
            /\ Str.nonempty n = true.
Proof.
  unfold title_fallback.
  destruct (find_tag "title" soup) as [t|]; [|discriminate].
  destruct (Str.contains marker (text t)); [|discriminate].
  destruct (Re.search rx (text t)) as [m|]; [|discriminate].
  destruct (Re.group1 m) as [g|]; [|discriminate].
  destruct (Str.nonempty (Str.strip g)) eqn:E; [|discriminate].
  intros [= <-]. eauto.
Qed.

Ltac parse_head :=
  match goal with
  | |- context [title_fallback ?m ?rx ?soup] =>
      let E := fresh "E" in
      destruct (title_fallback m rx soup) as [?r|] eqn:E;
      [apply title_fallback_Some in E as (?n & -> & _) |]
  end;
  break_match; reflexivity.

Lemma viewsonic_parse_head (soup : page) : head_not_I (snd (viewsonic_parse soup)) = true.
Proof. unfold viewsonic_parse. parse_head. Qed.

Lemma hp_parse_head (soup : page) : head_not_I (snd (hp_parse soup)) = true.
Proof. unfold hp_parse. parse_head. Qed.

Lemma dell_parse_head (soup : page) : head_not_I (snd (dell_parse soup)) = true.
Proof. unfold dell_parse. parse_head. Qed.

(** On a well-formed identifier no resolver answers with its
    invalid-format message, and none answers with an empty message. *)
Lemma resolver_message_head (v : vendor) (s : string) (net : network) (r : result) :
  validate v s = true ->
  value (resolver v s) net = Returned r -> head_not_I (snd r) = true.
Proof.
  unfold validate. intros Hv.
  destruct v; cbn [vendor_regex] in Hv; cbn [resolver];
    try (unfold pure_resolver; rewrite value_ret; intros [= <-];
         unfold get_apple_model_name, get_cisco_model_name, get_juniper_model_name,
           get_apc_model_name, get_cyberpower_model_name, get_brother_model_name,
           get_samsung_model_name, get_microsoft_model_name, get_vizio_model_name,
           get_tcl_model_name;
         rewrite Hv; cbn [negb]; cbv iota; break_match; reflexivity).
  - unfold get_dell_model_name. rewrite value_scrape, Hv. cbn [negb].
    cbv iota. destruct (net _); rewrite ?value_ret, ?value_raise; intros [= <-];
      [apply dell_parse_head | now apply except_clauses_head].
  - unfold get_hp_model_name. rewrite value_scrape, Hv. cbn [negb].
    cbv iota. destruct (net _); rewrite ?value_ret, ?value_raise; intros [= <-];
      [apply hp_parse_head | now apply except_clauses_head].
  - unfold get_lenovo_model_name. rewrite value_scrape, Hv.
    cbn [negb]. cbv iota.
    destruct (net _); rewrite ?value_ret, ?value_raise; intros [= <-];
      break_match; reflexivity.
  - unfold get_acer_model_name. rewrite value_scrape, Hv.
    cbn [negb]. cbv iota.
    destruct (net _); rewrite ?value_ret, ?value_raise; intros [= <-];
      break_match; reflexivity.
  - unfold get_viewsonic_model_name. rewrite value_scrape, Hv.
    cbn [negb]. cbv iota.
    destruct (net _); rewrite ?value_ret, ?value_raise; intros [= <-];
      [apply viewsonic_parse_head | now apply except_clauses_head].
Qed.

Lemma head_not_I_nonempty (m : string) : head_not_I m = true -> m <> "".
Proof. destruct m; [discriminate | intros _; discriminate]. Qed.

(** The test at the top of each resolver is the handler's test. *)
Lemma resolver_guard (v : vendor) (s : string) :
  validate v s = false -> resolver v s = ret (None, resolver_invalid_message v).
Proof.
  unfold validate. intros Hv.
  destruct v; simpl in Hv |- *;
    unfold pure_resolver, get_dell_model_name, get_hp_model_name, get_lenovo_model_name,
      get_acer_model_name, get_viewsonic_model_name,
      get_apple_model_name, get_cisco_model_name, get_juniper_model_name,
      get_apc_model_name, get_cyberpower_model_name, get_brother_model_name,
      get_samsung_model_name, get_microsoft_model_name, get_vizio_model_name,
      get_tcl_model_name;
    now rewrite Hv.
Qed.

(** An exception propagates out of a resolver exactly when the
    identifier is well formed, the resolver is one that sends a request, and
    that request or the parsing of its answer raises an exception that is no
    [RequestException]. *)
Lemma resolver_propagates (v : vendor) (s : string) (net : network) (x : exception) :
  value (resolver v s) net = Propagated x <->
  validate v s = true
  /\ exists u, lookup_url v s = Some u
               /\ net {| url := u; user_agent := USER_AGENT; timeout := 10 |} = Uncaught x.
Proof.
  destruct (validate v s) eqn:Hv.
  - unfold validate in Hv.
    destruct v; cbn [vendor_regex] in Hv; cbn [resolver lookup_url];
      try (unfold pure_resolver; rewrite value_ret; split;
           [discriminate | intros (_ & u & Hu & _); discriminate]);
      unfold get_dell_model_name, get_hp_model_name, get_lenovo_model_name,
        get_acer_model_name, get_viewsonic_model_name;
      rewrite value_scrape, Hv; cbn [negb]; cbv iota;
      (split;
       [ destruct (net _) as [soup|e|y] eqn:En;
         rewrite ?value_ret, ?value_raise; try discriminate;
         intros [= ->]; split; [reflexivity | eexists; split; [reflexivity | exact En]]
       | intros (_ & u & [= <-] & ->); apply value_raise ]).
  - rewrite (resolver_guard v s Hv), value_ret.
    split; [discriminate | intros (H & _); discriminate].
Qed.

Lemma resolve_propagates (v : vendor) (raw : string) (net : network) (x : exception) :
  value (resolve v raw) net = Propagated x <->
  validate v (Str.upper raw) = true
  /\ exists u, lookup_url v (Str.upper raw) = Some u
               /\ net {| url := u; user_agent := USER_AGENT; timeout := 10 |} = Uncaught x.
Proof.
  rewrite <- resolver_propagates, resolve_eq, value_lookup.
  fold (validate v (Str.upper raw)).
  destruct (Str.nonempty (Str.upper raw)) eqn:Hn; cbn [negb].
  - destruct (validate v (Str.upper raw)) eqn:Hv; cbn [negb].
    + destruct (value (resolver v (Str.upper raw)) net); cbn [completion_map];
        split; intros H; try discriminate; injection H as ->; reflexivity.
    + rewrite (resolver_guard v _ Hv), value_ret. split; discriminate.
  - destruct (Str.upper raw); [|discriminate].
    rewrite (resolver_guard v "" (validate_empty v)), value_ret. split; discriminate.
Qed.

Lemma outcome_propagates (v : vendor) (raw : string) (net : network) (x : exception) :
  outcome v raw net = Propagated x <->
  validate v (Str.upper raw) = true
  /\ exists u, lookup_url v (Str.upper raw) = Some u
               /\ net {| url := u; user_agent := USER_AGENT; timeout := 10 |} = Uncaught x.
Proof.
  rewrite <- resolve_propagates. unfold outcome.
  destruct (value (resolve v raw) net); cbn [completion_map];
    split; intros H; try discriminate; injection H as ->; reflexivity.
Qed.


End Resolvers.

(** ** Invariants of the outcome *)

Section Outcome.

Lemma outcome_missing (v : vendor) (raw : string) (net : network) :
  Str.nonempty (Str.upper raw) = false ->
  outcome v raw net
  = Returned {| model_name := None; diagnostic := missing_message v; matched := false |}
  /\ calls (resolve v raw) net = [].
Proof.
  intros Hn. unfold outcome. rewrite resolve_eq, value_lookup, calls_lookup, Hn.
  split; reflexivity.
Qed.

Lemma route_messages_nonempty (v : vendor) :
  missing_message v <> "" /\ route_invalid_message v <> "".
Proof. split; destruct v; discriminate. Qed.

Lemma resolver_message_nonempty (v : vendor) (net : network) (s : string) (r : result) :
  value (resolver v s) net = Returned r -> snd r <> "".
Proof.
  destruct (validate v s) eqn:Hv.
  - intros Hr. apply head_not_I_nonempty. now apply (resolver_message_head v s net).
  - rewrite (resolver_guard v s Hv), value_ret. intros [= <-]. destruct v; discriminate.
Qed.

Lemma outcome_of_result_matched (name : option string) (msg : string) :
  let o := outcome_of_result (name, msg) in
  diagnostic o = msg
  /\ (matched o = true <-> exists n, name = Some n /\ n <> "")
  /\ (matched o = true -> model_name o = name)
  /\ (matched o = false -> model_name o = None)
  /\ (matched o = true <-> exists n, model_name o = Some n /\ n <> "").
Proof.
  unfold outcome_of_result. cbn [fst snd].
  destruct name as [n|].
  - destruct (Str.nonempty n) eqn:En; cbn.
    + assert (Hn : n <> "") by (destruct n; discriminate).
      repeat split; try reflexivity; try discriminate; eauto.
    + apply nonempty_false in En. subst n.
      repeat split; try reflexivity; try discriminate.
      * intros (n & [= <-] & H). contradiction.
      * intros (n & H & _). discriminate.
  - cbn. repeat split; try reflexivity; try discriminate;
      intros (n & H & _); discriminate.
Qed.

(** An outcome that is returned has a diagnostic, and is matched exactly
    when it names a model. *)
Lemma returned_outcome_invariant (v : vendor) (raw : string) (net : network)
    (o : ResolutionOutcome) :
  outcome v raw net = Returned o ->
  diagnostic o <> ""
  /\ (matched o = true <-> exists n, model_name o = Some n /\ n <> "").
Proof.
  intros Ho.
  assert (Hno : false = true <-> exists n : string, @None string = Some n /\ n <> "").
  { split; [discriminate | intros (n & H & _); discriminate]. }
  destruct (Str.nonempty (Str.upper raw)) eqn:Hn.
  - destruct (validate v (Str.upper raw)) eqn:Hv.
    + rewrite (outcome_valid _ _ _ Hv) in Ho.
      destruct (value (resolver v (Str.upper raw)) net) as [[name msg]|x] eqn:Hr;
        [|discriminate].
      injection Ho as <-.
      pose proof (resolver_message_nonempty v net _ _ Hr) as Hm. cbn [snd] in Hm.
      destruct (outcome_of_result_matched name msg) as (Hd & _ & _ & _ & Hmatch).
      cbv zeta in Hd, Hmatch. rewrite Hd. split; [exact Hm | exact Hmatch].
    + rewrite (proj1 (outcome_invalid _ _ net Hn Hv)) in Ho. injection Ho as <-. cbn.
      split; [apply route_messages_nonempty | exact Hno].
  - rewrite (proj1 (outcome_missing _ _ net Hn)) in Ho. injection Ho as <-. cbn.
    split; [apply route_messages_nonempty | exact Hno].
Qed.

(** C7 (amended): an attempt that returns gives one outcome, whose
    diagnostic is not empty and which is matched exactly when it carries a
    non-empty model name.  The outcome is read off what the resolver
    returned: its message is the diagnostic, and it is matched exactly when
    the resolver returned a non-empty name, which is then the model name; a
    resolver never returns an empty message.  The one way not to return is
    an exception that is no [RequestException], raised by the request or by
    the parsing of the fetched page: it propagates out of the handler. *)
Theorem outcome_invariant (v : vendor) (raw : string) (net : network) :
  let s := Str.upper raw in
  (forall o, outcome v raw net = Returned o ->
     diagnostic o <> ""
     /\ (matched o = true <-> exists n, model_name o = Some n /\ n <> ""))
  /\ (validate v s = true ->
      forall name msg, value (resolver v s) net = Returned (name, msg) ->
        exists o, outcome v raw net = Returned o
          /\ diagnostic o = msg
          /\ (matched o = true <-> exists n, name = Some n /\ n <> "")
          /\ (matched o = true -> model_name o = name)
          /\ (matched o = false -> model_name o = None))
  /\ (forall s' name msg, value (resolver v s') net = Returned (name, msg) -> msg <> "")
  /\ ((exists o, outcome v raw net = Returned o)
      \/ (exists x u,
            outcome v raw net = Propagated x
            /\ validate v s = true /\ lookup_url v s = Some u
            /\ net {| url := u; user_agent := USER_AGENT; timeout := 10 |} = Uncaught x)).
Proof.
  cbv zeta. split; [|split; [|split]].
  - intros o Ho. now apply (returned_outcome_invariant v raw net).
  - intros Hv name msg Hr. exists (outcome_of_result (name, msg)).
    split; [now apply outcome_returned |].
    destruct (outcome_of_result_matched name msg) as (Hd & H1 & H2 & H3 & _). auto.
  - intros s' name msg Hr. apply (resolver_message_nonempty v net s' _ Hr).
  - destruct (outcome v raw net) as [o|x] eqn:E; [left; eauto |].
    right. apply outcome_propagates in E as (Hv & u & Hu & Hx). exists x, u. auto.
Qed.

Lemma outcome_invariant_witness :
  (validate Dell (Str.upper "a1b2c3d") = true
   /\ value (resolver Dell (Str.upper "a1b2c3d"))
        (fun _ => Response [mkElement "h1" ["product-name"] None "Latitude 5420"])
      = Returned (Some "Latitude 5420", "Model name scraped successfully."))
  /\ exists o,
       outcome Dell "a1b2c3d"
         (fun _ => Response [mkElement "h1" ["product-name"] None "Latitude 5420"])
       = Returned o
       /\ diagnostic o = "Model name scraped successfully."
       /\ (matched o = true <-> exists n, Some "Latitude 5420" = Some n /\ n <> "")
       /\ (matched o = true -> model_name o = Some "Latitude 5420")
       /\ (matched o = false -> model_name o = None).
Proof.
  assert (Hv : validate Dell (Str.upper "a1b2c3d") = true) by reflexivity.
  assert (Hr : value (resolver Dell (Str.upper "a1b2c3d"))
                 (fun _ => Response [mkElement "h1" ["product-name"] None "Latitude 5420"])
               = Returned (Some "Latitude 5420", "Model name scraped successfully."))
    by (vm_compute; reflexivity).
  split; [split; [exact Hv | exact Hr] |].
  destruct (outcome_invariant Dell "a1b2c3d"
              (fun _ => Response [mkElement "h1" ["product-name"] None "Latitude 5420"]))
    as (_ & H & _).
  exact (H Hv _ _ Hr).
Defined.

(** C7 as stated fails: when the parser rejects the page that HP sent, the
    attempt ends in no outcome at all; the exception leaves the handler. *)
Lemma rejected_page_gives_no_outcome :
  outcome HP "5CD1234ABC"
    (fun _ => Uncaught (mkException "ParserRejectedMarkup"
                          "The markup you provided was rejected by the parser."))
  = Propagated (mkException "ParserRejectedMarkup"
                  "The markup you provided was rejected by the parser.").
Proof. vm_compute. reflexivity. Qed.

(** C10: the handler applies the vendor's regex before it calls the
    resolver, and the resolver applies the same regex again; so a resolver
    called by its handler never takes its invalid-format branch. *)
Theorem resolver_invalid_branch_unreachable (v : vendor) (raw : string) (net : network) :
  Str.upper raw <> "" ->
  validate v (Str.upper raw) = true ->
  value (resolve v raw) net
  = completion_map (respond (id_key v) (Str.upper raw))
      (value (resolver v (Str.upper raw)) net)
  /\ (forall r, value (resolver v (Str.upper raw)) net = Returned r ->
        snd r <> resolver_invalid_message v)
  /\ (forall s, validate v s = false ->
        resolver v s = ret (None, resolver_invalid_message v))
  /\ (forall raw', Str.upper raw' <> "" -> validate v (Str.upper raw') = false ->
        value (resolve v raw') net
        = Returned ([("error", JStr (route_invalid_message v))], 400)
        /\ calls (resolve v raw') net = []).
Proof.
  intros Hne Hv. repeat split.
  - rewrite resolve_eq, value_lookup, (validate_nonempty _ _ Hv).
    unfold validate in Hv. now rewrite Hv.
  - intros r Hr. pose proof (resolver_message_head v _ net r Hv Hr) as Hm.
    intros E. rewrite E in Hm. destruct v; discriminate.
  - apply resolver_guard.
  - rewrite resolve_eq, value_lookup.
    destruct (Str.upper raw'); [contradiction | cbn [Str.nonempty negb]].
    unfold validate in H0. now rewrite H0.
  - rewrite resolve_eq, calls_lookup.
    destruct (Str.upper raw'); [contradiction | cbn [Str.nonempty negb]].
    unfold validate in H0. now rewrite H0.
Qed.

Lemma resolver_invalid_branch_unreachable_witness :
  (Str.upper "a1b2c3d" <> "" /\ validate Dell (Str.upper "a1b2c3d") = true
   /\ value (resolver Dell (Str.upper "a1b2c3d")) (fun _ => Response [])
      = Returned (None, NOT_ON_PAGE))
  /\ snd (@None string, NOT_ON_PAGE) <> resolver_invalid_message Dell.
Proof.
  split; [split; [discriminate | split; reflexivity] |].
  destruct (resolver_invalid_branch_unreachable Dell "a1b2c3d" (fun _ => Response []))
    as (_ & H & _); [discriminate | reflexivity |].
  apply H. reflexivity.
Defined.

End Outcome.

(** ** The extraction stages of the scrape resolvers *)

Section Scrape.

(** The value of each scrape resolver on a fetched page. *)
Lemma value_fetched (v : vendor) (st : stages) (s : string) (soup : page) :
  scrape_stages v = Some st ->
  validate v s = true ->
  value (resolver v s) (fun _ => Response soup)
  = Returned
      match v with
      | Dell => dell_parse soup
      | HP => hp_parse soup
      | ViewSonic => viewsonic_parse soup
      | _ =>
          match Re.orelse (primary st soup) (secondary st soup) with
          | Some e =>
              if Str.nonempty (Str.strip (text e))
              then (Some (Str.strip (text e)), "Model found via web scraping.")
              else no_element_result v s
          | None => no_element_result v s
          end
      end.
Proof.
  unfold validate. intros Hst Hv.
  destruct v; try discriminate; injection Hst as <-;
    cbn [vendor_regex] in Hv; cbn [resolver primary secondary no_element_result];
    unfold get_dell_model_name, get_hp_model_name, get_viewsonic_model_name,
      get_lenovo_model_name, get_acer_model_name;
    rewrite value_scrape, Hv; cbn [negb]; cbv iota; rewrite value_ret; try reflexivity.
  - destruct (Re.orelse _ _) as [e|]; [|reflexivity].
    destruct (Str.nonempty _); reflexivity.
  - destruct (Re.orelse _ _) as [e|]; [|reflexivity].
    destruct (Str.nonempty _); reflexivity.
Qed.

(** An element found by a selector decides the answer alone. *)
Lemma value_element (v : vendor) (st : stages) (s : string) (soup : page) (e : element) :
  scrape_stages v = Some st ->
  validate v s = true ->
  Re.orelse (primary st soup) (secondary st soup) = Some e ->
  value (resolver v s) (fun _ => Response soup)
  = Returned
      match title_stage st with
      | Some _ => (Some (clean st (text e)), found_message st)
      | None =>
          if Str.nonempty (clean st (text e))
          then (Some (clean st (text e)), found_message st)
          else no_element_result v s
      end.
Proof.
  intros Hst Hv. rewrite (value_fetched v st s soup Hst Hv).
  destruct v; try discriminate; injection Hst as <-;
    cbn [primary secondary clean found_message title_stage];
    unfold dell_parse, hp_parse, viewsonic_parse, Re.orelse.
  - destruct (find_class "h1" "product-name" soup) as [e1|];
      [intros [= ->] | intros ->]; reflexivity.
  - destruct (find_class "h1" "product-title" soup) as [e1|];
      [intros [= ->] | intros ->]; reflexivity.
  - fold (Re.orelse (find_class "span" "product-name" soup)
                    (find_class "h2" "product-name" soup)).
    intros ->. reflexivity.
  - fold (Re.orelse (find_class "h1" "product-name" soup)
                    (find_class "h2" "product-name" soup)).
    intros ->. reflexivity.
  - destruct (find_class "h1" "product-name" soup) as [e1|];
      [intros [= ->] | intros ->]; reflexivity.
Qed.

(** With both elements absent the answer is the title stage's, or the
    no-element answer of the resolvers that have no title stage. *)
Lemma value_no_element (v : vendor) (st : stages) (s : string) (soup : page) :
  scrape_stages v = Some st -> validate v s = true ->
  primary st soup = None -> secondary st soup = None ->
  value (resolver v s) (fun _ => Response soup)
  = Returned
      match title_stage st with
      | Some title =>
          match title soup with Some res => res | None => (None, NOT_ON_PAGE) end
      | None => no_element_result v s
      end.
Proof.
  intros Hst Hv. rewrite (value_fetched v st s soup Hst Hv).
  destruct v; try discriminate; injection Hst as <-;
    cbn [primary secondary title_stage];
    unfold dell_parse, hp_parse, viewsonic_parse;
    intros -> ->; reflexivity.
Qed.

(** C2 (amended): Dell, HP and ViewSonic try a primary selector, then a
    secondary selector, then a regex on the page title; Lenovo and Acer
    try the two selectors only and have no title stage.  A selector whose
    element is on the page with non-empty text wins; with both elements
    absent the answer is that of the title stage, or for Lenovo and Acer
    the no-element answer.  A later stage is reached only when the elements
    of the earlier ones are absent: the element of the primary selector,
    when there is one, decides the answer whatever else is on the page, and
    so does the element of the secondary selector when the primary one
    finds nothing. *)
Theorem scrape_stage_order (v : vendor) (st : stages) (s : string) (soup : page) :
  scrape_stages v = Some st ->
  validate v s = true ->
  let r := fun p : page => value (resolver v s) (fun _ => Response p) in
  (forall e, primary st soup = Some e -> clean st (text e) <> "" ->
     r soup = Returned (Some (clean st (text e)), found_message st))
  /\ (primary st soup = None ->
      forall e, secondary st soup = Some e -> clean st (text e) <> "" ->
        r soup = Returned (Some (clean st (text e)), found_message st))
  /\ (primary st soup = None -> secondary st soup = None ->
      match title_stage st with
      | Some title =>
          r soup
          = Returned match title soup with Some res => res | None => (None, NOT_ON_PAGE) end
      | None => r soup = Returned (no_element_result v s)
      end)
  /\ (title_stage st = None <-> v = Lenovo \/ v = Acer)
  /\ (forall e soup',
        primary st soup = Some e -> primary st soup' = Some e -> r soup = r soup')
  /\ (forall e soup',
        primary st soup = None -> primary st soup' = None ->
        secondary st soup = Some e -> secondary st soup' = Some e ->
        r soup = r soup').
Proof.
  intros Hst Hv r. subst r. cbv beta.
  assert (Hfound : forall e, Re.orelse (primary st soup) (secondary st soup) = Some e ->
            clean st (text e) <> "" ->
            value (resolver v s) (fun _ => Response soup)
            = Returned (Some (clean st (text e)), found_message st)).
  { intros e He Hne. rewrite (value_element v st s soup e Hst Hv He).
    apply nonempty_true in Hne. rewrite Hne. now destruct (title_stage st). }
  split; [|split; [|split; [|split; [|split]]]].
  - intros e He. apply Hfound. now rewrite He.
  - intros Hp e He. apply Hfound. now rewrite Hp, He.
  - intros Hp Hsec. rewrite (value_no_element v st s soup Hst Hv Hp Hsec).
    now destruct (title_stage st).
  - destruct v; try discriminate; injection Hst as <-; cbn [title_stage];
      (split; [intros H; try discriminate; auto | intros [H|H]; try discriminate; auto]).
  - intros e soup' He He'.
    rewrite (value_element v st s soup e Hst Hv), (value_element v st s soup' e Hst Hv);
      [reflexivity | now rewrite He' | now rewrite He].
  - intros e soup' Hp Hp' He He'.
    rewrite (value_element v st s soup e Hst Hv), (value_element v st s soup' e Hst Hv);
      [reflexivity | now rewrite Hp', He' | now rewrite Hp, He].
Qed.

Lemma scrape_stage_order_witness :
  (scrape_stages Dell
   = Some {| primary := find_class "h1" "product-name";
             secondary := find_id "span" "modelName";
             clean := fun t => Str.strip (Re.sub_anchored_empty DELL_PREFIX_RE (Str.strip t));
             found_message := "Model name scraped successfully.";
             title_stage := Some (title_fallback "Support for" DELL_TITLE_RE) |}
   /\ validate Dell "A1B2C3D" = true)
  /\ value (resolver Dell "A1B2C3D")
       (fun _ => Response [mkElement "title" [] None "Support for ThinkPad X1 | Dell US"])
     = Returned (Some "ThinkPad X1", "Model name scraped from page title (fallback).").
Proof.
  split; [split; reflexivity |].
  destruct (scrape_stage_order Dell _ "A1B2C3D"
              [mkElement "title" [] None "Support for ThinkPad X1 | Dell US"]
              eq_refl eq_refl) as (_ & _ & H & _).
  etransitivity; [apply H; reflexivity | vm_compute; reflexivity].
Defined.

(** C2 as stated fails.  On an HP page whose heading is present but blank
    the answer is a blank name, hence no match, although the secondary
    selector and the title both carry the model; and whatever the title of
    a page says, Lenovo and Acer (with an SNID) answer no match when the
    two selectors find nothing, because they have no title stage. *)
Lemma scrape_three_stages_refuted :
  (let soup := [mkElement "h1" ["product-title"] None "  ";
                mkElement "span" ["product-name"] None "EliteBook 840 G8";
                mkElement "title" [] None "EliteBook 840 G8 | HP Product Information"] in
   value (resolver HP "5CD1234ABC") (fun _ => Response soup)
   = Returned (Some "", "Model name scraped successfully.")
   /\ outcome HP "5CD1234ABC" (fun _ => Response soup)
      = Returned {| model_name := None;
                    diagnostic := "Model name scraped successfully.";
                    matched := false |}
   /\ hp_parse (tl soup) = (Some "EliteBook 840 G8", "Model name scraped successfully.")
   /\ hp_parse (tl (tl soup))
      = (Some "EliteBook 840 G8", "Model name scraped from page title (fallback)."))
  /\ (forall t,
        value (resolver Lenovo "PF2ABCDE") (fun _ => Response [mkElement "title" [] None t])
        = Returned (None, "Model name element not found on Lenovo support page."))
  /\ (forall t,
        value (resolver Acer "12345678901") (fun _ => Response [mkElement "title" [] None t])
        = Returned (None, "Model name element not found on Acer support page.")).
Proof.
  split; [|split].
  - cbv zeta. repeat split; vm_compute; reflexivity.
  - intros t. reflexivity.
  - intros t. reflexivity.
Qed.

End Scrape.

(** ** The Acer fallback label *)

Section AcerFallback.

Lemma value_acer (s : string) (net : network) :
  Re.matches ACER_SERIAL_REGEX s = true ->
  value (get_acer_model_name s) net
  = match net {| url := "https://www.acer.com/us-en/support/product-support/serial-number-lookup?sn=" ++ s;
                 user_agent := USER_AGENT; timeout := 10 |} with
    | Response soup =>
        Returned
          match Re.orelse (find_class "h1" "product-name" soup)
                          (find_class "h2" "product-name" soup) with
          | Some e =>
              if Str.nonempty (Str.strip (text e))
              then (Some (Str.strip (text e)), "Model found via web scraping.")
              else no_element_result Acer s
          | None => no_element_result Acer s
          end
    | Raised e =>
        Returned
          (if Str.length s =? 22 then
             (Some (acer_serial_label s), ACER_INFERRED_AFTER_FAILURE)
           else if (11 <=? Str.length s) && Str.isdigit s then
             (Some ("Acer Product (SNID: " ++ s ++ ")"),
              "Model inferred from SNID (Web scraping failed). Please verify.")
           else (None, "Request failed: " ++ exn_str e))
    | Uncaught x => Propagated x
    end.
Proof.
  intros Hv. unfold get_acer_model_name. rewrite value_scrape, Hv. cbn [negb]. cbv iota.
  destruct (net _) as [soup|e|x]; rewrite ?value_ret, ?value_raise; try reflexivity.
  cbn [no_element_result].
  destruct (Re.orelse _ _) as [e|]; [|reflexivity].
  destruct (Str.nonempty _); reflexivity.
Qed.

Lemma acer_label_result (s msg : string) :
  outcome_of_result (Some (acer_serial_label s), msg)
  = {| model_name := Some (acer_serial_label s); diagnostic := msg; matched := true |}.
Proof. reflexivity. Qed.

(** C1 (amended): for an Acer identifier of exactly 22 characters the
    serial-slice label comes back as a match both when the request fails
    and when the page is fetched but no model name is read from it; only
    the diagnostic tells the two apart.  An empty parse is a no-match
    only when the identifier is not 22 characters long. *)
Theorem acer_fallback_label (raw : string) :
  let s := Str.upper raw in
  validate Acer s = true ->
  (Str.length s = 22 ->
     (forall e,
        outcome Acer raw (fun _ => Raised e)
        = Returned {| model_name := Some (acer_serial_label s);
                      diagnostic := ACER_INFERRED_AFTER_FAILURE; matched := true |})
     /\ (forall soup, acer_parse_empty soup = true ->
           outcome Acer raw (fun _ => Response soup)
           = Returned {| model_name := Some (acer_serial_label s);
                         diagnostic := ACER_INFERRED; matched := true |}))
  /\ (Str.length s <> 22 ->
      forall soup, acer_parse_empty soup = true ->
        outcome Acer raw (fun _ => Response soup)
        = Returned {| model_name := None;
                      diagnostic := "Model name element not found on Acer support page.";
                      matched := false |}).
Proof.
  intros s Hv.
  assert (Hm : Re.matches ACER_SERIAL_REGEX s = true) by exact Hv.
  assert (Hparse : forall soup, acer_parse_empty soup = true ->
            value (get_acer_model_name s) (fun _ => Response soup)
            = Returned (no_element_result Acer s)).
  { intros soup He. rewrite (value_acer s _ Hm). unfold acer_parse_empty in He.
    destruct (Re.orelse _ _) as [e|]; [|reflexivity].
    apply negb_true_iff in He. now rewrite He. }
  split.
  - intros Hlen. apply Nat.eqb_eq in Hlen. split.
    + intros e. rewrite (outcome_valid _ _ _ Hv). fold s. cbn [resolver].
      rewrite (value_acer s _ Hm), Hlen. cbn [completion_map]. now rewrite acer_label_result.
    + intros soup He. rewrite (outcome_valid _ _ _ Hv). fold s. cbn [resolver].
      rewrite (Hparse soup He). cbn [no_element_result completion_map]. rewrite Hlen.
      now rewrite acer_label_result.
  - intros Hlen. apply Nat.eqb_neq in Hlen.
    intros soup He. rewrite (outcome_valid _ _ _ Hv). fold s. cbn [resolver].
    rewrite (Hparse soup He). cbn [no_element_result]. rewrite Hlen. reflexivity.
Qed.

Lemma acer_fallback_label_witness :
  (validate Acer (Str.upper "nxabcdefgh1234567890ab") = true
   /\ Str.length (Str.upper "nxabcdefgh1234567890ab") = 22
   /\ acer_parse_empty [] = true)
  /\ outcome Acer "nxabcdefgh1234567890ab" (fun _ => Response [])
     = Returned {| model_name := Some (acer_serial_label (Str.upper "nxabcdefgh1234567890ab"));
                   diagnostic := ACER_INFERRED; matched := true |}.
Proof.
  split; [repeat split; reflexivity |].
  destruct (acer_fallback_label "nxabcdefgh1234567890ab" eq_refl) as (H & _).
  destruct (H eq_refl) as (_ & H').
  apply H'. reflexivity.
Defined.

(** C1 as stated fails: a 22-character identifier, a page fetched without
    error, no element for either selector, and still a match with the
    serial-slice label. *)
Lemma acer_empty_parse_is_a_match :
  validate Acer "NXABCDEFGH1234567890AB" = true
  /\ Str.length "NXABCDEFGH1234567890AB" = 22
  /\ acer_parse_empty [mkElement "title" [] None "Acer Support"] = true
  /\ outcome Acer "NXABCDEFGH1234567890AB"
       (fun _ => Response [mkElement "title" [] None "Acer Support"])
     = Returned {| model_name := Some "Acer Product (Serial: NXABC...)";
                   diagnostic := ACER_INFERRED; matched := true |}.
Proof. repeat split; vm_compute; reflexivity. Qed.

End AcerFallback.

(** ** Failures *)

Section Failures.


Lemma value_raised (v : vendor) (s : string) (e : request_exception) :
  validate v s = true -> In v [Dell; HP; ViewSonic; Lenovo] ->
  exists msg, value (resolver v s) (fun _ => Raised e) = Returned (None, msg).
Proof.
  unfold validate. intros Hv Hin.
  destruct Hin as [<-|[<-|[<-|[<-|[]]]]]; cbn [vendor_regex] in Hv; cbn [resolver];
    unfold get_dell_model_name, get_hp_model_name, get_viewsonic_model_name,
      get_lenovo_model_name;
    rewrite value_scrape, Hv; cbn [negb]; cbv iota; rewrite value_ret;
    try (rewrite (surjective_pairing (except_clauses _ e)), except_clauses_none);
    eauto.
Qed.






End Failures.

(** * Further properties of the code *)

(** ** What the format regexes accept, trimmed or not *)

Section Acceptance.

Lemma chop_line_feed_app (b : string) : chop_line_feed (b ++ LF) = Some b.
Proof.
  induction b as [|c b IH]; [reflexivity |].
  rewrite app_cons. cbn [chop_line_feed]. rewrite IH.
  destruct b; reflexivity.
Qed.

Lemma chop_line_feed_Some (s b : string) : chop_line_feed s = Some b -> s = b ++ LF.
Proof.
  revert b. induction s as [|c s IH]; intros b; [discriminate |].
  cbn [chop_line_feed]. destruct s as [|d s].
  - destruct (N.eqb_spec c 10) as [->|Hc]; [|discriminate].
    intros [= <-]. reflexivity.
  - destruct (chop_line_feed (String d s)) as [b'|]; [|discriminate].
    intros [= <-]. rewrite app_cons. f_equal. now apply IH.
Qed.

Lemma at_eol_cases (r : string) : Re.at_eol r = true <-> r = "" \/ r = LF.
Proof.
  split.
  - destruct r as [|c [|d r]]; try discriminate; [now left |].
    intros H. right. apply (chop_line_feed_Some (String c "") "").
    cbn [chop_line_feed]. cbn in H. now rewrite H.
  - intros [-> | ->]; reflexivity.
Qed.

Lemma with_final_line_feed_true (rule : string -> bool) (s : string) :
  with_final_line_feed rule s = true <->
  exists b r, s = b ++ r /\ rule b = true /\ Re.at_eol r = true.
Proof.
  unfold with_final_line_feed. rewrite orb_true_iff. split.
  - intros [H | H].
    + exists s, "". rewrite app_empty_r. auto.
    + destruct (chop_line_feed s) as [b|] eqn:E; [|discriminate].
      exists b, LF. apply chop_line_feed_Some in E. auto.
  - intros (b & r & -> & Hb & Hr). apply at_eol_cases in Hr as [-> | ->].
    + left. now rewrite app_empty_r.
    + right. now rewrite chop_line_feed_app.
Qed.

(** [^p{lo,hi}$] on any string. *)
Lemma matches_anchored_rep_any (g : bool) (p : char -> bool) (lo hi : nat) (s : string) :
  Re.matches (Re.anchored (Re.Rep g p lo (Some hi))) s
  = with_final_line_feed (Doc.of_length lo hi p) s.
Proof.
  apply eq_true_iff_eq.
  rewrite matches_true, with_final_line_feed_true.
  unfold Re.anchored, Re.match_at. simpl Re.exec.
  rewrite rep_exec_is_Some. split.
  - intros (pre & rest & Hs & Hlo & Hhi & Hall & Hk).
    destruct (Re.at_eol rest) eqn:Heol; [|destruct Hk; discriminate].
    exists pre, rest. rewrite of_length_true.
    specialize (Hhi hi eq_refl). auto.
  - intros (b & r & Hs & Hb & Hr). apply of_length_true in Hb as (Hlo & Hhi & Hall).
    exists b, r. repeat split; try assumption.
    + now intros h [= <-].
    + rewrite Hr. eauto.
Qed.

Lemma matches_cisco_any (s : string) :
  Re.matches CISCO_SERIAL_REGEX s = with_final_line_feed (regex_rule Cisco) s.
Proof.
  apply eq_true_iff_eq.
  rewrite matches_true, with_final_line_feed_true.
  unfold CISCO_SERIAL_REGEX, Re.anchored, Re.exactly, Re.match_at. simpl Re.exec.
  rewrite rep_exec_is_Some. split.
  - intros (pre & rest & Hs & Hlo & Hhi & Hall & Hk).
    apply rep_exec_is_Some in Hk as (pre2 & rest2 & Hs2 & Hlo2 & Hhi2 & Hall2 & Hk).
    destruct (Re.at_eol rest2) eqn:Heol; [|destruct Hk; discriminate].
    subst rest s. specialize (Hhi 3 eq_refl). specialize (Hhi2 8 eq_refl).
    exists (pre ++ pre2), rest2. rewrite app_assoc_str.
    split; [reflexivity | split; [|exact Heol]].
    unfold regex_rule. rewrite !andb_true_iff, Nat.eqb_eq.
    assert (Hpre : Str.length pre = 3) by lia.
    rewrite length_app. rewrite <- Hpre at 2 3.
    rewrite slice_to_app, slice_from_app. repeat split; try assumption. lia.
  - intros (b & r & -> & Hb & Hr). unfold regex_rule in Hb.
    rewrite !andb_true_iff, Nat.eqb_eq in Hb. destruct Hb as [[Hlen Hup] Hdig].
    exists (Str.slice_to 3 b), (Str.slice_from 3 b ++ r).
    assert (H3 : Str.length (Str.slice_to 3 b) = 3) by (apply slice_to_length; lia).
    assert (H8 : Str.length (Str.slice_from 3 b) = 8).
    { pose proof (slice_split 3 b) as E. apply (f_equal Str.length) in E.
      rewrite length_app in E. lia. }
    repeat split; try assumption; try lia.
    + rewrite <- app_assoc_str. now rewrite <- slice_split.
    + intros h [= <-]. lia.
    + apply rep_exec_is_Some. exists (Str.slice_from 3 b), r.
      repeat split; try assumption; try lia.
      * intros h [= <-]. lia.
      * rewrite Hr. eauto.
Qed.

Lemma with_final_line_feed_or (r1 r2 : string -> bool) (s : string) :
  with_final_line_feed (fun x => r1 x || r2 x) s
  = with_final_line_feed r1 s || with_final_line_feed r2 s.
Proof.
  unfold with_final_line_feed. destruct (chop_line_feed s) as [b|].
  - destruct (r1 s), (r2 s), (r1 b), (r2 b); reflexivity.
  - destruct (r1 s), (r2 s); reflexivity.
Qed.

Lemma validate_any (v : vendor) (s : string) :
  validate v s = with_final_line_feed (regex_rule v) s.
Proof.
  destruct v; try (unfold validate, vendor_regex; now apply matches_cisco_any);
    unfold validate, vendor_regex,
      SERVICE_TAG_REGEX, HP_SERIAL_REGEX, VIEWSONIC_SERIAL_REGEX, JUNIPER_SERIAL_REGEX,
      CYBERPOWER_SERIAL_REGEX, BROTHER_SERIAL_REGEX, APPLE_SERIAL_REGEX, ACER_SERIAL_REGEX,
      LENOVO_SERIAL_REGEX, APC_SERIAL_REGEX, MICROSOFT_SERIAL_REGEX, SAMSUNG_SERIAL_REGEX,
      VIZIO_SERIAL_REGEX, TCL_SERIAL_REGEX, Re.exactly, Re.between;
    unfold regex_rule, Doc.format_rule;
    rewrite ?matches_alt, ?matches_anchored_rep_any, ?with_final_line_feed_or, ?orb_assoc;
    reflexivity.
Qed.

Lemma all_impl (p q : char -> bool) (s : string) :
  (forall c, p c = true -> q c = true) -> Str.all p s = true -> Str.all q s = true.
Proof.
  intros Hpq. induction s as [|c s IH]; [reflexivity |].
  cbn [Str.all]. rewrite !andb_true_iff. intros [Hc Hs]. auto.
Qed.

Lemma of_length_alnum (lo hi : nat) (p : char -> bool) (b : string) :
  (forall c, p c = true -> Str.is_alnum c = true) ->
  7 <= lo -> hi <= 22 ->
  Doc.of_length lo hi p b = true ->
  Str.all Str.is_alnum b = true /\ 7 <= Str.length b <= 22.
Proof.
  intros Hp Hlo Hhi H. apply of_length_true in H as (H1 & H2 & H3).
  split; [now apply (all_impl p) | lia].
Qed.

Lemma format_rule_alnum (v : vendor) (b : string) :
  Doc.format_rule v b = true ->
  Str.all Str.is_alnum b = true /\ 7 <= Str.length b <= 22.
Proof.
  destruct v; unfold Doc.format_rule; rewrite ?orb_true_iff; intros H;
    repeat match goal with H : _ \/ _ |- _ => destruct H as [H|H] end;
    try (eapply of_length_alnum; [| | | exact H]; try lia;
         auto using digit_is_alnum, upper_alnum_is_alnum).
  rewrite !andb_true_iff, Nat.eqb_eq in H. destruct H as [[Hlen Hup] Hdig].
  split; [|lia]. rewrite (slice_split 3 b), all_app.
  rewrite (all_impl _ _ _ upper_is_alnum Hup), (all_impl _ _ _ digit_is_alnum Hdig).
  reflexivity.
Qed.

Lemma alnum_is_identifier_char (c : char) :
  Str.is_alnum c = true -> identifier_char c = true.
Proof. unfold identifier_char. now intros ->. Qed.

Lemma decimal_is_identifier_char (c : char) :
  Str.is_decimal c = true -> identifier_char c = true.
Proof. unfold identifier_char. intros ->. apply orb_true_r. Qed.

Lemma regex_rule_chars (v : vendor) (b : string) :
  regex_rule v b = true ->
  Str.all identifier_char b = true
  /\ 7 <= Str.length b <= 22
  /\ (v <> Cisco -> v <> Acer -> Str.all Str.is_alnum b = true).
Proof.
  intros H.
  assert (Hdoc : Doc.format_rule v b = true ->
            Str.all identifier_char b = true
            /\ 7 <= Str.length b <= 22
            /\ (v <> Cisco -> v <> Acer -> Str.all Str.is_alnum b = true)).
  { intros Hd. apply format_rule_alnum in Hd as [Ha Hlen].
    split; [now apply (all_impl Str.is_alnum), Ha; apply alnum_is_identifier_char | auto]. }
  destruct v; try (now apply Hdoc); unfold regex_rule in H.
  - rewrite !andb_true_iff, Nat.eqb_eq in H. destruct H as [[Hlen Hup] Hdig].
    split; [|split; [lia | contradiction]].
    rewrite (slice_split 3 b), all_app.
    rewrite (all_impl _ identifier_char _
               (fun c H => alnum_is_identifier_char c (upper_is_alnum c H)) Hup).
    now rewrite (all_impl _ identifier_char _ decimal_is_identifier_char Hdig).
  - apply orb_true_iff in H as [H|H].
    + apply of_length_true in H as (H1 & H2 & H3).
      split; [|split; [lia | contradiction]].
      now apply (all_impl Str.is_alnum), H3; apply alnum_is_identifier_char.
    + apply of_length_true in H as (H1 & H2 & H3).
      split; [|split; [lia | contradiction]].
      now apply (all_impl Str.is_decimal), H3; apply decimal_is_identifier_char.
Qed.

(** X2: an identifier that passes any vendor's format test consists of 7 to
    22 characters, each an ASCII letter, an ASCII digit or (Cisco and the
    SNID of Acer only) a decimal digit of another script, followed by
    nothing or by one line feed; no other character ever reaches a resolver
    or a request URL. *)
Theorem valid_identifier_characters (v : vendor) (s : string) :
  validate v s = true ->
  exists b, (s = b \/ s = b ++ LF)
            /\ Str.all identifier_char b = true
            /\ 7 <= Str.length b <= 22
            /\ (v <> Cisco -> v <> Acer -> Str.all Str.is_alnum b = true).
Proof.
  rewrite validate_any.
  unfold with_final_line_feed. rewrite orb_true_iff. intros [H | H].
  - exists s. split; [now left | now apply (regex_rule_chars v)].
  - destruct (chop_line_feed s) as [b|] eqn:E; [|discriminate].
    exists b. split; [right; now apply chop_line_feed_Some |].
    now apply (regex_rule_chars v).
Qed.

Lemma valid_identifier_characters_witness :
  validate Dell "A1B2C3D" = true
  /\ exists b, ("A1B2C3D" = b \/ "A1B2C3D" = b ++ LF)
               /\ Str.all identifier_char b = true
               /\ 7 <= Str.length b <= 22
               /\ (Dell <> Cisco -> Dell <> Acer -> Str.all Str.is_alnum b = true).
Proof.
  split; [reflexivity |].
  apply (valid_identifier_characters Dell). reflexivity.
Defined.

(** X1: with no assumption on the identifier, each vendor's regex accepts
    the strings of its rule - the documented rule, with the digits of Cisco
    and of Acer's SNID being decimal digits of any script - and, besides
    them, exactly those strings followed by one line feed. *)
Theorem validate_accepts_rule_or_rule_with_line_feed (v : vendor) (s : string) :
  validate v s = true <->
  exists b, regex_rule v b = true /\ (s = b \/ s = b ++ LF).
Proof.
  rewrite validate_any. unfold with_final_line_feed. rewrite orb_true_iff. split.
  - intros [H | H].
    + exists s. auto.
    + destruct (chop_line_feed s) as [b|] eqn:E; [|discriminate].
      exists b. split; [exact H | right; now apply chop_line_feed_Some].
  - intros (b & Hb & [-> | ->]).
    + now left.
    + right. now rewrite chop_line_feed_app.
Qed.

End Acceptance.

(** ** Responses, status codes and requests *)

Section Responses.

Lemma upper_app (a b : string) : Str.upper (a ++ b) = Str.upper a ++ Str.upper b.
Proof.
  induction a as [|c a IH]; [reflexivity |].
  rewrite app_cons. cbn [Str.upper]. now rewrite IH, app_assoc_str.
Qed.

Lemma upper_idem (s : string) : Str.upper (Str.upper s) = Str.upper s.
Proof.
  induction s as [|c s IH]; [reflexivity |].
  cbn [Str.upper]. now rewrite upper_app, upper_char_idem, IH.
Qed.

(** X3: a lookup is indifferent to the case of the tag: the raw tag and its
    upper-cased form give the same response and the same requests. *)
Theorem lookup_ignores_case (v : vendor) (raw : string) :
  resolve v raw = resolve v (Str.upper raw).
Proof.
  rewrite !resolve_eq. unfold lookup. now rewrite upper_idem.
Qed.

Lemma status_of_respond (k ident : string) (r : result) :
  snd (respond k ident r) = if matched (outcome_of (respond k ident r)) then 200 else 404.
Proof.
  destruct r as [[n|] msg]; unfold respond; [|reflexivity].
  destruct (Str.nonempty n); reflexivity.
Qed.

(** The response of a handler that returns. *)
Lemma returned_response (v : vendor) (raw : string) (net : network) (resp : http_response) :
  value (resolve v raw) net = Returned resp ->
  snd resp
  = if Str.nonempty (Str.upper raw) && validate v (Str.upper raw)
    then if matched (outcome_of resp) then 200 else 404
    else 400.
Proof.
  rewrite resolve_eq, value_lookup. fold (validate v (Str.upper raw)).
  destruct (Str.nonempty (Str.upper raw)); [|intros [= <-]; reflexivity].
  destruct (validate v (Str.upper raw)); [|intros [= <-]; reflexivity].
  cbn [negb andb].
  destruct (value (resolver v (Str.upper raw)) net) as [r|x]; [|discriminate].
  cbn [completion_map]. intros [= <-]. apply status_of_respond.
Qed.

Lemma unmatched_response (v : vendor) (raw msg : string) (net : network) :
  validate v (Str.upper raw) = true ->
  value (resolver v (Str.upper raw)) net = Returned (None, msg) ->
  value (resolve v raw) net
  = Returned ([("success", JBool false); (id_key v, JStr (Str.upper raw));
               ("error", JStr msg)], 404).
Proof.
  intros Hv Hr. rewrite resolve_eq, value_lookup, (validate_nonempty _ _ Hv).
  unfold validate in Hv. rewrite Hv, Hr. reflexivity.
Qed.

(** X4: a lookup handler (the function under the gate, where there is one)
    either returns or lets an exception propagate that is no
    [RequestException].  When it returns, the status is 400 exactly for a
    missing or malformed tag, 200 exactly for a match and 404 otherwise.  A
    failed request is answered with a 404 by Dell, HP, ViewSonic and
    Lenovo; by Acer with a 200 and the fallback label for a tag of 22
    characters or of digits only, and with a 404 otherwise.  The handler
    itself never returns a 5xx status. *)
Theorem status_code_of_lookup (v : vendor) (raw : string) (net : network) :
  let s := Str.upper raw in
  (forall body status,
     value (resolve v raw) net = Returned (body, status) ->
     (status = 200 \/ status = 400 \/ status = 404)
     /\ (status = 400 <-> s = "" \/ validate v s = false)
     /\ (status = 200 <-> matched (outcome_of (body, status)) = true))
  /\ (validate v s = true -> In v [Dell; HP; ViewSonic; Lenovo] ->
      forall e, exists msg,
        value (resolve v raw) (fun _ => Raised e)
        = Returned ([("success", JBool false); (id_key v, JStr s);
                     ("error", JStr msg)], 404))
  /\ (validate Acer s = true ->
      forall e, exists body status,
        value (resolve Acer raw) (fun _ => Raised e) = Returned (body, status)
        /\ (status = 200 <->
            Str.length s = 22 \/ (11 <=? Str.length s) && Str.isdigit s = true)
        /\ (status = 404 <->
            Str.length s <> 22 /\ (11 <=? Str.length s) && Str.isdigit s = false))
  /\ ((exists resp, value (resolve v raw) net = Returned resp)
      \/ (exists x u,
            value (resolve v raw) net = Propagated x
            /\ lookup_url v s = Some u
            /\ net {| url := u; user_agent := USER_AGENT; timeout := 10 |} = Uncaught x)).
Proof.
  cbv zeta. split; [|split; [|split]].
  - intros body status Hr. pose proof (returned_response v raw net _ Hr) as Hs.
    cbn [snd] in Hs.
    assert (Hm : Str.nonempty (Str.upper raw) && validate v (Str.upper raw) = false ->
              matched (outcome_of (body, status)) = false).
    { intros Hb.
      assert (Ho : exists msg,
                 outcome v raw net
                 = Returned {| model_name := None; diagnostic := msg; matched := false |}).
      { destruct (Str.nonempty (Str.upper raw)) eqn:Hn.
        - destruct (validate v (Str.upper raw)) eqn:Hv; [discriminate |].
          eexists. apply (outcome_invalid v raw net Hn Hv).
        - eexists. apply (outcome_missing v raw net Hn). }
      destruct Ho as [msg Ho]. unfold outcome in Ho. rewrite Hr in Ho.
      cbn [completion_map] in Ho.
      exact (f_equal (fun c => match c with
                               | Returned o => matched o
                               | Propagated _ => false
                               end) Ho). }
    destruct (matched (outcome_of (body, status))) eqn:Em;
      destruct (Str.nonempty (Str.upper raw)) eqn:Hn;
      destruct (validate v (Str.upper raw)) eqn:Hv;
      cbn [andb] in Hs, Hm; try (specialize (Hm eq_refl); discriminate);
      subst status;
      try apply nonempty_true in Hn; try apply nonempty_false in Hn;
      (split; [auto | split; split; auto; try discriminate; try tauto]);
      intros [H|H]; congruence.
  - intros Hv Hin e. destruct (value_raised v _ e Hv Hin) as [msg Hr].
    exists msg. now apply unmatched_response.
  - intros Hv e. rewrite resolve_eq, value_lookup, (validate_nonempty _ _ Hv).
    assert (Hm : Re.matches ACER_SERIAL_REGEX (Str.upper raw) = true) by exact Hv.
    cbn [vendor_regex resolver]. rewrite Hm, (value_acer _ _ Hm).
    cbn [negb completion_map].
    destruct (Nat.eqb_spec (Str.length (Str.upper raw)) 22) as [Hlen|Hlen].
    + do 2 eexists. split; [reflexivity |]. cbn [Str.nonempty acer_serial_label].
      split; split; auto; try discriminate. intros [H _]. contradiction.
    + destruct ((11 <=? Str.length (Str.upper raw)) && Str.isdigit (Str.upper raw)) eqn:Hd.
      * do 2 eexists. split; [reflexivity |].
        split; split; auto; try discriminate. intros [_ H]. discriminate.
      * do 2 eexists. split; [reflexivity |].
        split; split; auto; try discriminate. intros [H|H]; [contradiction | discriminate].
  - destruct (value (resolve v raw) net) as [resp|x] eqn:E; [left; eauto |].
    right. apply resolve_propagates in E as (_ & u & Hu & Hx). exists x, u. auto.
Qed.

Lemma status_code_of_lookup_witness :
  (validate HP (Str.upper "5cd1234abc") = true /\ In HP [Dell; HP; ViewSonic; Lenovo])
  /\ exists msg,
       value (resolve HP "5cd1234abc")
         (fun _ => Raised (mkExn HTTPError 503 "503 Server Error"))
       = Returned ([("success", JBool false); (id_key HP, JStr (Str.upper "5cd1234abc"));
                    ("error", JStr msg)], 404).
Proof.
  split; [split; [reflexivity | right; left; reflexivity] |].
  destruct (status_code_of_lookup HP "5cd1234abc" (fun _ => Response [])) as (_ & H & _).
  apply H; [reflexivity | right; left; reflexivity].
Defined.

Lemma calls_pure (k m i : string) (rx : Re.regex) (f : string -> result)
    (raw : string) (net : network) :
  calls (lookup k m i rx (pure_resolver f) raw) net = [].
Proof.
  rewrite calls_lookup.
  destruct (negb (Str.nonempty (Str.upper raw))); [reflexivity |].
  destruct (negb (Re.matches rx (Str.upper raw))); reflexivity.
Qed.

(** X5: a lookup sends at most one request, and sends one only for a
    well-formed Dell, HP, Lenovo, Acer or ViewSonic tag: a single GET of the
    vendor's URL for the upper-cased tag, with the fixed user agent and a
    time-out of 10; nothing is retried. *)
Theorem one_request_per_lookup (v : vendor) (raw : string) (net : network) :
  calls (resolve v raw) net
  = match lookup_url v (Str.upper raw) with
    | Some u =>
        if validate v (Str.upper raw)
        then [{| url := u; user_agent := USER_AGENT; timeout := 10 |}]
        else []
    | None => []
    end.
Proof.
  rewrite resolve_eq, calls_lookup. fold (validate v (Str.upper raw)).
  destruct (Str.nonempty (Str.upper raw)) eqn:Hn; cbn [negb].
  - destruct (validate v (Str.upper raw)) eqn:Hv; cbn [negb];
      [|destruct (lookup_url v _); reflexivity].
    unfold validate in Hv.
    destruct v; cbn [vendor_regex] in Hv; cbn [resolver lookup_url];
      try reflexivity;
      unfold get_dell_model_name, get_hp_model_name, get_lenovo_model_name,
        get_acer_model_name, get_viewsonic_model_name;
      (rewrite calls_scrape; [now rewrite Hv | intros [soup|e|x]; reflexivity]).
  - apply nonempty_false in Hn. rewrite Hn, validate_empty.
    destruct (lookup_url v ""); reflexivity.
Qed.

(** X6: the ten inference vendors never touch the network: the request log
    of a lookup is empty and the response is the same for every network. *)
Theorem inference_vendors_are_offline (v : vendor) (raw : string) (net net' : network) :
  scrape_stages v = None ->
  calls (resolve v raw) net = []
  /\ value (resolve v raw) net = value (resolve v raw) net'.
Proof.
  intros Hv. split.
  - destruct v; try discriminate; apply calls_pure.
  - rewrite resolve_eq, !value_lookup.
    destruct v; try discriminate; reflexivity.
Qed.

Lemma inference_vendors_are_offline_witness :
  scrape_stages Juniper = None
  /\ calls (resolve Juniper "aa1234567890") (fun _ => Response []) = []
  /\ value (resolve Juniper "aa1234567890") (fun _ => Response [])
     = value (resolve Juniper "aa1234567890")
         (fun _ => Raised (mkExn ReadTimeout 0 "Read timed out.")).
Proof.
  split; [reflexivity |].
  apply (inference_vendors_are_offline Juniper). reflexivity.
Defined.

End Responses.

(** ** More on the resolvers *)

Section MoreResolvers.

Lemma apc_entries_nonempty (k m : string) :
  apc_prefix_to_model !! k = Some m -> Str.nonempty m = true.
Proof.
  intros H. apply elem_of_list_to_map_2 in H.
  repeat (apply elem_of_cons in H as [H|H]; [injection H as -> ->; reflexivity |]).
  apply elem_of_nil in H. contradiction.
Qed.

Lemma vizio_entries_nonempty (k m : string) :
  vizio_model_map !! k = Some m -> Str.nonempty m = true.
Proof.
  intros H. apply elem_of_list_to_map_2 in H.
  repeat (apply elem_of_cons in H as [H|H]; [injection H as -> ->; reflexivity |]).
  apply elem_of_nil in H. contradiction.
Qed.

(** X7: a well-formed APC or Vizio tag always resolves to a match: the
    table entry of its prefix (two characters for APC, four for Vizio), or
    the vendor's generic label when the prefix is unknown. *)
Theorem apc_and_vizio_always_match (raw : string) (net : network) :
  let s := Str.upper raw in
  (validate APC s = true ->
   let prefix := Str.upper (Str.slice_to 2 s) in
   outcome APC raw net
   = Returned
       match apc_prefix_to_model !! prefix with
       | Some model =>
           {| model_name := Some model; diagnostic := inferred_from_prefix prefix;
              matched := true |}
       | None =>
           {| model_name := Some "APC UPS/Power Device (Inferred)";
              diagnostic := INFERRED_FROM_STRUCTURE; matched := true |}
       end)
  /\ (validate Vizio s = true ->
      let prefix := Str.slice_to 4 s in
      outcome Vizio raw net
      = Returned
          match vizio_model_map !! prefix with
          | Some model =>
              {| model_name := Some model; diagnostic := inferred_from_prefix prefix;
                 matched := true |}
          | None =>
              {| model_name := Some "Vizio Display/TV (Inferred)";
                 diagnostic := INFERRED_FROM_STRUCTURE; matched := true |}
          end).
Proof.
  intros s. split; intros Hv prefix; rewrite (outcome_valid _ _ _ Hv); fold s;
    unfold validate in Hv; cbn [vendor_regex] in Hv;
    cbn [resolver]; unfold pure_resolver; rewrite value_ret; cbn [completion_map]; f_equal.
  - unfold get_apc_model_name. rewrite Hv. cbn [negb]. cbv iota. fold prefix.
    destruct (apc_prefix_to_model !! prefix) as [m|] eqn:E; [|reflexivity].
    unfold outcome_of_result. cbn [fst snd].
    now rewrite (apc_entries_nonempty _ _ E).
  - unfold get_vizio_model_name. rewrite Hv. cbn [negb]. cbv iota. fold prefix.
    destruct (vizio_model_map !! prefix) as [m|] eqn:E; [|reflexivity].
    rewrite (vizio_entries_nonempty _ _ E).
    unfold outcome_of_result. cbn [fst snd].
    now rewrite (vizio_entries_nonempty _ _ E).
Qed.

Lemma apc_and_vizio_always_match_witness :
  (validate APC (Str.upper "as1234567890") = true
   /\ validate Vizio (Str.upper "zzzz1234567890") = true)
  /\ outcome APC "as1234567890" (fun _ => Response [])
     = Returned {| model_name := Some "APC Smart-UPS (Rack/Tower)";
                   diagnostic := inferred_from_prefix "AS"; matched := true |}
  /\ outcome Vizio "zzzz1234567890" (fun _ => Response [])
     = Returned {| model_name := Some "Vizio Display/TV (Inferred)";
                   diagnostic := INFERRED_FROM_STRUCTURE; matched := true |}.
Proof.
  split; [split; reflexivity |]. split.
  - destruct (apc_and_vizio_always_match "as1234567890" (fun _ => Response []))
      as (H & _).
    etransitivity; [apply H; reflexivity | vm_compute; reflexivity].
  - destruct (apc_and_vizio_always_match "zzzz1234567890" (fun _ => Response []))
      as (_ & H).
    etransitivity; [apply H; reflexivity | vm_compute; reflexivity].
Defined.

(** The message of a failed request, by kind. *)
Lemma except_clauses_by_kind (nf : string) (e : request_exception) :
  except_clauses nf e
  = (None,
     match kind_of e with
     | NotFound404 => nf
     | OtherHttpError => "HTTP Error: " ++ exn_str e
     | ConnectionFailure => "Error Connecting: " ++ exn_str e
     | TimedOut => "Timeout Error: " ++ exn_str e
     | Unexpected => "An unexpected error occurred: " ++ exn_str e
     end).
Proof.
  unfold except_clauses, kind_of, is_HTTPError, is_ConnectionError, is_Timeout.
  destruct (exn_cls e); try reflexivity.
  destruct (status_code e =? 404); reflexivity.
Qed.

Lemma outcome_except (nf : string) (e : request_exception) :
  outcome_of_result (except_clauses nf e)
  = {| model_name := None; diagnostic := snd (except_clauses nf e); matched := false |}.
Proof. unfold outcome_of_result. now rewrite except_clauses_none. Qed.

Lemma failed_request_diagnostic (v : vendor) (raw : string) (e : request_exception) :
  In v [Dell; HP; ViewSonic] ->
  validate v (Str.upper raw) = true ->
  exists nf, head_char nf = Some 83%N
    /\ outcome v raw (fun _ => Raised e)
       = Returned {| model_name := None; diagnostic := snd (except_clauses nf e);
                     matched := false |}.
Proof.
  intros Hin Hv. rewrite (outcome_valid _ _ _ Hv). unfold validate in Hv.
  destruct Hin as [<-|[<-|[<-|[]]]]; cbn [vendor_regex] in Hv; cbn [resolver];
    unfold get_dell_model_name, get_hp_model_name, get_viewsonic_model_name;
    rewrite value_scrape, Hv; cbn [negb]; cbv iota; rewrite value_ret;
    cbn [completion_map];
    eexists; (split; [|rewrite outcome_except; reflexivity]); reflexivity.
Qed.

(** X8: for Dell, HP and ViewSonic a failed request gives no match and a
    diagnostic that tells the kind of failure: 404, other HTTP error,
    connection failure, time-out and anything else get five messages that
    differ from one another; a connect time-out counts as a connection
    failure, because that [except] clause comes first. *)
Theorem failed_request_kinds_are_told_apart (v : vendor) (raw : string)
    (e1 e2 : request_exception) :
  In v [Dell; HP; ViewSonic] ->
  validate v (Str.upper raw) = true ->
  exists o1 o2,
    outcome v raw (fun _ => Raised e1) = Returned o1
    /\ outcome v raw (fun _ => Raised e2) = Returned o2
    /\ matched o1 = false
    /\ (kind_of e1 <> kind_of e2 -> diagnostic o1 <> diagnostic o2)
    /\ (exn_cls e1 = ConnectTimeout ->
        diagnostic o1 = "Error Connecting: " ++ exn_str e1).
Proof.
  intros Hin Hv.
  destruct (failed_request_diagnostic v raw e1 Hin Hv) as (nf1 & Hnf1 & H1).
  destruct (failed_request_diagnostic v raw e2 Hin Hv) as (nf2 & Hnf2 & H2).
  do 2 eexists. split; [exact H1 | split; [exact H2 |]].
  cbn [matched diagnostic]. split; [reflexivity | split].
  - rewrite !except_clauses_by_kind. cbn [snd]. intros Hk E.
    apply (f_equal head_char) in E.
    destruct (kind_of e1), (kind_of e2); try contradiction;
      rewrite ?Hnf1, ?Hnf2 in E; discriminate.
  - intros Hc. rewrite except_clauses_by_kind. cbn [snd]. unfold kind_of.
    now rewrite Hc.
Qed.

Lemma failed_request_kinds_are_told_apart_witness :
  (In HP [Dell; HP; ViewSonic] /\ validate HP (Str.upper "5cd1234abc") = true)
  /\ exists o1 o2,
       outcome HP "5cd1234abc"
         (fun _ => Raised (mkExn ConnectTimeout 0 "connect timed out")) = Returned o1
       /\ outcome HP "5cd1234abc"
            (fun _ => Raised (mkExn ReadTimeout 0 "read timed out")) = Returned o2
       /\ matched o1 = false
       /\ (kind_of (mkExn ConnectTimeout 0 "connect timed out")
           <> kind_of (mkExn ReadTimeout 0 "read timed out") ->
           diagnostic o1 <> diagnostic o2)
       /\ (exn_cls (mkExn ConnectTimeout 0 "connect timed out") = ConnectTimeout ->
           diagnostic o1
           = "Error Connecting: " ++ exn_str (mkExn ConnectTimeout 0 "connect timed out")).
Proof.
  split; [split; [right; left; reflexivity | reflexivity] |].
  apply (failed_request_kinds_are_told_apart HP "5cd1234abc"
           (mkExn ConnectTimeout 0 "connect timed out")
           (mkExn ReadTimeout 0 "read timed out"));
    [right; left; reflexivity | reflexivity].
Defined.

(** X9: an element that is on the page with blank text ends the
    extraction.  Dell, HP and ViewSonic then answer with an empty name,
    which the handler turns into a 404 whose error text is the success
    message; Lenovo and Acer answer as if no element were there.  In
    neither case is a later selector or the title consulted. *)
Theorem blank_element_ends_extraction (v : vendor) (st : stages) (s : string)
    (soup : page) (e : element) :
  scrape_stages v = Some st ->
  validate v s = true ->
  Re.orelse (primary st soup) (secondary st soup) = Some e ->
  clean st (text e) = "" ->
  value (resolver v s) (fun _ => Response soup)
  = Returned
      match title_stage st with
      | Some _ => (Some "", "Model name scraped successfully.")
      | None => no_element_result v s
      end.
Proof.
  intros Hst Hv He Hblank. rewrite (value_element v st s soup e Hst Hv He), Hblank.
  destruct v; try discriminate; injection Hst as <-; reflexivity.
Qed.

Lemma blank_element_ends_extraction_witness :
  (validate HP "5CD1234ABC" = true
   /\ Str.strip (Re.sub_anchored_empty HP_PREFIX_RE (Str.strip "  ")) = "")
  /\ value (resolver HP "5CD1234ABC")
       (fun _ => Response [mkElement "h1" ["product-title"] None "  ";
                           mkElement "title" [] None "EliteBook | HP Product Information"])
     = Returned (Some "", "Model name scraped successfully.").
Proof.
  split; [split; reflexivity |].
  apply (blank_element_ends_extraction HP _ "5CD1234ABC" _
           (mkElement "h1" ["product-title"] None "  ") eq_refl); reflexivity.
Defined.

End MoreResolvers.

(** ** What the title and prefix regexes extract *)

Section Extraction.

Lemma strip_prefix_app (eqc : char -> char -> bool) (p r : string) :
  (forall c, eqc c c = true) -> Str.strip_prefix eqc p (p ++ r) = Some r.
Proof.
  intros Hrefl. induction p as [|c p IH]; [now destruct r |].
  rewrite app_cons. cbn [Str.strip_prefix]. now rewrite Hrefl.
Qed.

Lemma search_from_unfold (r : Re.regex) (bos : bool) (s : string) :
  Re.search_from r bos s
  = Re.orelse (Re.match_at r bos s)
      (match s with
       | EmptyString => None
       | String _ s' => Re.search_from r false s'
       end).
Proof. destruct s; reflexivity. Qed.

(** A lazy run of [.] stops at the first place where the continuation
    succeeds; here that is the end of [m]. *)
Lemma lazy_run_to_end {R} (sfx : string) (cap : option string) (k : @Re.cont R) :
  (forall m2 b, m2 <> "" -> Str.all plain_char m2 = true -> k b (m2 ++ sfx) cap = None) ->
  (forall b, is_Some (k b sfx cap)) ->
  forall m lo b,
    lo <= Str.length m -> lo <= 1 -> Str.all plain_char m = true ->
    Re.rep_exec false Str.is_dot lo None b (m ++ sfx) cap k
    = k (b && negb (Str.nonempty m)) sfx cap.
Proof.
  intros Hfail Hok. induction m as [|c m IH]; intros lo b Hlo Hlo1 Hall.
  - cbn in Hlo. assert (lo = 0) as -> by lia.
    rewrite app_empty_l, andb_true_r.
    destruct (Hok b) as [x Hx].
    destruct sfx; cbn; now rewrite Hx.
  - rewrite app_cons. cbn [Re.rep_exec].
    assert (Hc : Str.is_dot c = true).
    { cbn in Hall. apply andb_true_iff in Hall as [Hc _].
      unfold plain_char in Hc. now apply andb_true_iff in Hc as [Hc _]. }
    rewrite Hc.
    assert (Hstop : (if lo =? 0 then k b (String c (m ++ sfx)) cap else None) = None).
    { destruct (lo =? 0); [|reflexivity].
      rewrite <- app_cons. apply Hfail; [discriminate | exact Hall]. }
    rewrite Hstop. cbn [Re.orelse option_map].
    rewrite IH.
    + now rewrite andb_false_r.
    + cbn in Hlo. lia.
    + lia.
    + cbn in Hall. now apply andb_true_iff in Hall as [_ Hall].
Qed.

Lemma no_bar_no_suffix (m2 : string) :
  m2 <> "" -> Str.all plain_char m2 = true ->
  Str.strip_prefix (Re.eq_char false) " | Dell US" (m2 ++ " | Dell US") = None.
Proof.
  destruct m2 as [|c [|d m2]]; [contradiction | |]; intros _ Hall.
  - rewrite app_cons, app_empty_l. cbn [Str.strip_prefix].
    destruct (Re.eq_char false 32 c); reflexivity.
  - rewrite !app_cons. cbn [Str.strip_prefix].
    cbn in Hall. apply andb_true_iff in Hall as [_ Hall].
    apply andb_true_iff in Hall as [Hd _].
    unfold plain_char in Hd. apply andb_true_iff in Hd as [_ Hd].
    apply negb_true_iff in Hd.
    destruct (Re.eq_char false 32 c); [|reflexivity].
    unfold Re.eq_char. rewrite N.eqb_sym, Hd. reflexivity.
Qed.

Lemma dell_title_search (m : string) :
  m <> "" -> Str.all plain_char m = true ->
  Re.search DELL_TITLE_RE ("Support for " ++ m ++ " | Dell US")
  = Some {| Re.group1 := Some m; Re.rest := "" |}.
Proof.
  intros Hm Hall. unfold Re.search. rewrite search_from_unfold.
  unfold Re.match_at, DELL_TITLE_RE, Re.plus_lazy. cbn [Re.exec].
  rewrite (strip_prefix_app (Re.eq_char false) "Support for " (m ++ " | Dell US"))
    by (intros c; apply N.eqb_refl).
  assert (Hself : Str.strip_prefix (Re.eq_char false) " | Dell US" " | Dell US" = Some "")
    by reflexivity.
  rewrite (lazy_run_to_end " | Dell US").
  - cbn [Str.nonempty negb andb]. rewrite Hself.
    unfold Re.consumed. rewrite length_app.
    replace (Str.length m + Str.length " | Dell US" - Str.length " | Dell US")
      with (Str.length m) by lia.
    rewrite slice_to_app. reflexivity.
  - intros m2 b Hm2 Hall2. now rewrite (no_bar_no_suffix m2 Hm2 Hall2).
  - intros b. rewrite Hself. eauto.
  - destruct m; [contradiction | cbn; lia].
  - lia.
  - exact Hall.
Qed.

(** X10: on a Dell page without the heading and without the model span,
    a title [Support for <m> | Dell US], where [m] is not empty and has no
    line feed and no vertical bar, gives [m] stripped of outer white space
    as the model name, or no match when [m] is blank. *)
Theorem dell_title_gives_model (soup : page) (t : element) (m : string) :
  find_class "h1" "product-name" soup = None ->
  find_id "span" "modelName" soup = None ->
  find_tag "title" soup = Some t ->
  text t = "Support for " ++ m ++ " | Dell US" ->
  m <> "" -> Str.all plain_char m = true ->
  dell_parse soup
  = if Str.nonempty (Str.strip m)
    then (Some (Str.strip m), "Model name scraped from page title (fallback).")
    else (None, NOT_ON_PAGE).
Proof.
  intros H1 H2 Ht Htext Hm Hall.
  unfold dell_parse, title_fallback. rewrite H1, H2, Ht, Htext.
  assert (Hc : Str.contains "Support for" ("Support for " ++ m ++ " | Dell US") = true)
    by reflexivity.
  rewrite Hc, (dell_title_search m Hm Hall). cbn [Re.group1].
  destruct (Str.nonempty (Str.strip m)); reflexivity.
Qed.

Lemma dell_title_gives_model_witness :
  (find_tag "title" [mkElement "title" [] None "Support for ThinkPad X1 | Dell US"]
   = Some (mkElement "title" [] None "Support for ThinkPad X1 | Dell US")
   /\ "ThinkPad X1" <> "" /\ Str.all plain_char "ThinkPad X1" = true)
  /\ dell_parse [mkElement "title" [] None "Support for ThinkPad X1 | Dell US"]
     = (Some "ThinkPad X1", "Model name scraped from page title (fallback).").
Proof.
  split; [split; [reflexivity | split; [discriminate | reflexivity]] |].
  apply (dell_title_gives_model _ (mkElement "title" [] None
                                      "Support for ThinkPad X1 | Dell US") "ThinkPad X1");
    try reflexivity; discriminate.
Defined.

(** A greedy run of a class takes the whole run when what follows does not
    start with a character of the class. *)
Lemma greedy_run_to_end {R} (p : char -> bool) (name : string) (cap : option string)
    (k : @Re.cont R) :
  match name with String c _ => p c = false | EmptyString => True end ->
  is_Some (k false name cap) ->
  forall sp lo b,
    lo <= Str.length sp -> Str.all p sp = true ->
    Re.rep_exec true p lo None b (sp ++ name) cap k
    = k (b && negb (Str.nonempty sp)) name cap.
Proof.
  intros Hhead [x Hx]. induction sp as [|c sp IH]; intros lo b Hlo Hall.
  - cbn in Hlo. assert (lo = 0) as -> by lia.
    rewrite app_empty_l, andb_true_r.
    destruct name as [|d name]; cbn; [reflexivity | now rewrite Hhead].
  - rewrite app_cons. cbn [Re.rep_exec].
    cbn in Hall. apply andb_true_iff in Hall as [Hc Hall]. rewrite Hc.
    cbn [option_map]. rewrite IH; [|cbn in Hlo; lia | exact Hall].
    cbn [andb Str.nonempty negb]. rewrite andb_false_r, Hx. reflexivity.
Qed.

Lemma lstrip_length (s : string) : Str.length (Str.lstrip s) <= Str.length s.
Proof.
  induction s as [|c s IH]; cbn; [lia |].
  destruct (Str.is_space c); cbn; lia.
Qed.

Lemma rstrip_length (s : string) : Str.length (Str.rstrip s) <= Str.length s.
Proof.
  induction s as [|c s IH]; cbn; [lia |].
  destruct (Str.rstrip s); [destruct (Str.is_space c)|]; cbn in *; lia.
Qed.

Lemma trimmed_head (s : string) :
  Doc.trimmed s -> match s with String c _ => Str.is_space c = false | EmptyString => True end.
Proof.
  unfold Doc.trimmed, Str.strip. destruct s as [|c s]; [trivial |].
  destruct (Str.is_space c) eqn:Hc; [|reflexivity].
  cbn [Str.lstrip]. rewrite Hc. intros H.
  apply (f_equal Str.length) in H. cbn in H.
  pose proof (rstrip_length (Str.lstrip s)). pose proof (lstrip_length s). lia.
Qed.

Lemma trimmed_rstrip (s : string) : Doc.trimmed s -> Str.rstrip s = s.
Proof.
  intros H. pose proof (trimmed_head s H) as Hh.
  unfold Doc.trimmed, Str.strip in H.
  destruct s as [|c s]; [reflexivity |].
  cbn [Str.lstrip] in H. now rewrite Hh in H.
Qed.

Lemma rstrip_app_r (a name : string) :
  Str.rstrip name = name -> name <> "" -> Str.rstrip (a ++ name) = a ++ name.
Proof.
  intros Hr Hn. induction a as [|c a IH]; [exact Hr |].
  rewrite app_cons. cbn [Str.rstrip]. rewrite IH.
  destruct (a ++ name) eqn:E; [|reflexivity].
  apply app_eq_empty in E as [_ E]. contradiction.
Qed.

Lemma strip_prefix_app_ci (lit p r : string) :
  Str.strip_prefix (Re.eq_char true) lit p = Some "" ->
  Str.strip_prefix (Re.eq_char true) lit (p ++ r) = Some r.
Proof.
  revert p. induction lit as [|a lit IH]; intros p.
  - cbn. intros [= ->]. reflexivity.
  - destruct p as [|c p]; [discriminate |].
    rewrite app_cons. cbn [Str.strip_prefix].
    destruct (Re.eq_char true a c); [apply IH | discriminate].
Qed.

(** The clean-up [re.sub(r'^<lit>\s+', '', text.strip(), flags=re.IGNORECASE).strip()]
    of a heading that reads: the literal in any case, white space, a name. *)
Lemma prefix_removed (lit p sp name : string) :
  Str.nonempty lit = true ->
  Str.strip_prefix (Re.eq_char true) lit p = Some "" ->
  match p with String c _ => Str.is_space c = false | EmptyString => True end ->
  sp <> "" -> Str.all Str.is_space sp = true ->
  Doc.trimmed name -> name <> "" ->
  Str.strip (Re.sub_anchored_empty
               (Re.Seq Re.Bol (Re.Seq (Re.Lit true lit) (Re.plus Str.is_space)))
               (Str.strip (p ++ sp ++ name)))
  = name.
Proof.
  intros Hlit Hp Hhead Hsp Hall Ht Hn.
  assert (Hstrip : Str.strip (p ++ sp ++ name) = p ++ sp ++ name).
  { unfold Str.strip.
    assert (Hl : Str.lstrip (p ++ sp ++ name) = p ++ sp ++ name).
    { destruct p as [|c p]; [destruct lit; discriminate |].
      rewrite app_cons. cbn [Str.lstrip]. now rewrite Hhead. }
    rewrite Hl, <- app_assoc_str.
    apply rstrip_app_r; [now apply trimmed_rstrip | exact Hn]. }
  rewrite Hstrip.
  unfold Re.sub_anchored_empty, Re.re_match, Re.match_at, Re.plus. cbn [Re.exec].
  rewrite (strip_prefix_app_ci lit p (sp ++ name) Hp), Hlit. cbn [negb andb].
  rewrite (greedy_run_to_end Str.is_space name).
  - cbn [Re.rest]. exact Ht.
  - apply trimmed_head in Ht. exact Ht.
  - eauto.
  - destruct sp; [contradiction | cbn; lia].
  - exact Hall.
Qed.

(** X11: a heading that reads HP (HP resolver) or Support for (Dell
    resolver) in any letter case, then white space, then a trimmed non-empty
    name, gives exactly that name: the vendor prefix is removed. *)
Theorem heading_prefix_is_removed (soup : page) (e : element) (p sp name : string) :
  text e = p ++ sp ++ name ->
  sp <> "" -> Str.all Str.is_space sp = true ->
  Doc.trimmed name -> name <> "" ->
  (find_class "h1" "product-title" soup = Some e ->
   Str.strip_prefix (Re.eq_char true) "HP" p = Some "" ->
   hp_parse soup = (Some name, "Model name scraped successfully."))
  /\ (find_class "h1" "product-name" soup = Some e ->
      Str.strip_prefix (Re.eq_char true) "Support for" p = Some "" ->
      dell_parse soup = (Some name, "Model name scraped successfully.")).
Proof.
  intros Htext Hsp Hall Ht Hn. split; intros Hfind Hp.
  - unfold hp_parse. rewrite Hfind, Htext. unfold HP_PREFIX_RE.
    rewrite (prefix_removed "HP" p sp name); try assumption; try reflexivity.
    destruct p as [|c p]; [discriminate |]. cbn [Str.strip_prefix] in Hp.
    destruct (Re.eq_char true 72 c) eqn:Hc; [|discriminate].
    now apply ci_H_not_space.
  - unfold dell_parse. rewrite Hfind, Htext. unfold DELL_PREFIX_RE.
    rewrite (prefix_removed "Support for" p sp name); try assumption; try reflexivity.
    destruct p as [|c p]; [discriminate |]. cbn [Str.strip_prefix] in Hp.
    destruct (Re.eq_char true 83 c) eqn:Hc; [|discriminate].
    now apply ci_S_not_space.
Qed.

Lemma heading_prefix_is_removed_witness :
  ("  " <> "" /\ Str.all Str.is_space "  " = true
   /\ Doc.trimmed "EliteBook 840 G8" /\ "EliteBook 840 G8" <> ""
   /\ Str.strip_prefix (Re.eq_char true) "HP" "hp" = Some "")
  /\ hp_parse [mkElement "h1" ["product-title"] None "hp  EliteBook 840 G8"]
     = (Some "EliteBook 840 G8", "Model name scraped successfully.").
Proof.
  split; [repeat split; try reflexivity; discriminate |].
  apply (heading_prefix_is_removed _
           (mkElement "h1" ["product-title"] None "hp  EliteBook 840 G8")
           "hp" "  " "EliteBook 840 G8"); try reflexivity; discriminate.
Defined.

End Extraction.

(** ** The session gate *)

Section Gate.

Lemma callback_session (args : gmap string string) (err : option string)
    (info : gmap string string) (sess : session) :
  snd (callback args err info sess) = sess
  \/ exists email,
       info !! "email" = Some email
       /\ endswith email "@vvisd.org" = true
       /\ snd (callback args err info sess)
          = <["user_name" := default "User" (info !! "name")]> (<["user_email" := email]> sess).
Proof.
  unfold callback.
  destruct (args !! "error"); [now left |].
  destruct err; [now left |].
  destruct (endswith (default "" (info !! "email")) "@vvisd.org") eqn:He; [|now left].
  cbn [negb]. destruct (info !! "email") as [email|]; [|now left].
  right. exists email. auto.
Qed.

Lemma district_session_after (sess : session) (x : visit) :
  district_session sess -> district_session (session_after sess x).
Proof.
  intros Hd. destruct x as [u st | args err info | |]; cbn [session_after].
  - cbn. intros email. rewrite lookup_insert_ne by discriminate. apply Hd.
  - destruct (callback_session args err info sess) as [-> | (email & _ & He & ->)];
      [exact Hd |].
    intros email'. rewrite lookup_insert_ne by discriminate.
    rewrite lookup_insert_eq. now intros [= <-].
  - cbn. intros email. rewrite lookup_empty. discriminate.
  - exact Hd.
Qed.

Lemma district_session_after_all (xs : list visit) (sess : session) :
  district_session sess -> district_session (session_after_all sess xs).
Proof.
  unfold session_after_all. revert sess.
  induction xs as [|x xs IH]; intros sess Hd; [exact Hd |].
  cbn [fold_left]. apply IH. now apply district_session_after.
Qed.

Lemma district_session_empty : district_session ∅.
Proof. intros email. rewrite lookup_empty. discriminate. Qed.

Lemma endswith_iff (s suffix : string) :
  endswith s suffix = true <-> exists p, s = p ++ suffix.
Proof.
  unfold endswith. rewrite andb_true_iff, Nat.leb_le, eqb_eq. split.
  - intros [Hlen Heq]. exists (Str.slice_to (Str.length s - Str.length suffix) s).
    rewrite <- Heq at 2. apply slice_split.
  - intros [p ->]. rewrite length_app. split; [lia |].
    replace (Str.length p + Str.length suffix - Str.length suffix)
      with (Str.length p) by lia.
    apply slice_from_app.
Qed.

(** X12: whatever a client does - logging in, coming back from Google with
    any answer, logging out, in any order - its session names no user or a
    user whose e-mail address ends with the district's domain. *)
Theorem session_names_district_users_only (xs : list visit) (email : string) :
  session_after_all ∅ xs !! "user_email" = Some email ->
  exists name, email = name ++ "@vvisd.org".
Proof.
  intros H. apply endswith_iff.
  now apply (district_session_after_all xs ∅ district_session_empty).
Qed.

Lemma session_names_district_users_only_witness :
  session_after_all ∅
    [VisitLogin "https://accounts.google.com/o/oauth2/auth" "xyz";
     VisitCallback ∅ None
       (list_to_map [("email", "it@vvisd.org"); ("name", "IT Desk")])]
    !! "user_email" = Some "it@vvisd.org"
  /\ exists name, "it@vvisd.org" = name ++ "@vvisd.org".
Proof.
  assert (H : session_after_all ∅
                [VisitLogin "https://accounts.google.com/o/oauth2/auth" "xyz";
                 VisitCallback ∅ None
                   (list_to_map [("email", "it@vvisd.org"); ("name", "IT Desk")])]
                !! "user_email" = Some "it@vvisd.org") by (vm_compute; reflexivity).
  split; [exact H |].
  exact (session_names_district_users_only _ _ H).
Defined.

Lemma value_secured_lookup (v : vendor) (raw : string) (sess : session) (net : network) :
  value (secured_lookup v raw sess) net
  = match sess !! "user_email" with
    | None => Returned (Redirect "login")
    | Some _ => completion_map Json (value (resolve v raw) net)
    end
  /\ calls (secured_lookup v raw sess) net
     = match sess !! "user_email" with
       | None => []
       | Some _ => calls (resolve v raw) net
       end.
Proof.
  unfold secured_lookup, login_required.
  destruct (sess !! "user_email"); [|split; reflexivity].
  unfold value, calls, bind, ret. destruct (resolve v raw net) as [[r|x] l].
  - cbn. rewrite app_nil_r. split; reflexivity.
  - split; reflexivity.
Qed.

(** X13: a lookup of [device_lookup_api.py] is answered, and a request sent
    to a vendor, only for a session whose user has a district address; for
    any other session the answer is the redirect to the login page and the
    request log is empty.  This holds after any history of visits. *)
Theorem lookups_served_to_district_users_only (xs : list visit) (v : vendor)
    (raw : string) (net : network) :
  let sess := session_after_all ∅ xs in
  (exists name,
     sess !! "user_email" = Some (name ++ "@vvisd.org")
     /\ value (secured_lookup v raw sess) net
        = completion_map Json (value (resolve v raw) net)
     /\ calls (secured_lookup v raw sess) net = calls (resolve v raw) net)
  \/ (sess !! "user_email" = None
      /\ value (secured_lookup v raw sess) net = Returned (Redirect "login")
      /\ calls (secured_lookup v raw sess) net = []).
Proof.
  intros sess.
  destruct (value_secured_lookup v raw sess net) as [Hv Hc].
  pose proof (district_session_after_all xs ∅ district_session_empty) as Hd.
  fold sess in Hd. rewrite Hv, Hc.
  destruct (sess !! "user_email") as [email|] eqn:E.
  - left. destruct (proj1 (endswith_iff email "@vvisd.org") (Hd email E)) as [name ->].
    exists name. repeat split.
  - right. repeat split.
Qed.



Lemma no_user_after (xs : list visit) (sess : session) :
  forallb (fun x => negb (is_callback x)) xs = true ->
  sess !! "user_email" = None ->
  session_after_all sess xs !! "user_email" = None.
Proof.
  unfold session_after_all. revert sess.
  induction xs as [|x xs IH]; intros sess Hxs Hs; [exact Hs |].
  cbn [forallb] in Hxs. apply andb_true_iff in Hxs as [Hx Hxs].
  cbn [fold_left]. apply IH; [exact Hxs |].
  destruct x as [u st | args err info | |]; cbn [session_after]; try discriminate.
  - cbn. now rewrite lookup_insert_ne by discriminate.
  - cbn. apply lookup_empty.
  - exact Hs.
Qed.

(** X15: logging out closes the gate: after a logout, and until the next
    callback, every lookup is answered with the redirect to the login page
    and sends no request, whoever was logged in before. *)
Theorem logout_closes_the_gate (sess : session) (xs : list visit) (v : vendor)
    (raw : string) (net : network) :
  forallb (fun x => negb (is_callback x)) xs = true ->
  let sess' := session_after_all sess (VisitLogout :: xs) in
  value (secured_lookup v raw sess') net = Returned (Redirect "login")
  /\ calls (secured_lookup v raw sess') net = [].
Proof.
  intros Hxs sess'.
  assert (Hnone : sess' !! "user_email" = None).
  { unfold sess', session_after_all. cbn [fold_left session_after logout snd].
    apply (no_user_after xs ∅ Hxs). apply lookup_empty. }
  destruct (value_secured_lookup v raw sess' net) as [Hv Hc].
  rewrite Hv, Hc, Hnone. split; reflexivity.
Qed.

Lemma logout_closes_the_gate_witness :
  forallb (fun x => negb (is_callback x)) [VisitLogin "u" "s"; VisitOther] = true
  /\ value (secured_lookup Dell "A1B2C3D"
              (session_after_all (list_to_map [("user_email", "it@vvisd.org")])
                 [VisitLogout; VisitLogin "u" "s"; VisitOther]))
       (fun _ => Response [])
     = Returned (Redirect "login").
Proof.
  split; [reflexivity |].
  apply (logout_closes_the_gate (list_to_map [("user_email", "it@vvisd.org")])
           [VisitLogin "u" "s"; VisitOther] Dell "A1B2C3D" (fun _ => Response [])).
  reflexivity.
Defined.

End Gate.

(** ** The page *)

Section Page.

Lemma replace_absent (old new s : string) :
  Str.contains old s = false -> replace old new s = s.
Proof.
  unfold replace. induction s as [|c s IH]; [reflexivity |].
  cbn [Str.contains replace_from].
  destruct (Str.strip_prefix N.eqb old (String c s)); [discriminate |].
  intros H. now rewrite IH.
Qed.

(** X16: the page is served to a logged-in user only; without
    [index.html] the answer is a 500 with a plain message; a file that
    contains neither of the two place-holders is served unchanged; and
    serving the page sends no request. *)
Theorem serve_app_answers (index_html api_base_url_env : option string)
    (url_root : string) (sess : session) (net : network) :
  let r := value (serve_app index_html api_base_url_env url_root sess) net in
  (sess !! "user_email" = None -> r = Returned (Redirect "login"))
  /\ (is_Some (sess !! "user_email") -> index_html = None ->
      r = Returned (Text "Error: index.html not found on the server." 500))
  /\ (is_Some (sess !! "user_email") ->
      forall html, index_html = Some html ->
        Str.contains "Van Vleck ISD - Technology Inventory" html = false ->
        Str.contains "state.dellApiUrl = 'https://YOUR_DEPLOYED_API_URL';" html = false ->
        r = Returned (Html html))
  /\ calls (serve_app index_html api_base_url_env url_root sess) net = [].
Proof.
  cbv zeta. unfold serve_app, login_required. repeat split.
  - intros ->. reflexivity.
  - intros [u ->] ->. reflexivity.
  - intros [u ->] html -> H1 H2. rewrite value_ret. unfold serve_app_body.
    now rewrite (replace_absent _ _ _ H1), (replace_absent _ _ _ H2).
  - destruct (sess !! "user_email"); reflexivity.
Qed.

Lemma serve_app_answers_witness :
  is_Some ((list_to_map [("user_email", "it@vvisd.org")] : gmap string string)
             !! "user_email")
  /\ value (serve_app None None "https://inventory.example/"
              (list_to_map [("user_email", "it@vvisd.org")]))
       (fun _ => Response [])
     = Returned (Text "Error: index.html not found on the server." 500).
Proof.
  assert (H : is_Some ((list_to_map [("user_email", "it@vvisd.org")]
                          : gmap string string) !! "user_email"))
    by (exists "it@vvisd.org"; reflexivity).
  split; [exact H |].
  destruct (serve_app_answers None None "https://inventory.example/"
              (list_to_map [("user_email", "it@vvisd.org")]) (fun _ => Response []))
    as (_ & H500 & _).
  apply H500; [exact H | reflexivity].
Defined.

End Page.

(** ** Known prefixes *)

Section KnownPrefixes.

(** X17: for Apple, Cisco, Brother and Juniper a well-formed tag whose
    upper-cased prefix (three characters for Apple and Cisco, two for
    Brother and Juniper) is in the vendor's table resolves to that table
    entry, matched, with a diagnostic that quotes the prefix. *)
Theorem known_prefix_gives_table_entry (raw model : string) (net : network) :
  let s := Str.upper raw in
  let p3 := Str.upper (Str.slice_to 3 s) in
  let p2 := Str.upper (Str.slice_to 2 s) in
  (validate Apple s = true -> apple_prefix_to_model !! p3 = Some model ->
   outcome Apple raw net
   = Returned {| model_name := Some model; diagnostic := inferred_from_prefix p3;
                 matched := true |})
  /\ (validate Cisco s = true -> cisco_prefix_to_model !! p3 = Some model ->
      outcome Cisco raw net
      = Returned {| model_name := Some model;
                    diagnostic :=
             "Model inferred from serial number location code '" ++ p3 ++ "'. Please verify.";
                    matched := true |})
  /\ (validate Brother s = true -> brother_prefix_to_model !! p2 = Some model ->
      outcome Brother raw net
      = Returned {| model_name := Some model; diagnostic := inferred_from_prefix p2;
                    matched := true |})
  /\ (validate Juniper s = true -> juniper_prefix_to_model !! p2 = Some model ->
      outcome Juniper raw net
      = Returned {| model_name := Some model; diagnostic := inferred_from_prefix p2;
                    matched := true |}).
Proof.
  intros s p3 p2. repeat split; intros Hv Hm;
    rewrite (outcome_valid _ _ _ Hv); fold s; unfold validate in Hv;
    cbn [vendor_regex] in Hv; cbn [resolver]; unfold pure_resolver, value, ret; cbn [fst].
  - unfold get_apple_model_name. rewrite Hv. cbn [negb]. cbv iota. fold p3. rewrite Hm.
    cbn [completion_map]. f_equal. apply matched_result. now apply (apple_entries_nonempty p3).
  - unfold get_cisco_model_name. rewrite Hv. cbn [negb]. cbv iota. fold p3. rewrite Hm.
    cbn [completion_map]. f_equal. apply matched_result. now apply (cisco_entries_nonempty p3).
  - unfold get_brother_model_name. rewrite Hv. cbn [negb]. cbv iota. fold p2. rewrite Hm.
    cbn [completion_map]. f_equal. apply matched_result. now apply (brother_entries_nonempty p2).
  - unfold get_juniper_model_name. rewrite Hv. cbn [negb]. cbv iota. fold p2. rewrite Hm.
    cbn [completion_map]. f_equal. apply matched_result. now apply (juniper_entries_nonempty p2).
Qed.

Lemma known_prefix_gives_table_entry_witness :
  (validate Juniper (Str.upper "ab1234567890") = true
   /\ juniper_prefix_to_model !! Str.upper (Str.slice_to 2 (Str.upper "ab1234567890"))
      = Some "EX4100-48P")
  /\ outcome Juniper "ab1234567890" (fun _ => Response [])
     = Returned {| model_name := Some "EX4100-48P"; diagnostic := inferred_from_prefix "AB";
                   matched := true |}.
Proof.
  split; [split; reflexivity |].
  destruct (known_prefix_gives_table_entry "ab1234567890" "EX4100-48P"
              (fun _ => Response [])) as (_ & _ & _ & H).
  etransitivity; [apply H; reflexivity | reflexivity].
Defined.

End KnownPrefixes.

(** ** The ViewSonic title *)

Section ViewSonicTitle.

Lemma rstrip_no_space (s : string) :
  Str.all (fun c => negb (Str.is_space c)) s = true -> Str.rstrip s = s.
Proof.
  induction s as [|c s IH]; [reflexivity |].
  cbn [Str.all Str.rstrip]. intros H. apply andb_true_iff in H as [Hc Hs].
  rewrite (IH Hs). apply negb_true_iff in Hc. rewrite Hc. destruct s; reflexivity.
Qed.

Lemma strip_no_space (s : string) :
  Str.all (fun c => negb (Str.is_space c)) s = true -> Str.strip s = s.
Proof.
  intros H. unfold Str.strip.
  assert (Hl : Str.lstrip s = s).
  { destruct s as [|c s]; [reflexivity |]. cbn in H |- *.
    apply andb_true_iff in H as [Hc _]. apply negb_true_iff in Hc. now rewrite Hc. }
  rewrite Hl. now apply rstrip_no_space.
Qed.

Lemma head_of_app (p : char -> bool) (a b : string) :
  a <> "" ->
  match a with String c _ => p c = false | EmptyString => True end ->
  match a ++ b with String c _ => p c = false | EmptyString => True end.
Proof. destruct a as [|c a]; [contradiction | intros _ H; now rewrite app_cons]. Qed.

Lemma viewsonic_title_search (sp1 model sp2 tail : string) :
  sp1 <> "" -> Str.all Str.is_space sp1 = true ->
  model <> "" -> Str.all Str.is_upper_alnum model = true ->
  sp2 <> "" -> Str.all Str.is_space sp2 = true ->
  Re.search VIEWSONIC_TITLE_RE ("ViewSonic" ++ sp1 ++ model ++ sp2 ++ "Product" ++ tail)
  = Some {| Re.group1 := Some model; Re.rest := tail |}.
Proof.
  intros Hsp1 Hall1 Hm Hallm Hsp2 Hall2.
  assert (Hlit : Str.strip_prefix (Re.eq_char false) "Product" ("Product" ++ tail)
                 = Some tail)
    by (apply strip_prefix_app; intros c; apply N.eqb_refl).
  assert (Hmodel_head :
            match model ++ sp2 ++ "Product" ++ tail with
            | String c _ => Str.is_space c = false
            | EmptyString => True
            end).
  { apply head_of_app; [exact Hm |].
    destruct model as [|c model]; [contradiction |].
    cbn in Hallm. apply andb_true_iff in Hallm as [Hc _].
    apply upper_alnum_not_space, negb_true_iff in Hc. exact Hc. }
  assert (Hsp2_head :
            match sp2 ++ "Product" ++ tail with
            | String c _ => Str.is_upper_alnum c = false
            | EmptyString => True
            end).
  { apply head_of_app; [exact Hsp2 |].
    destruct sp2 as [|c sp2]; [contradiction |].
    cbn in Hall2. apply andb_true_iff in Hall2 as [Hc _].
    now apply space_not_upper_alnum. }
  assert (Hconsumed : Re.consumed (model ++ sp2 ++ "Product" ++ tail)
                        (sp2 ++ "Product" ++ tail) = model).
  { unfold Re.consumed. rewrite length_app.
    replace (Str.length model + Str.length (sp2 ++ "Product" ++ tail)
             - Str.length (sp2 ++ "Product" ++ tail))
      with (Str.length model) by lia.
    apply slice_to_app. }
  assert (Hinner : forall b cap,
             Re.rep_exec true Str.is_space 1 None b (sp2 ++ "Product" ++ tail) cap
               (fun b' s' c' =>
                  match Str.strip_prefix (Re.eq_char false) "Product" s' with
                  | Some s'' => Some {| Re.group1 := c'; Re.rest := s'' |}
                  | None => None
                  end)
             = Some {| Re.group1 := cap; Re.rest := tail |}).
  { intros b cap. rewrite (greedy_run_to_end Str.is_space ("Product" ++ tail)).
    - now rewrite Hlit.
    - reflexivity.
    - rewrite Hlit. eauto.
    - destruct sp2; [contradiction | cbn; lia].
    - exact Hall2. }
  unfold Re.search. rewrite search_from_unfold.
  unfold Re.match_at, VIEWSONIC_TITLE_RE, Re.plus. cbn [Re.exec].
  rewrite (strip_prefix_app (Re.eq_char false) "ViewSonic")
    by (intros c; apply N.eqb_refl).
  cbn [Str.nonempty negb andb].
  rewrite (greedy_run_to_end Str.is_space (model ++ sp2 ++ "Product" ++ tail)).
  - rewrite (greedy_run_to_end Str.is_upper_alnum (sp2 ++ "Product" ++ tail)).
    + rewrite Hinner, Hconsumed. reflexivity.
    + exact Hsp2_head.
    + rewrite Hinner. eauto.
    + destruct model; [contradiction | cbn; lia].
    + exact Hallm.
  - exact Hmodel_head.
  - rewrite (greedy_run_to_end Str.is_upper_alnum (sp2 ++ "Product" ++ tail)).
    + rewrite Hinner. eauto.
    + exact Hsp2_head.
    + rewrite Hinner. eauto.
    + destruct model; [contradiction | cbn; lia].
    + exact Hallm.
  - destruct sp1; [contradiction | cbn; lia].
  - exact Hall1.
Qed.

(** X18: on a ViewSonic page without the product-name heading and without
    the model-name span, a title that reads ViewSonic, white space, a model
    made of capitals and digits, white space, Product, and anything after,
    gives exactly that model with the title-fallback message. *)
Theorem viewsonic_title_gives_model (soup : page) (t : element)
    (sp1 model sp2 tail : string) :
  find_class "h1" "product-name" soup = None ->
  find_class "span" "model-name" soup = None ->
  find_tag "title" soup = Some t ->
  text t = "ViewSonic" ++ sp1 ++ model ++ sp2 ++ "Product" ++ tail ->
  sp1 <> "" -> Str.all Str.is_space sp1 = true ->
  model <> "" -> Str.all Str.is_upper_alnum model = true ->
  sp2 <> "" -> Str.all Str.is_space sp2 = true ->
  viewsonic_parse soup = (Some model, "Model name scraped from page title (fallback).").
Proof.
  intros H1 H2 Ht Htext Hsp1 Hall1 Hm Hallm Hsp2 Hall2.
  unfold viewsonic_parse, title_fallback. rewrite H1, H2, Ht, Htext.
  assert (Hc : Str.contains "ViewSonic"
                 ("ViewSonic" ++ sp1 ++ model ++ sp2 ++ "Product" ++ tail) = true)
    by reflexivity.
  rewrite Hc, (viewsonic_title_search sp1 model sp2 tail) by assumption.
  cbn [Re.group1].
  rewrite (strip_no_space model)
    by (apply (all_impl Str.is_upper_alnum); [apply upper_alnum_not_space | exact Hallm]).
  apply nonempty_true in Hm. now rewrite Hm.
Qed.

Lemma viewsonic_title_gives_model_witness :
  (find_tag "title" [mkElement "title" [] None "ViewSonic IFP6550 Product Support"]
   = Some (mkElement "title" [] None "ViewSonic IFP6550 Product Support")
   /\ Str.all Str.is_space " " = true
   /\ Str.all Str.is_upper_alnum "IFP6550" = true)
  /\ viewsonic_parse [mkElement "title" [] None "ViewSonic IFP6550 Product Support"]
     = (Some "IFP6550", "Model name scraped from page title (fallback).").
Proof.
  split; [repeat split; reflexivity |].
  apply (viewsonic_title_gives_model _
           (mkElement "title" [] None "ViewSonic IFP6550 Product Support")
           " " "IFP6550" " " " Support"); try reflexivity; discriminate.
Defined.

End ViewSonicTitle.

(** ** The HP title *)

Section HPTitle.

Lemma contains_unfold (p s : string) :
  Str.contains p s
  = match Str.strip_prefix N.eqb p s with
    | Some _ => true
    | None => match s with
              | EmptyString => false
              | String _ s' => Str.contains p s'
              end
    end.
Proof. destruct s; reflexivity. Qed.

Lemma contains_app (p a b : string) : Str.contains p (a ++ p ++ b) = true.
Proof.
  induction a as [|c a IH].
  - rewrite app_empty_l, contains_unfold, strip_prefix_app; [reflexivity |].
    intros c. apply N.eqb_refl.
  - rewrite app_cons, contains_unfold.
    destruct (Str.strip_prefix N.eqb p (String c (a ++ p ++ b))); [reflexivity |].
    exact IH.
Qed.

Lemma good_tail (c : char) (m : string) :
  bar_free_ending_in_text (String c m) = true -> m <> "" ->
  bar_free_ending_in_text m = true.
Proof.
  unfold bar_free_ending_in_text. cbn [Str.all last_is].
  destruct m as [|d m]; [contradiction |].
  rewrite !andb_true_iff. intros [[_ Hall] Hlast] _. auto.
Qed.

Lemma good_head (c : char) (m : string) :
  bar_free_ending_in_text (String c m) = true -> plain_char c = true.
Proof.
  unfold bar_free_ending_in_text. cbn [Str.all].
  rewrite !andb_true_iff. now intros [[Hc _] _].
Qed.

(** The lazy run of the HP title stops at the end of the name when the
    continuation fails after every shorter non-empty prefix. *)
Lemma lazy_run_to_text_end {R} (sfx : string) (cap : option string) (k : @Re.cont R) :
  (forall m2 b, m2 <> "" -> bar_free_ending_in_text m2 = true ->
     k b (m2 ++ sfx) cap = None) ->
  is_Some (k false sfx cap) ->
  forall m lo b,
    m <> "" -> lo <= 1 -> bar_free_ending_in_text m = true ->
    Re.rep_exec false Str.is_dot lo None b (m ++ sfx) cap k = k false sfx cap.
Proof.
  intros Hfail [x Hx]. induction m as [|c m IH]; intros lo b Hm Hlo Hgood;
    [contradiction |].
  rewrite app_cons. cbn [Re.rep_exec].
  pose proof (good_head c m Hgood) as Hc.
  unfold plain_char in Hc. apply andb_true_iff in Hc as [Hc _]. rewrite Hc.
  assert (Hstop : (if lo =? 0 then k b (String c (m ++ sfx)) cap else None) = None).
  { destruct (lo =? 0); [|reflexivity].
    rewrite <- app_cons. apply Hfail; [discriminate | exact Hgood]. }
  rewrite Hstop. cbn [Re.orelse option_map].
  destruct m as [|d m].
  - rewrite app_empty_l.
    assert (E : Re.rep_exec false Str.is_dot (pred lo) None false sfx cap k
                = k false sfx cap).
    { assert (pred lo = 0) as -> by lia.
      destruct sfx; cbn; now rewrite Hx. }
    exact E.
  - apply IH; [discriminate | lia | now apply (good_tail c)].
Qed.

(** After a run of white space taken off the front of [m2 ++ sfx], what is
    left still starts inside [m2]. *)
Lemma space_run_stays_inside (pre : string) :
  forall m2 sfx rest,
    m2 <> "" -> bar_free_ending_in_text m2 = true ->
    Str.all Str.is_space pre = true ->
    m2 ++ sfx = pre ++ rest ->
    exists c m3, rest = String c (m3 ++ sfx) /\ plain_char c = true.
Proof.
  induction pre as [|p pre IH]; intros m2 sfx rest Hm Hgood Hall Heq.
  - rewrite app_empty_l in Heq. subst rest.
    destruct m2 as [|c m2]; [contradiction |].
    exists c, m2. rewrite app_cons. split; [reflexivity | now apply (good_head c m2)].
  - destruct m2 as [|c m2]; [contradiction |].
    rewrite !app_cons in Heq. injection Heq as -> Heq.
    cbn in Hall. apply andb_true_iff in Hall as [Hp Hall].
    destruct m2 as [|d m2].
    + unfold bar_free_ending_in_text in Hgood. cbn in Hgood.
      rewrite Hp in Hgood. rewrite andb_false_r in Hgood. discriminate.
    + apply (IH (String d m2) sfx rest); try assumption; [discriminate |].
      now apply (good_tail p).
Qed.

Lemma hp_tail_needs_bar (b : bool) (c : char) (s : string) (cap cap' : option string) :
  plain_char c = true -> hp_tail_cont cap b (String c s) cap' = None.
Proof.
  intros Hc. unfold hp_tail_cont. cbn [Re.exec Str.strip_prefix].
  unfold plain_char in Hc. apply andb_true_iff in Hc as [_ Hc].
  apply negb_true_iff in Hc. unfold Re.eq_char. rewrite N.eqb_sym, Hc. reflexivity.
Qed.

Lemma hp_tail_ok (b : bool) (sp2 tail : string) (cap : option string) :
  sp2 <> "" -> Str.all Str.is_space sp2 = true ->
  hp_tail_cont cap b ("|" ++ sp2 ++ "HP Product Information" ++ tail) cap
  = Some {| Re.group1 := cap; Re.rest := tail |}.
Proof.
  intros Hsp2 Hall2. unfold hp_tail_cont, Re.plus. cbn [Re.exec].
  rewrite (strip_prefix_app (Re.eq_char false) "|") by (intros c; apply N.eqb_refl).
  assert (Hlit : Str.strip_prefix (Re.eq_char false) "HP Product Information"
                   ("HP Product Information" ++ tail) = Some tail)
    by (apply strip_prefix_app; intros c; apply N.eqb_refl).
  rewrite (greedy_run_to_end Str.is_space ("HP Product Information" ++ tail)).
  - now rewrite Hlit.
  - reflexivity.
  - rewrite Hlit. eauto.
  - destruct sp2; [contradiction | cbn; lia].
  - exact Hall2.
Qed.

Lemma hp_title_search (m sp1 sp2 tail : string) :
  m <> "" -> bar_free_ending_in_text m = true ->
  sp1 <> "" -> Str.all Str.is_space sp1 = true ->
  sp2 <> "" -> Str.all Str.is_space sp2 = true ->
  Re.search HP_TITLE_RE (m ++ sp1 ++ "|" ++ sp2 ++ "HP Product Information" ++ tail)
  = Some {| Re.group1 := Some m; Re.rest := tail |}.
Proof.
  intros Hm Hgood Hsp1 Hall1 Hsp2 Hall2.
  set (sfx := sp1 ++ "|" ++ sp2 ++ "HP Product Information" ++ tail).
  set (s0 := m ++ sfx).
  set (k := fun (b : bool) (s' : string) (_ : option string) =>
              Re.rep_exec true Str.is_space 1 None b s' (Some (Re.consumed s0 s'))
                (hp_tail_cont (Some (Re.consumed s0 s')))).
  assert (Hconsumed : Re.consumed s0 sfx = m).
  { unfold Re.consumed, s0. rewrite length_app.
    replace (Str.length m + Str.length sfx - Str.length sfx)
      with (Str.length m) by lia.
    apply slice_to_app. }
  assert (Hend : k false sfx None = Some {| Re.group1 := Some m; Re.rest := tail |}).
  { unfold k. rewrite Hconsumed. unfold sfx.
    rewrite (greedy_run_to_end Str.is_space
               ("|" ++ sp2 ++ "HP Product Information" ++ tail)).
    - now apply hp_tail_ok.
    - reflexivity.
    - rewrite hp_tail_ok by assumption. eauto.
    - destruct sp1; [contradiction | cbn; lia].
    - exact Hall1. }
  assert (Hmatch : Re.match_at HP_TITLE_RE true s0
                   = Some {| Re.group1 := Some m; Re.rest := tail |}).
  { change (Re.match_at HP_TITLE_RE true s0)
      with (Re.rep_exec false Str.is_dot 1 None true s0 None k).
    unfold s0. rewrite (lazy_run_to_text_end sfx None k).
    - exact Hend.
    - intros m2 b Hm2 Hgood2. unfold k.
      destruct (Re.rep_exec true Str.is_space 1 None b (m2 ++ sfx)
                  (Some (Re.consumed s0 (m2 ++ sfx)))
                  (hp_tail_cont (Some (Re.consumed s0 (m2 ++ sfx))))) as [x|] eqn:E;
        [|reflexivity].
      assert (Hs : is_Some (Re.rep_exec true Str.is_space 1 None b (m2 ++ sfx)
                              (Some (Re.consumed s0 (m2 ++ sfx)))
                              (hp_tail_cont (Some (Re.consumed s0 (m2 ++ sfx))))))
        by (rewrite E; eauto).
      apply rep_exec_is_Some in Hs as (pre & rest & Heq & _ & _ & Hpre & [y Hy]).
      destruct (space_run_stays_inside pre m2 sfx rest Hm2 Hgood2 Hpre Heq)
        as (c & m3 & -> & Hc).
      rewrite (hp_tail_needs_bar _ c _ _ _ Hc) in Hy. discriminate.
    - rewrite Hend. eauto.
    - exact Hm.
    - lia.
    - exact Hgood. }
  unfold Re.search. rewrite search_from_unfold. fold s0. now rewrite Hmatch.
Qed.

(** X19: on an HP page without the product-title heading and without the
    product-name span, a title that reads a name, white space, a vertical
    bar, white space, HP Product Information, where the name has no line
    feed and no vertical bar and does not end with white space, gives the
    name stripped of leading white space, with the title-fallback message. *)
Theorem hp_title_gives_model (soup : page) (t : element) (m sp1 sp2 tail : string) :
  find_class "h1" "product-title" soup = None ->
  find_class "span" "product-name" soup = None ->
  find_tag "title" soup = Some t ->
  text t = m ++ sp1 ++ "|" ++ sp2 ++ "HP Product Information" ++ tail ->
  m <> "" -> bar_free_ending_in_text m = true ->
  sp1 <> "" -> Str.all Str.is_space sp1 = true ->
  sp2 <> "" -> Str.all Str.is_space sp2 = true ->
  hp_parse soup
  = if Str.nonempty (Str.strip m)
    then (Some (Str.strip m), "Model name scraped from page title (fallback).")
    else (None, NOT_ON_PAGE).
Proof.
  intros H1 H2 Ht Htext Hm Hgood Hsp1 Hall1 Hsp2 Hall2.
  unfold hp_parse, title_fallback. rewrite H1, H2, Ht, Htext.
  assert (Hc : Str.contains "HP Product Information"
                 (m ++ sp1 ++ "|" ++ sp2 ++ "HP Product Information" ++ tail) = true).
  { rewrite <- !app_assoc_str.
    rewrite (app_assoc_str _ "HP Product Information" tail). apply contains_app. }
  rewrite Hc, (hp_title_search m sp1 sp2 tail) by assumption.
  cbn [Re.group1]. destruct (Str.nonempty (Str.strip m)); reflexivity.
Qed.

Lemma hp_title_gives_model_witness :
  (find_tag "title" [mkElement "title" [] None "EliteBook 840 G8 | HP Product Information"]
   = Some (mkElement "title" [] None "EliteBook 840 G8 | HP Product Information")
   /\ bar_free_ending_in_text "EliteBook 840 G8" = true
   /\ Str.all Str.is_space " " = true)
  /\ hp_parse [mkElement "title" [] None "EliteBook 840 G8 | HP Product Information"]
     = (Some "EliteBook 840 G8", "Model name scraped from page title (fallback).").
Proof.
  split; [repeat split; reflexivity |].
  etransitivity;
    [apply (hp_title_gives_model _
              (mkElement "title" [] None "EliteBook 840 G8 | HP Product Information")
              "EliteBook 840 G8" " " " " ""); try reflexivity; discriminate
    | reflexivity].
Defined.

End HPTitle.
